(** * uw-decision-support, ml-service: model lifecycle and feature pipeline

    A shallow embedding of the Python sources under [ml-service/app]
    (feature engineering, the two model families, the model manager, the
    data loader, the inference service and the trainer), followed by the
    properties of the design document that were checked against them.

    Python values are dynamically typed, so dictionaries are finite maps from
    text to a universal value type [pyval]; a Python [float] is an IEEE 754
    binary64 number (Rocq's primitive [float]); an exception is the [Raise]
    branch of [result].  Text is modelled as byte strings, which is exact for
    ASCII input (all keyword tables of the program are ASCII). *)

From Stdlib Require Import ZArith Floats Ascii.
From stdpp Require Import base option list gmap strings pretty.

Set Warnings "-inexact-float,-register-all".
Set Default Proof Using "Type".

Local Open Scope string_scope.
Local Open Scope Z_scope.

(** ** Python values, exceptions and the primitives the sources use *)
Module Py.

Inductive pyval :=
| PNone
| PBool (b : bool)
| PInt (z : Z)
| PFloat (f : float)
| PStr (s : string)
| PList (l : list pyval)
| PDict (d : gmap string pyval).

Inductive exn :=
| TypeError
| AttributeError
| ValueError (msg : string)
| ZeroDivisionError
| OverflowError
| KeyError
| IndexError
| OSError.

Inductive result (A : Type) :=
| Ok (a : A)
| Raise (e : exn).
Arguments Ok {A} a.
Arguments Raise {A} e.

#[global] Instance result_ret : MRet result := fun _ a => Ok a.
#[global] Instance result_bind : MBind result := fun _ _ f r =>
  match r with Ok a => f a | Raise e => Raise e end.
#[global] Instance result_fmap : FMap result := fun _ _ f r =>
  match r with Ok a => Ok (f a) | Raise e => Raise e end.

(** [for x in l] with a body that may raise: stops at the first exception. *)
Fixpoint mapM {A B} (f : A → result B) (l : list A) : result (list B) :=
  match l with
  | [] => Ok []
  | x :: l' => y ← f x; ys ← mapM f l'; Ok (y :: ys)
  end.

Definition is_ok {A} (r : result A) : bool :=
  match r with Ok _ => true | Raise _ => false end.

(** *** Truth value, [or], [dict.get] *)
Definition truthy (v : pyval) : bool :=
  match v with
  | PNone => false
  | PBool b => b
  | PInt z => negb (z =? 0)
  | PFloat f => negb (f =? 0)%float
  | PStr s => negb (String.eqb s "")
  | PList l => match l with [] => false | _ => true end
  | PDict d => match map_to_list d with [] => false | _ => true end
  end.

Definition py_or (a b : pyval) : pyval := if truthy a then a else b.

(** [d.get(k)] and [d.get(k, dflt)] on a dictionary. *)
Definition get (d : gmap string pyval) (k : string) : pyval :=
  default PNone (d !! k).
Definition get_or (d : gmap string pyval) (k : string) (dflt : pyval) : pyval :=
  default dflt (d !! k).

(** Attribute access [v.get] on a value that should be a dictionary. *)
Definition as_dict (v : pyval) : result (gmap string pyval) :=
  match v with PDict d => Ok d | _ => Raise AttributeError end.

(** [for x in v]: lists give their items, text its characters, a dictionary
    its keys; anything else is not iterable. *)
Fixpoint chars (s : string) : list pyval :=
  match s with
  | EmptyString => []
  | String c s' => PStr (String c "") :: chars s'
  end.
Definition iter (v : pyval) : result (list pyval) :=
  match v with
  | PList l => Ok l
  | PStr s => Ok (chars s)
  | PDict d => Ok ((λ kv, PStr kv.1) <$> map_to_list d)
  | _ => Raise TypeError
  end.

(** [v == "literal"]. *)
Definition eq_str (v : pyval) (s : string) : bool :=
  match v with PStr s' => String.eqb s' s | _ => false end.

(** *** Text *)
Definition lower_ascii (c : Ascii.ascii) : Ascii.ascii :=
  let n := Ascii.nat_of_ascii c in
  if (65 <=? n)%nat && (n <=? 90)%nat then Ascii.ascii_of_nat (n + 32) else c.

Fixpoint lower (s : string) : string :=
  match s with
  | EmptyString => EmptyString
  | String c s' => String (lower_ascii c) (lower s')
  end.

(** [v.lower()]: only text has the method. *)
Definition py_lower (v : pyval) : result string :=
  match v with PStr s => Ok (lower s) | _ => Raise AttributeError end.

(** [sep.join(l)]. *)
Fixpoint join (sep : string) (l : list string) : string :=
  match l with
  | [] => ""
  | [s] => s
  | s :: l' => s +:+ sep +:+ join sep l'
  end.

(** [kw in text]: [kw] occurs as a contiguous piece of [text]. *)
Fixpoint contains (kw text : string) : bool :=
  String.prefix kw text ||
  match text with
  | EmptyString => false
  | String _ t => contains kw t
  end.

(** [any(kw in text for kw in kws)]. *)
Definition any_in (kws : list string) (text : string) : bool :=
  existsb (λ kw, contains kw text) kws.

(** [s.replace(c, new)] for a one-character pattern. *)
Fixpoint replace_char (c : Ascii.ascii) (new : string) (s : string) : string :=
  match s with
  | EmptyString => EmptyString
  | String a s' =>
      if Ascii.eqb a c then new +:+ replace_char c new s'
      else String a (replace_char c new s')
  end.

(** [x in l] for a list of texts, and [table.get(k, [])] on a literal table. *)
Definition mem (x : string) (l : list string) : bool := existsb (String.eqb x) l.

Fixpoint assoc (k : string) (table : list (string * list string)) : list string :=
  match table with
  | [] => []
  | (k', v) :: rest => if String.eqb k k' then v else assoc k rest
  end.

(** *** Numbers *)

(** An integer as an unrounded binary float [m * 2^0]. *)
Definition Z2SF (z : Z) : spec_float :=
  match z with
  | Z0 => S754_zero false
  | Zpos p => S754_finite false p 0
  | Zneg p => S754_finite true p 0
  end.

(** [float(z)]: the nearest binary64 value, ties to even. *)
Definition Z2F (z : Z) : float := SF2Prim (binary_normalize prec emax z 0 false).

Definition is_inf (f : float) : bool :=
  (f =? infinity)%float || (f =? neg_infinity)%float.

Definition float_of_int (z : Z) : result float :=
  let f := Z2F z in if is_inf f then Raise OverflowError else Ok f.

Inductive num := NInt (z : Z) | NFloat (f : float).

(** The numeric reading of a value ([bool] is a subtype of [int]). *)
Definition as_num (v : pyval) : option num :=
  match v with
  | PBool b => Some (NInt (Z.b2z b))
  | PInt z => Some (NInt z)
  | PFloat f => Some (NFloat f)
  | _ => None
  end.

Definition num_to_float (n : num) : result float :=
  match n with NInt z => float_of_int z | NFloat f => Ok f end.

(** [a / b] (true division).  Two integers give the correctly rounded
    quotient; otherwise both sides are converted to [float] first.  *)
Definition truediv (a b : pyval) : result float :=
  match as_num a, as_num b with
  | Some (NInt x), Some (NInt y) =>
      if y =? 0 then Raise ZeroDivisionError
      else
        let q := SF2Prim (SFdiv prec emax (Z2SF x) (Z2SF y)) in
        if is_inf q then Raise OverflowError else Ok q
  | Some x, Some y =>
      fx ← num_to_float x; fy ← num_to_float y;
      if (fy =? 0)%float then Raise ZeroDivisionError else Ok (fx / fy)%float
  | _, _ => Raise TypeError
  end.

(** [v >= n] for an integer literal [n] that binary64 represents exactly
    (every literal compared against in the sources is). *)
Definition ge_int (v : pyval) (n : Z) : result bool :=
  match as_num v with
  | Some (NInt z) => Ok (n <=? z)
  | Some (NFloat f) => Ok (Z2F n <=? f)%float
  | None => Raise TypeError
  end.

(** [round(x, 1)] on a float: the decimal rounding, ties to even, of the exact
    value of [x] to one place, read back as the nearest float.  From 2^49 on
    neighbouring floats are at least 1/8 apart and every value rounds to
    itself; below, the scaled integer is exact in binary64. *)
Definition round1 (x : float) : float :=
  match Prim2SF x with
  | S754_finite s m e =>
      if -3 <=? e then x
      else
        let d := 2 ^ (- e) in
        let q := (10 * Z.pos m) `div` d in
        let r := (10 * Z.pos m) `mod` d in
        let n := if 2 * r <? d then q
                 else if d <? 2 * r then q + 1
                 else if Z.even q then q else q + 1 in
        let y := (Z2F n / 10)%float in
        if s then (- y)%float else y
  | _ => x
  end.

(** *** numpy's cast to [float32] *)

(** A binary64 value rounded to binary32 (kept in a [float]). *)
Definition round32 (f : float) : float :=
  match Prim2SF f with
  | S754_finite s m e =>
      SF2Prim (binary_normalize 24 128 (if s then Z.neg m else Z.pos m) e s)
  | _ => f
  end.

(** One cell of [np.array(..., dtype=np.float32)]: [None] becomes NaN, numbers
    go through a C double.  Text, lists and dictionaries are rejected here,
    whereas numpy parses decimal text and builds an array of higher rank
    from lists of equal length; what is stated below of the arrays that come
    out of the cast is stated for cells that are [None] or numbers. *)
Definition np_float32 (v : pyval) : result float :=
  match v with
  | PNone => Ok nan
  | PBool _ | PInt _ | PFloat _ =>
      match as_num v with
      | Some n => round32 <$> num_to_float n
      | None => Raise TypeError
      end
  | PStr _ => Raise (ValueError "could not convert string to float")
  | PList _ | PDict _ => Raise TypeError
  end.

Definition np_array_f32 (row : list pyval) : result (list float) :=
  mapM np_float32 row.

(** [max(0.0, min(1.0, y))] with Python's [min]/[max]: the first argument is
    kept unless the second compares strictly smaller (larger). *)
Definition py_min (a b : float) : float := if (b <? a)%float then b else a.
Definition py_max (a b : float) : float := if (a <? b)%float then b else a.

End Py.
Export Py.

(** Dictionary displays: [{k1: v1, ...}] (a later entry wins) and
    [{**a, **b}] (entries of [b] win). *)
Definition mkdict (l : list (string * pyval)) : gmap string pyval :=
  foldl (λ m kv, <[kv.1 := kv.2]> m) ∅ l.
Definition merge_into (a b : gmap string pyval) : gmap string pyval := b ∪ a.

(** ** config.py *)
Module Config.

Record Settings := {
  model_dir : string;
  current_model_version : string;
  min_training_samples : Z;
  complexity_features : list string;
  test_yield_features : list string;
}.

(** The defaults of the class; [model_dir] defaults to a directory next to
    the installed package, written here relative to it. *)
Definition default_settings : Settings := {|
  model_dir := "app/../models";
  current_model_version := "v1";
  min_training_samples := 100;
  complexity_features :=
    ["age"; "bmi"; "sum_assured"; "smoking_status";
     "condition_count"; "medication_count"; "has_cardiac";
     "has_diabetes"; "has_hypertension"; "has_renal";
     "family_history_cardiac"; "family_history_diabetes"];
  test_yield_features :=
    ["age"; "bmi"; "smoking_status"; "condition_count";
     "has_condition_related"; "sum_assured_tier"];
|}.

End Config.

(** ** training/feature_engineering.py *)
Module FeatureEngineer.

Definition calculate_bmi (height_cm weight_kg : pyval) : result pyval :=
  if negb (truthy height_cm) || negb (truthy weight_kg) then Ok PNone
  else
    height_m ← truediv height_cm (PInt 100);
    q ← truediv weight_kg (PFloat (height_m * height_m));
    Ok (PFloat (round1 q)).

Record date := { year : Z; month : Z; day : Z }.

(** [(m1, d1) < (m2, d2)] on tuples. *)
Definition md_lt (a b : date) : bool :=
  (month a <? month b) || ((month a =? month b) && (day a <? day b)).

Section Clock.
(** [datetime.fromisoformat] belongs to the Python library and the texts it
    accepts differ between Python versions: it is a parameter, [None]
    standing for its [ValueError].  [today] is what [datetime.now()] reads
    from the clock. *)
Variable fromisoformat : string → option date.
Variable today : date.

(** Never raises: the bare [except] also swallows the [AttributeError] of
    [.replace] on a value that is not text. *)
Definition calculate_age (date_of_birth : pyval) : pyval :=
  if negb (truthy date_of_birth) then PNone
  else
    match date_of_birth with
    | PStr s =>
        match fromisoformat (replace_char "Z" "+00:00" s) with
        | Some dob =>
            let age := year today - year dob in
            PInt (if md_lt today dob then age - 1 else age)
        | None => PNone
        end
    | _ => PNone
    end.
End Clock.

Definition encode_smoking_status (status : pyval) : Z :=
  if eq_str status "current" then 2
  else if eq_str status "former" then 1
  else 0.

Definition get_sum_assured_tier (sum_assured : pyval) : result Z :=
  c3 ← ge_int sum_assured 10000000;
  if c3 : bool then Ok 3
  else
    c2 ← ge_int sum_assured 5000000;
    if c2 : bool then Ok 2
    else
      c1 ← ge_int sum_assured 2500000;
      if c1 : bool then Ok 1 else Ok 0.

(** [[d.get(field, "").lower() for d in l if d.get("disclosure_type") == tag]] *)
Fixpoint lowered_names (tag field : string) (l : list pyval) : result (list string) :=
  match l with
  | [] => Ok []
  | v :: l' =>
      d ← as_dict v;
      if eq_str (get d "disclosure_type") tag
      then
        s ← py_lower (get_or d field (PStr ""));
        ss ← lowered_names tag field l';
        Ok (s :: ss)
      else lowered_names tag field l'
  end.

Definition condition_flags_of (condition_text : string) : gmap string pyval :=
  mkdict
    [("has_cardiac", PBool (any_in ["cardiac"; "heart"; "coronary"; " mi "; "angina"; "arrhythmia"] condition_text));
     ("has_diabetes", PBool (contains "diabetes" condition_text));
     ("has_hypertension", PBool (any_in ["hypertension"; "blood pressure"; "htn"] condition_text));
     ("has_renal", PBool (any_in ["kidney"; "renal"; "ckd"; "nephro"] condition_text));
     ("has_hepatic", PBool (any_in ["liver"; "hepatic"; "cirrhosis"] condition_text));
     ("has_respiratory", PBool (any_in ["asthma"; "copd"; "respiratory"; "pulmonary"] condition_text));
     ("has_cancer", PBool (any_in ["cancer"; "malignant"; "tumor"; "carcinoma"] condition_text));
     ("has_neurological", PBool (any_in ["stroke"; "epilepsy"; "parkinson"; "alzheimer"] condition_text))].

Definition extract_condition_flags (disclosures : pyval) : result (gmap string pyval) :=
  l ← iter disclosures;
  names ← lowered_names "condition" "condition_name" l;
  Ok (condition_flags_of (join " " names)).

Definition family_flags_of (family_text : string) : gmap string pyval :=
  mkdict
    [("family_history_cardiac", PBool (any_in ["cardiac"; "heart"; "coronary"] family_text));
     ("family_history_diabetes", PBool (contains "diabetes" family_text));
     ("family_history_cancer", PBool (any_in ["cancer"; "malignant"] family_text));
     ("family_history_stroke", PBool (contains "stroke" family_text))].

Definition extract_family_history_flags (disclosures : pyval) : result (gmap string pyval) :=
  l ← iter disclosures;
  names ← lowered_names "family_history" "family_condition" l;
  Ok (family_flags_of (join " " names)).

(** The four counters of [count_disclosures], in the order condition,
    medication, family_history, surgery. *)
Fixpoint count_loop (l : list pyval) (c : Z * Z * Z * Z) : result (Z * Z * Z * Z) :=
  match l with
  | [] => Ok c
  | v :: l' =>
      d ← as_dict v;
      let dtype := get_or d "disclosure_type" (PStr "") in
      let '(nc, nm, nf, ns) := c in
      count_loop l'
        (if eq_str dtype "condition" then (nc + 1, nm, nf, ns)
         else if eq_str dtype "medication" then (nc, nm + 1, nf, ns)
         else if eq_str dtype "family_history" then (nc, nm, nf + 1, ns)
         else if eq_str dtype "surgery" then (nc, nm, nf, ns + 1)
         else c)
  end.

Definition count_disclosures (disclosures : pyval) : result (gmap string pyval) :=
  l ← iter disclosures;
  '(nc, nm, nf, ns) ← count_loop l (0, 0, 0, 0);
  Ok (mkdict [("condition_count", PInt nc); ("medication_count", PInt nm);
              ("family_history_count", PInt nf); ("surgery_count", PInt ns)]).

Section Prepare.
Variable fromisoformat : string → option date.
Variable today : date.

(** The dictionary [all_features] built inside [prepare_features]. *)
Definition all_features (applicant : gmap string pyval) (sum_assured disclosures : pyval)
  : result (gmap string pyval) :=
  bmi ← (let b := get applicant "bmi" in
         if truthy b then Ok b
         else calculate_bmi (get applicant "height_cm") (get applicant "weight_kg"));
  let age := py_or (get applicant "age")
               (calculate_age fromisoformat today (get applicant "date_of_birth")) in
  condition_flags ← extract_condition_flags disclosures;
  family_flags ← extract_family_history_flags disclosures;
  counts ← count_disclosures disclosures;
  millions ← truediv sum_assured (PInt 1000000);
  tier ← get_sum_assured_tier sum_assured;
  Ok (merge_into (merge_into (merge_into
        (mkdict [("age", py_or age (PInt 35));
                 ("bmi", py_or bmi (PFloat 24.0));
                 ("smoking_status", PInt (encode_smoking_status (get applicant "smoking_status")));
                 ("sum_assured", PFloat millions);
                 ("sum_assured_tier", PInt tier)])
        condition_flags) family_flags) counts).

Definition prepare_features (applicant : gmap string pyval) (sum_assured disclosures : pyval)
    (feature_names : list string) : result (list float) :=
  feats ← all_features applicant sum_assured disclosures;
  np_array_f32 ((λ name, get_or feats name (PInt 0)) <$> feature_names).
End Prepare.

End FeatureEngineer.

(** ** External learners and the blob store

    A fitted LightGBM regressor is the function it computes from a feature
    row (it may raise, for instance on a row of the wrong width); a fitted
    calibrated classifier is its [predict_proba].  Training metrics are named
    floats.  A version directory holds artifacts under file names. *)
Definition Regressor : Type := list float → result float.
Definition Classifier : Type := list float → result (list float).
Definition Metrics : Type := gmap string float.
Definition ndarray : Type := list (list float).

(** [len(X)] of a two-dimensional array. *)
Definition len (X : ndarray) : Z := Z.of_nat (length X).

Record Contribution := {
  feature : string;
  value : pyval;
  contribution : float;
  direction : string;
}.

Inductive Artifact :=
| ComplexityArtifact (model : option Classifier) (feature_names : list string)
    (version : string) (metrics : Metrics)
| TestYieldArtifact (model : option Regressor) (feature_names : list string)
    (version : string) (metrics : Metrics).

(** A path below [settings.model_dir]: version directory and file name. *)
Definition Path : Type := string * string.
Definition Disk : Type := gmap Path Artifact.

(** [os.path.join(settings.model_dir, v, file)] *)
Definition path_str (settings : Config.Settings) (p : Path) : string :=
  Config.model_dir settings +:+ "/" +:+ p.1 +:+ "/" +:+ p.2.

(** [version or self.version] *)
Definition version_or (version : option string) (own : string) : string :=
  match version with
  | Some v => if String.eqb v "" then own else v
  | None => own
  end.

(** ** models/test_yield_model.py *)
Module TestYieldModel.

Definition SUPPORTED_TESTS : list string :=
  ["HBA1C"; "LIPID"; "ECG"; "LFT"; "RFT"; "CBC"; "URINE"; "ECHO"; "TMT"].

Definition TEST_CONDITIONS : list (string * list string) :=
  [("HBA1C", ["diabetes"; "metabolic"]);
   ("LIPID", ["cardiac"; "metabolic"; "obesity"]);
   ("ECG", ["cardiac"; "hypertension"]);
   ("LFT", ["hepatic"; "alcohol"; "medication"]);
   ("RFT", ["renal"; "diabetes"; "hypertension"]);
   ("CBC", []);
   ("URINE", ["renal"; "diabetes"]);
   ("ECHO", ["cardiac"]);
   ("TMT", ["cardiac"])].

Record t := {
  models : gmap string (option Regressor);
  feature_names : list string;
  version : string;
  is_fitted : gmap string bool;
  training_metrics : gmap string Metrics;
}.

(** [TestYieldModel()] *)
Definition init (settings : Config.Settings) : t := {|
  models := ∅;
  feature_names := Config.test_yield_features settings;
  version := "v1";
  is_fitted := list_to_map ((λ test, (test, false)) <$> SUPPORTED_TESTS);
  training_metrics := ∅;
|}.

Definition get_model_path (self : t) (test_code : string) (version_ : option string) : Path :=
  (version_or version_ self.(version), "test_yield_" +:+ lower test_code +:+ ".joblib").

Definition unsupported (test_code : string) : exn :=
  ValueError ("Unsupported test: " +:+ test_code).

Definition _has_related_condition (test_code : string) (features : gmap string pyval)
  : result bool :=
  let related_conditions := assoc test_code TEST_CONDITIONS in
  if mem "cardiac" related_conditions && truthy (get features "has_cardiac") then Ok true
  else if mem "diabetes" related_conditions && truthy (get features "has_diabetes") then Ok true
  else if mem "renal" related_conditions && truthy (get features "has_renal") then Ok true
  else if mem "hypertension" related_conditions && truthy (get features "has_hypertension") then Ok true
  else
    obese ← (if mem "obesity" related_conditions
             then ge_int (get_or features "bmi" (PInt 24)) 30 else Ok false);
    if obese : bool then Ok true
    else
      metabolic ← (if mem "metabolic" related_conditions
                   then if truthy (get features "has_diabetes") then Ok true
                        else ge_int (get_or features "bmi" (PInt 24)) 30
                   else Ok false);
      if metabolic : bool then Ok true else Ok false.

(** One entry of the vector built by [_extract_features]. *)
Definition feature_cell (test_code : string) (features : gmap string pyval) (fname : string)
  : result pyval :=
  if String.eqb fname "age" then Ok (get_or features "age" (PInt 35))
  else if String.eqb fname "bmi" then Ok (get_or features "bmi" (PInt 24))
  else if String.eqb fname "smoking_status" then
    let status := get_or features "smoking_status" (PStr "never") in
    Ok (PInt (if eq_str status "current" then 2 else if eq_str status "former" then 1 else 0))
  else if String.eqb fname "condition_count" then Ok (get_or features "condition_count" (PInt 0))
  else if String.eqb fname "has_condition_related" then
    related ← _has_related_condition test_code features;
    Ok (PInt (if related : bool then 1 else 0))
  else if String.eqb fname "sum_assured_tier" then
    PInt <$> FeatureEngineer.get_sum_assured_tier (get_or features "sum_assured" (PInt 0))
  else Ok (PInt 0).

Definition _extract_features (self : t) (test_code : string) (features : gmap string pyval)
  : result (list float) :=
  vector ← mapM (feature_cell test_code features) self.(feature_names);
  np_array_f32 vector.

(** [f in features and features[f] is not None] *)
Definition present (features : gmap string pyval) (f : string) : bool :=
  match features !! f with
  | Some PNone | None => false
  | Some _ => true
  end.

Definition _calculate_confidence (features : gmap string pyval) : float :=
  let required := ["age"; "bmi"] in
  let optional := ["smoking_status"; "has_diabetes"; "has_cardiac"] in
  let score := 0.5%float in
  let score := foldl (λ score f, if present features f then (score + 0.15)%float else score)
                     score required in
  let score := foldl (λ score f, if present features f then (score + 0.05)%float else score)
                     score optional in
  py_min 0.95 score.

Definition _get_recommendation (yield_prob : float) (test_code : string) : string :=
  if (0.6 <=? yield_prob)%float then "recommended"
  else if (0.3 <=? yield_prob)%float then "optional"
  else "low_yield".

(** [0.1 * (age - 35) / 30] *)
Definition age_contribution (age : pyval) : result float :=
  match as_num age with
  | Some (NInt z) => d ← float_of_int (z - 35); Ok (0.1 * d / 30)%float
  | Some (NFloat f) => Ok (0.1 * (f - 35) / 30)%float
  | None => Raise TypeError
  end.

Definition _calculate_contributions (test_code : string) (features : gmap string pyval)
    (X : list float) : result (list Contribution) :=
  related ← _has_related_condition test_code features;
  let c1 := if related : bool
            then [Build_Contribution "related_condition" (PBool true) 0.3 "increases"]
            else [] in
  let age := get_or features "age" (PInt 35) in
  old ← ge_int age 45;
  c2 ← (if old : bool
        then a ← age_contribution age; Ok [Build_Contribution "age" age a "increases"]
        else Ok []);
  let bmi := get_or features "bmi" (PInt 24) in
  heavy ← ge_int bmi 30;
  let c3 := if (heavy : bool) && mem test_code ["LIPID"; "HBA1C"; "ECG"]
            then [Build_Contribution "bmi" bmi 0.15 "increases"]
            else [] in
  let c4 := if eq_str (get features "smoking_status") "current"
               && mem test_code ["ECG"; "LIPID"; "LFT"]
            then [Build_Contribution "smoking_status" (PStr "current") 0.12 "increases"]
            else [] in
  Ok (c1 ++ c2 ++ c3 ++ c4)%list.

Definition Prediction : Type := float * float * string * list Contribution.

Definition _rule_based_prediction (test_code : string) (features : gmap string pyval)
  : result Prediction :=
  let base_yield := 0.3%float in
  related ← _has_related_condition test_code features;
  let base_yield := if related : bool then (base_yield + 0.35)%float else base_yield in
  let age := get_or features "age" (PInt 35) in
  a55 ← ge_int age 55;
  base_yield ← (if a55 : bool then Ok (base_yield + 0.15)%float
                else a45 ← ge_int age 45;
                     Ok (if a45 : bool then (base_yield + 0.08)%float else base_yield));
  let bmi := get_or features "bmi" (PInt 24) in
  b30 ← ge_int bmi 30;
  let base_yield := if (b30 : bool) && mem test_code ["HBA1C"; "LIPID"]
                    then (base_yield + 0.12)%float else base_yield in
  let base_yield := if eq_str (get features "smoking_status") "current"
                    then if mem test_code ["ECG"; "LIPID"; "LFT"]
                         then (base_yield + 0.1)%float else base_yield
                    else base_yield in
  let yield_prob := py_min 0.95 base_yield in
  let recommendation := _get_recommendation yield_prob test_code in
  Ok (yield_prob, 0.7%float, recommendation,
      [Build_Contribution "rule_based" (PFloat yield_prob) yield_prob "increases"]).

Definition predict (self : t) (test_code : string) (features : gmap string pyval)
  : result Prediction :=
  if negb (mem test_code SUPPORTED_TESTS) then Raise (unsupported test_code)
  else if negb (default false (self.(is_fitted) !! test_code))
  then _rule_based_prediction test_code features
  else
    X ← _extract_features self test_code features;
    regressor ← match self.(models) !! test_code with
                | Some (Some r) => Ok r
                | Some None => Raise AttributeError
                | None => Raise KeyError
                end;
    raw ← regressor X;
    let yield_prob := py_max 0.0 (py_min 1.0 raw) in
    let confidence := _calculate_confidence features in
    let recommendation := _get_recommendation yield_prob test_code in
    contributions ← _calculate_contributions test_code features X;
    Ok (yield_prob, confidence, recommendation, contributions).

Definition set_fitted (self : t) (test_code : string) (r : option Regressor) : t := {|
  models := <[test_code := r]> self.(models);
  feature_names := self.(feature_names);
  version := self.(version);
  is_fitted := <[test_code := true]> self.(is_fitted);
  training_metrics := self.(training_metrics);
|}.

Definition set_metrics (self : t) (test_code : string) (metrics : Metrics) : t := {|
  models := self.(models);
  feature_names := self.(feature_names);
  version := self.(version);
  is_fitted := self.(is_fitted);
  training_metrics := <[test_code := metrics]> self.(training_metrics);
|}.

Definition set_version (self : t) (v : string) : t := {|
  models := self.(models);
  feature_names := self.(feature_names);
  version := v;
  is_fitted := self.(is_fitted);
  training_metrics := self.(training_metrics);
|}.

(** [load]: every supported test whose file exists is read, the others are
    left as they are.  A blob of the other model family never sits under a
    test-yield file name and is read as absent. *)
Definition load_one (disk : Disk) (version_ : option string)
    (acc : gmap string bool * t) (test_code : string) : gmap string bool * t :=
  let '(loaded, self) := acc in
  match disk !! get_model_path self test_code version_ with
  | Some (TestYieldArtifact model _ _ metrics) =>
      (<[test_code := true]> loaded,
       set_metrics (set_fitted self test_code model) test_code metrics)
  | _ => (<[test_code := false]> loaded, self)
  end.

Definition load (self : t) (version_ : option string) (disk : Disk) : gmap string bool * t :=
  foldl (load_one disk version_) (∅, self) SUPPORTED_TESTS.

(** [save]: [dump_ok] tells whether [os.makedirs] and [joblib.dump] succeed
    for a path (they raise [OSError] otherwise). *)
Definition save (dump_ok : Path → bool) (self : t) (test_code : string)
    (version_ : option string) (disk : Disk) : result Path * Disk :=
  match self.(models) !! test_code with
  | None => (Raise (ValueError ("No model for test " +:+ test_code)), disk)
  | Some model =>
      let v := version_or version_ self.(version) in
      let path := get_model_path self test_code (Some v) in
      if dump_ok path
      then (Ok path,
            <[path := TestYieldArtifact model self.(feature_names) v
                        (default ∅ (self.(training_metrics) !! test_code))]> disk)
      else (Raise OSError, disk)
  end.

Section Learner.
(** [LGBMRegressor(...).fit(X, y)] and the three sklearn scores computed on
    the training set; both are library code and may raise. *)
Variable lgbm_fit : ndarray → list float → result Regressor.
Variable regression_metrics : Regressor → ndarray → list float → result Metrics.

(** [fit] mutates the object: the second component is the object after the
    call, also when the call raises half way. *)
Definition fit (self : t) (test_code : string) (X : ndarray) (y : list float)
  : result Metrics * t :=
  if negb (mem test_code SUPPORTED_TESTS) then (Raise (unsupported test_code), self)
  else
    match lgbm_fit X y with
    | Raise e => (Raise e, self)
    | Ok model =>
        let self := set_fitted self test_code (Some model) in
        match regression_metrics model X y with
        | Raise e => (Raise e, self)
        | Ok metrics => (Ok metrics, set_metrics self test_code metrics)
        end
    end.
End Learner.

End TestYieldModel.

(** ** models/complexity_model.py *)
Module ComplexityModel.

Definition CLASSES : list string := ["ROUTINE"; "MODERATE"; "COMPLEX"].

(** The unfitted [base_model] estimator is only a constructor argument of the
    calibrated classifier and is not kept apart here. *)
Record t := {
  model : option Classifier;
  feature_names : list string;
  version : string;
  is_fitted : bool;
  training_metrics : Metrics;
}.

(** [ComplexityModel()] *)
Definition init (settings : Config.Settings) : t := {|
  model := None;
  feature_names := Config.complexity_features settings;
  version := "v1";
  is_fitted := false;
  training_metrics := ∅;
|}.

Definition get_model_path (self : t) (version_ : option string) : Path :=
  (version_or version_ self.(version), "complexity_model.joblib").

Definition load (self : t) (version_ : option string) (disk : Disk) : bool * t :=
  match disk !! get_model_path self version_ with
  | Some (ComplexityArtifact m names v metrics) =>
      (true, {| model := m; feature_names := names; version := v;
                is_fitted := true; training_metrics := metrics |})
  | _ => (false, self)
  end.

Definition save (dump_ok : Path → bool) (self : t) (version_ : option string) (disk : Disk)
  : result Path * Disk :=
  let v := version_or version_ self.(version) in
  let path := get_model_path self (Some v) in
  if dump_ok path
  then (Ok path,
        <[path := ComplexityArtifact self.(model) self.(feature_names) v
                    self.(training_metrics)]> disk)
  else (Raise OSError, disk).

(** The calibrated wrapper before its [fit] has succeeded: [fit] stores it in
    [self.model] first, so it stays there when the library call raises. *)
Definition unfitted_classifier : Classifier :=
  λ _, Raise (ValueError "This CalibratedClassifierCV instance is not fitted yet").

Section Learner.
(** [CalibratedClassifierCV(LGBMClassifier(...)).fit(X, y)] and the sklearn
    scores on the training set. *)
Variable calibrated_fit : ndarray → list Z → result Classifier.
Variable classification_metrics : Classifier → ndarray → list Z → result Metrics.

Definition fit (self : t) (X : ndarray) (y : list Z) : result Metrics * t :=
  match calibrated_fit X y with
  | Raise e =>
      (Raise e,
       {| model := Some unfitted_classifier; feature_names := self.(feature_names);
          version := self.(version); is_fitted := self.(is_fitted);
          training_metrics := self.(training_metrics) |})
  | Ok m =>
      let self := {| model := Some m; feature_names := self.(feature_names);
                     version := self.(version); is_fitted := true;
                     training_metrics := self.(training_metrics) |} in
      match classification_metrics m X y with
      | Raise e => (Raise e, self)
      | Ok metrics =>
          (Ok metrics,
           {| model := self.(model); feature_names := self.(feature_names);
              version := self.(version); is_fitted := true;
              training_metrics := metrics |})
      end
  end.
End Learner.

Definition flag01 (features : gmap string pyval) (k : string) : pyval :=
  PInt (if truthy (get_or features k (PBool false)) then 1 else 0).

(** One entry of the vector built by [_extract_features]. *)
Definition feature_cell (features : gmap string pyval) (fname : string) : result pyval :=
  if String.eqb fname "age" then Ok (get_or features "age" (PInt 35))
  else if String.eqb fname "bmi" then Ok (get_or features "bmi" (PInt 24))
  else if String.eqb fname "sum_assured" then
    PFloat <$> truediv (get_or features "sum_assured" (PInt 5000000)) (PInt 1000000)
  else if String.eqb fname "smoking_status" then
    let status := get_or features "smoking_status" (PStr "never") in
    Ok (PInt (if eq_str status "current" then 2 else if eq_str status "former" then 1 else 0))
  else if String.eqb fname "condition_count" then Ok (get_or features "condition_count" (PInt 0))
  else if String.eqb fname "medication_count" then Ok (get_or features "medication_count" (PInt 0))
  else if mem fname ["has_cardiac"; "has_diabetes"; "has_hypertension"; "has_renal";
                      "family_history_cardiac"; "family_history_diabetes"]
  then Ok (flag01 features fname)
  else Ok (PInt 0).

Definition _extract_features (self : t) (features : gmap string pyval) : result (list float) :=
  vector ← mapM (feature_cell features) self.(feature_names);
  np_array_f32 vector.

Definition Prediction : Type := string * float * gmap string float * list Contribution.

Definition tier_probs (r m c : float) : gmap string float :=
  <["COMPLEX" := c]> (<["MODERATE" := m]> (<["ROUTINE" := r]> ∅)).

Definition _rule_based_prediction (features : gmap string pyval) : result Prediction :=
  let score := 0.0%float in
  let age := get_or features "age" (PInt 35) in
  a65 ← ge_int age 65;
  score ← (if a65 : bool then Ok (score + 0.4)%float
           else a55 ← ge_int age 55;
                Ok (if a55 : bool then (score + 0.2)%float else score));
  let bmi := get_or features "bmi" (PInt 24) in
  b35 ← ge_int bmi 35;
  score ← (if b35 : bool then Ok (score + 0.35)%float
           else b30 ← ge_int bmi 30;
                Ok (if b30 : bool then (score + 0.2)%float else score));
  let score := if eq_str (get features "smoking_status") "current"
               then (score + 0.3)%float else score in
  let score := if truthy (get features "has_cardiac") then (score + 0.5)%float else score in
  let score := if truthy (get features "has_diabetes") then (score + 0.25)%float else score in
  let score := if truthy (get features "has_renal") then (score + 0.4)%float else score in
  let sa := get_or features "sum_assured" (PInt 0) in
  big ← ge_int sa 10000000;
  let score := if big : bool then (score + 0.1)%float else score in
  let '(tier, probs) :=
    if (0.6 <=? score)%float then ("COMPLEX", tier_probs 0.1 0.2 0.7)
    else if (0.3 <=? score)%float then ("MODERATE", tier_probs 0.2 0.6 0.2)
    else ("ROUTINE", tier_probs 0.7 0.2 0.1) in
  confidence ← match probs !! tier with Some c => Ok c | None => Raise KeyError end;
  Ok (tier, confidence, probs,
      [Build_Contribution "rule_based" (PFloat score) score "increases"]).

(** [np.argmax]: the first maximum; a NaN counts as maximal. *)
Fixpoint argmax_from (l : list float) (i best_i : nat) (best : float) : nat :=
  match l with
  | [] => best_i
  | v :: l' =>
      if negb (best =? best)%float then best_i
      else if negb (v <=? best)%float then argmax_from l' (S i) i v
      else argmax_from l' (S i) best_i best
  end.

Definition argmax (l : list float) : result nat :=
  match l with
  | [] => Raise (ValueError "attempt to get argmax of an empty sequence")
  | v :: l' => Ok (argmax_from l' 1 0 v)
  end.

(** Stable sort by decreasing [abs(contribution)] (keys that are NaN have no
    definite place in Python's sort and are not considered). *)
Fixpoint insert_desc (c : Contribution) (l : list Contribution) : list Contribution :=
  match l with
  | [] => [c]
  | x :: l' =>
      if (abs x.(contribution) <? abs c.(contribution))%float then c :: l
      else x :: insert_desc c l'
  end.

Definition sort_desc (l : list Contribution) : list Contribution :=
  foldl (λ acc c, insert_desc c acc) [] l.

Section Scalars.
(** Arithmetic on a [np.float32] scalar and a Python number is carried out
    in binary64 by NumPy 1 and in binary32 by NumPy 2: [scalar_round] is the
    rounding applied to each operand and result (the identity, or
    [round32]). *)
Variable scalar_round : float → float.
Local Abbreviation rnd := scalar_round.

Definition weights : list (string * float) :=
  [("age", 0.15); ("bmi", 0.10); ("sum_assured", 0.08); ("smoking_status", 0.12);
   ("condition_count", 0.10); ("has_cardiac", 0.15); ("has_diabetes", 0.10);
   ("has_hypertension", 0.08); ("has_renal", 0.08); ("family_history_cardiac", 0.04)]%float.

Fixpoint weight_of (fname : string) (table : list (string * float)) : float :=
  match table with
  | [] => 0.05%float
  | (k, w) :: rest => if String.eqb fname k then w else weight_of fname rest
  end.

Definition increases_above (bound value : float) : string :=
  if (bound <? value)%float then "increases" else "neutral".

Definition contribution_of (features : gmap string pyval) (fname : string) (value : float)
  : Contribution :=
  let weight := rnd (weight_of fname weights) in
  let '(c, direction) :=
    if String.eqb fname "age" then
      (rnd (rnd (weight * rnd (value - 35)) / 30), increases_above 45 value)
    else if String.eqb fname "bmi" then
      (rnd (rnd (weight * rnd (value - 24)) / 10), increases_above 30 value)
    else if mem fname ["has_cardiac"; "has_diabetes"; "has_renal"] then
      (rnd (weight * value), increases_above 0 value)
    else if String.eqb fname "smoking_status" then
      (rnd (rnd (weight * value) / 2), increases_above 0 value)
    else
      (rnd (rnd (weight * value) * rnd 0.1), increases_above 0 value) in
  Build_Contribution fname (get_or features fname (PFloat value)) c%float direction.

(** [X[i]] for every [i, fname in enumerate(self.feature_names)]. *)
Fixpoint contributions_loop (features : gmap string pyval) (names : list string)
    (X : list float) : result (list Contribution) :=
  match names, X with
  | [], _ => Ok []
  | fname :: names', value :: X' =>
      rest ← contributions_loop features names' X';
      Ok (contribution_of features fname value :: rest)
  | _ :: _, [] => Raise IndexError
  end.

Definition _calculate_contributions (self : t) (features : gmap string pyval) (X : list float)
  : result (list Contribution) :=
  contributions ← contributions_loop features self.(feature_names) X;
  Ok (take 8 (sort_desc contributions)).

Definition predict (self : t) (features : gmap string pyval) : result Prediction :=
  if negb self.(is_fitted) then _rule_based_prediction features
  else
    X ← _extract_features self features;
    classifier ← match self.(model) with
                 | Some c => Ok c
                 | None => Raise AttributeError
                 end;
    probabilities ← classifier X;
    let prob_dict : gmap string float :=
      foldl (λ m kv, <[kv.1 := kv.2]> m) ∅ (zip CLASSES probabilities) in
    predicted_idx ← argmax probabilities;
    predicted_tier ← match CLASSES !! predicted_idx with
                     | Some c => Ok c
                     | None => Raise IndexError
                     end;
    confidence ← match probabilities !! predicted_idx with
                 | Some c => Ok c
                 | None => Raise IndexError
                 end;
    contributions ← _calculate_contributions self features X;
    Ok (predicted_tier, confidence, prob_dict, contributions).
End Scalars.

End ComplexityModel.

(** ** services/model_manager.py *)
Module ModelManager.

Record t := {
  complexity_model : option ComplexityModel.t;
  test_yield_model : option TestYieldModel.t;
  current_version : string;
}.

Definition _load_models (settings : Config.Settings) (disk : Disk) (self : t) : t :=
  let cm := (ComplexityModel.load (ComplexityModel.init settings)
               (Some self.(current_version)) disk).2 in
  let tym := (TestYieldModel.load (TestYieldModel.init settings)
                (Some self.(current_version)) disk).2 in
  {| complexity_model := Some cm; test_yield_model := Some tym;
     current_version := self.(current_version) |}.

(** [ModelManager()] *)
Definition init (settings : Config.Settings) (disk : Disk) : t :=
  _load_models settings disk
    {| complexity_model := None; test_yield_model := None;
       current_version := Config.current_model_version settings |}.

Definition get_loaded_models (self : t) : gmap string bool :=
  let result : gmap string bool :=
    {[ "complexity" := match self.(complexity_model) with
                       | Some cm => ComplexityModel.is_fitted cm
                       | None => false
                       end ]} in
  match self.(test_yield_model) with
  | Some tym =>
      foldl (λ result test_code,
               <["test_yield_" +:+ lower test_code :=
                   default false (TestYieldModel.is_fitted tym !! test_code)]> result)
            result TestYieldModel.SUPPORTED_TESTS
  | None => result
  end.

Definition reload_models (settings : Config.Settings) (disk : Disk) (self : t)
    (version_ : option string) : gmap string bool * t :=
  let self := {| complexity_model := self.(complexity_model);
                 test_yield_model := self.(test_yield_model);
                 current_version := version_or version_ self.(current_version) |} in
  let self := _load_models settings disk self in
  (get_loaded_models self, self).

(** Hot-swap the complexity model. *)
Definition update_complexity_model (self : t) (model : ComplexityModel.t) : t :=
  {| complexity_model := Some model;
     test_yield_model := self.(test_yield_model);
     current_version := self.(current_version) |}.

(** [self.test_yield_model.models[test_code] = model.models.get(test_code)]
    and [is_fitted[test_code] = True], when there is an active bank. *)
Definition update_test_yield_model (self : t) (test_code : string) (model : TestYieldModel.t)
  : t :=
  match self.(test_yield_model) with
  | Some tym =>
      {| complexity_model := self.(complexity_model);
         test_yield_model :=
           Some (TestYieldModel.set_fitted tym test_code
                   (default None (TestYieldModel.models model !! test_code)));
         current_version := self.(current_version) |}
  | None => self
  end.

(** One entry of [get_model_info]. *)
Definition complexity_info (cm : ComplexityModel.t) : pyval :=
  PDict (mkdict [("model_type", PStr "complexity");
                 ("version", PStr (ComplexityModel.version cm));
                 ("trained_at", PNone);
                 ("samples_trained", PNone);
                 ("metrics", PDict (PFloat <$> ComplexityModel.training_metrics cm));
                 ("features", PList (PStr <$> ComplexityModel.feature_names cm))]).

Definition test_yield_info (tym : TestYieldModel.t) (test_code : string) : pyval :=
  PDict (mkdict [("model_type", PStr "test_yield");
                 ("test_code", PStr test_code);
                 ("version", PStr (TestYieldModel.version tym));
                 ("trained_at", PNone);
                 ("samples_trained", PNone);
                 ("metrics",
                  PDict (PFloat <$> default ∅ (TestYieldModel.training_metrics tym !! test_code)));
                 ("features", PList (PStr <$> TestYieldModel.feature_names tym))]).

Definition get_model_info (self : t) : gmap string pyval :=
  let info : gmap string pyval :=
    match self.(complexity_model) with
    | Some cm => {[ "complexity" := complexity_info cm ]}
    | None => ∅
    end in
  match self.(test_yield_model) with
  | Some tym =>
      foldl (λ info test_code,
               if default false (TestYieldModel.is_fitted tym !! test_code)
               then <["test_yield_" +:+ lower test_code := test_yield_info tym test_code]> info
               else info)
            info TestYieldModel.SUPPORTED_TESTS
  | None => info
  end.

(** The two [save_*] wrappers: the path written and the blob store after. *)
Definition save_complexity_model (dump_ok : Path → bool) (self : t) (version_ : option string)
    (disk : Disk) : result Path * Disk :=
  match self.(complexity_model) with
  | None => (Raise (ValueError "No complexity model loaded"), disk)
  | Some cm => ComplexityModel.save dump_ok cm version_ disk
  end.

Definition save_test_yield_model (dump_ok : Path → bool) (self : t) (test_code : string)
    (version_ : option string) (disk : Disk) : result Path * Disk :=
  match self.(test_yield_model) with
  | None => (Raise (ValueError "No test yield model loaded"), disk)
  | Some tym => TestYieldModel.save dump_ok tym test_code version_ disk
  end.

End ModelManager.

(** ** services/inference_service.py *)
Module InferenceService.

(** The loop sorting the disclosures into conditions, medications and family
    history. *)
Fixpoint classify (l : list pyval)
    (acc : list (gmap string pyval) * list (gmap string pyval) * list (gmap string pyval))
  : result (list (gmap string pyval) * list (gmap string pyval) * list (gmap string pyval)) :=
  match l with
  | [] => Ok acc
  | v :: l' =>
      disclosure ← as_dict v;
      let dtype := get_or disclosure "disclosure_type" (PStr "") in
      let '(conditions, medications, family_history) := acc in
      classify l'
        (if eq_str dtype "condition" then (conditions ++ [disclosure], medications, family_history)
         else if eq_str dtype "medication" then (conditions, medications ++ [disclosure], family_history)
         else if eq_str dtype "family_history" then (conditions, medications, family_history ++ [disclosure])
         else acc)%list
  end.

Definition _prepare_complexity_features (applicant : gmap string pyval)
    (sum_assured medical_disclosures : pyval) : result (gmap string pyval) :=
  let features := mkdict [("age", get applicant "age");
                          ("bmi", get applicant "bmi");
                          ("smoking_status", get applicant "smoking_status");
                          ("sum_assured", sum_assured)] in
  features ←
    (if negb (truthy (get features "bmi"))
        && truthy (get applicant "height_cm") && truthy (get applicant "weight_kg")
     then
       height_m ← truediv (get applicant "height_cm") (PInt 100);
       bmi ← truediv (get applicant "weight_kg") (PFloat (height_m * height_m));
       Ok (<["bmi" := PFloat bmi]> features)
     else Ok features);
  l ← iter medical_disclosures;
  '(conditions, medications, family_history) ← classify l ([], [], []);
  let features := <["condition_count" := PInt (Z.of_nat (length conditions))]> features in
  let features := <["medication_count" := PInt (Z.of_nat (length medications))]> features in
  names ← mapM (λ c, py_lower (get_or c "condition_name" (PStr ""))) conditions;
  let condition_names := join " " names in
  let features := <["has_cardiac" :=
    PBool (any_in ["cardiac"; "heart"; "coronary"; " mi "; "angina"] condition_names)]> features in
  let features := <["has_diabetes" := PBool (contains "diabetes" condition_names)]> features in
  let features := <["has_hypertension" :=
    PBool (any_in ["hypertension"; "blood pressure"; "htn"] condition_names)]> features in
  let features := <["has_renal" :=
    PBool (any_in ["kidney"; "renal"; "ckd"] condition_names)]> features in
  fnames ← mapM (λ f, py_lower (get_or f "family_condition" (PStr ""))) family_history;
  let family_conditions := join " " fnames in
  let features := <["family_history_cardiac" :=
    PBool (any_in ["cardiac"; "heart"] family_conditions)]> features in
  let features := <["family_history_diabetes" :=
    PBool (contains "diabetes" family_conditions)]> features in
  Ok features.

Definition _prepare_test_features (test_code : string) (applicant : gmap string pyval)
    (sum_assured medical_disclosures : pyval) : result (gmap string pyval) :=
  features ← _prepare_complexity_features applicant sum_assured medical_disclosures;
  Ok (<["test_code" := PStr test_code]> features).

(** The prediction and the [model_version] of the response. *)
Definition predict_complexity (scalar_round : float → float) (mm : ModelManager.t)
    (applicant : gmap string pyval) (sum_assured medical_disclosures : pyval)
  : result (ComplexityModel.Prediction * string) :=
  features ← _prepare_complexity_features applicant sum_assured medical_disclosures;
  model ← match ModelManager.complexity_model mm with
          | Some m => Ok m
          | None => Raise AttributeError
          end;
  p ← ComplexityModel.predict scalar_round model features;
  Ok (p, ComplexityModel.version model).

Definition predict_test_yield (mm : ModelManager.t) (test_code : string)
    (applicant : gmap string pyval) (sum_assured medical_disclosures : pyval)
  : result (TestYieldModel.Prediction * string) :=
  features ← _prepare_test_features test_code applicant sum_assured medical_disclosures;
  model ← match ModelManager.test_yield_model mm with
          | Some m => Ok m
          | None => Raise AttributeError
          end;
  p ← TestYieldModel.predict model test_code features;
  Ok (p, TestYieldModel.version model).

End InferenceService.

(** ** training/data_loader.py *)
Module DataLoader.

(** A training sample: the feature row before the array cast, the label and
    the sample weight. *)
Definition Sample (L : Type) : Type := list pyval * L * float.

(** The three arrays returned by the [prepare_*] methods. *)
Definition Dataset (L : Type) : Type := ndarray * list L * list float.

(** [np.array(X_list, dtype=np.float32)] with the label and weight columns;
    no rows give three empty arrays. *)
Definition to_arrays {L} (samples : list (Sample L)) : result (Dataset L) :=
  X ← mapM (λ s : Sample L, np_array_f32 s.1.1) samples;
  Ok (X, (λ s : Sample L, s.1.2) <$> samples, (λ s : Sample L, round32 s.2) <$> samples).

(** [tier_map.get(tier, 1)]: a list or dictionary cannot be hashed. *)
Definition tier_label (tier : pyval) : result Z :=
  match tier with
  | PList _ | PDict _ => Raise TypeError
  | _ => Ok (if eq_str tier "ROUTINE" then 0
             else if eq_str tier "MODERATE" then 1
             else if eq_str tier "COMPLEX" then 2
             else 1)
  end.

Definition _extract_case_features (applicant sum_assured disclosures : pyval)
  : result (gmap string pyval) :=
  condition_flags ← FeatureEngineer.extract_condition_flags disclosures;
  family_flags ← FeatureEngineer.extract_family_history_flags disclosures;
  counts ← FeatureEngineer.count_disclosures disclosures;
  a ← as_dict applicant;
  bmi ← (let b := get a "bmi" in
         if truthy b then Ok b
         else FeatureEngineer.calculate_bmi (get a "heightCm") (get a "weightKg"));
  millions ← truediv sum_assured (PInt 1000000);
  Ok (merge_into (merge_into (merge_into
        (mkdict [("age", get_or a "age" (PInt 35));
                 ("bmi", py_or bmi (PFloat 24.0));
                 ("sum_assured", PFloat millions);
                 ("smoking_status",
                  PInt (FeatureEngineer.encode_smoking_status (get a "smokingStatus")))])
        condition_flags) family_flags) counts).

Definition test_condition_map : list (string * list string) :=
  [("HBA1C", ["has_diabetes"]);
   ("LIPID", ["has_cardiac"; "has_diabetes"]);
   ("ECG", ["has_cardiac"; "has_hypertension"]);
   ("LFT", ["has_hepatic"]);
   ("RFT", ["has_renal"; "has_diabetes"; "has_hypertension"])].

Definition _extract_test_features (test_code : string)
    (applicant sum_assured disclosures : pyval) : result (gmap string pyval) :=
  base_features ← _extract_case_features applicant sum_assured disclosures;
  condition_flags ← FeatureEngineer.extract_condition_flags disclosures;
  let related_conditions := assoc test_code test_condition_map in
  let has_related :=
    existsb (λ c, truthy (get_or condition_flags c (PBool false))) related_conditions in
  tier ← FeatureEngineer.get_sum_assured_tier sum_assured;
  Ok (<["sum_assured_tier" := PInt tier]>
        (<["has_condition_related" := PInt (if has_related then 1 else 0)]> base_features)).

Definition _was_test_informative (test_result : gmap string pyval) : bool :=
  let status := get test_result "resultStatus" in
  if eq_str status "abnormal" || eq_str status "borderline" then true
  else if truthy (get test_result "ledToAction") then true
  else if truthy (get test_result "influencedDecision") then true
  else false.

(** [next((t for t in tests if t.get("testCode") == test_code), None)] *)
Fixpoint first_test (test_code : string) (tests : list pyval)
  : result (option (gmap string pyval)) :=
  match tests with
  | [] => Ok None
  | v :: tests' =>
      t ← as_dict v;
      if eq_str (get t "testCode") test_code then Ok (Some t)
      else first_test test_code tests'
  end.

Section Schema.
Variable settings : Config.Settings.

Definition row (feature_names : list string) (features : gmap string pyval) : list pyval :=
  (λ f, get_or features f (PInt 0)) <$> feature_names.

(** The body of the loop over completed cases. *)
Definition complexity_case_sample (case : pyval) : result (Sample Z) :=
  c ← as_dict case;
  let applicant := get_or c "applicant" (PDict ∅) in
  let disclosures := get_or c "medicalDisclosures" (PList []) in
  let sum_assured := get_or c "sumAssured" (PInt 5000000) in
  let final_tier :=
    py_or (get c "complexityTier") (get_or c "assignedComplexity" (PStr "MODERATE")) in
  features ← _extract_case_features applicant sum_assured disclosures;
  label ← tier_label final_tier;
  Ok (row (Config.complexity_features settings) features, label, 1.0%float).

(** The body of the loop over overrides. *)
Definition complexity_override_sample (override : pyval) : result (Sample Z) :=
  o ← as_dict override;
  context ← as_dict (get_or o "contextSnapshot" (PDict ∅));
  let applicant := get_or context "applicant" (PDict ∅) in
  let disclosures := get_or context "disclosures" (PList []) in
  let sum_assured := get_or context "sumAssured" (PInt 5000000) in
  let uw_choice := get_or o "underwriterChoice" (PStr "MODERATE") in
  features ← _extract_case_features applicant sum_assured disclosures;
  label ← tier_label uw_choice;
  let weight := if truthy (get o "validated") then 2.0%float else 1.5%float in
  Ok (row (Config.complexity_features settings) features, label, weight).

Definition prepare_complexity_dataset (cases overrides : pyval) : result (Dataset Z) :=
  cl ← iter cases;
  from_cases ← mapM complexity_case_sample cl;
  from_overrides ←
    (if truthy overrides
     then ol ← iter overrides; mapM complexity_override_sample ol
     else Ok []);
  to_arrays (from_cases ++ from_overrides)%list.

(** The body of the loop over cases; [None] is [continue]. *)
Definition test_case_sample (test_code : string) (case : pyval)
  : result (option (Sample float)) :=
  c ← as_dict case;
  tests ← iter (get_or c "testResults" (PList []));
  found ← first_test test_code tests;
  match found with
  | None => Ok None
  | Some test_result =>
      if negb (truthy (PDict test_result)) then Ok None
      else
        let applicant := get_or c "applicant" (PDict ∅) in
        let disclosures := get_or c "medicalDisclosures" (PList []) in
        let sum_assured := get_or c "sumAssured" (PInt 5000000) in
        let was_informative := _was_test_informative test_result in
        features ← _extract_test_features test_code applicant sum_assured disclosures;
        Ok (Some (row (Config.test_yield_features settings) features,
                  if was_informative then 1.0%float else 0.0%float, 1.0%float))
  end.

Definition test_override_sample (test_code : string) (override : pyval)
  : result (option (Sample float)) :=
  o ← as_dict override;
  details ← as_dict (get_or o "details" (PDict ∅));
  if negb (eq_str (get details "testCode") test_code) then Ok None
  else
    context ← as_dict (get_or o "contextSnapshot" (PDict ∅));
    let applicant := get_or context "applicant" (PDict ∅) in
    let disclosures := get_or context "disclosures" (PList []) in
    let sum_assured := get_or context "sumAssured" (PInt 5000000) in
    let direction := get_or o "direction" (PStr "") in
    features ← _extract_test_features test_code applicant sum_assured disclosures;
    let label := if eq_str direction "ADD" then 0.8%float
                 else if eq_str direction "REMOVE" then 0.2%float
                 else 0.5%float in
    Ok (Some (row (Config.test_yield_features settings) features, label, 1.5%float)).

Definition prepare_test_yield_dataset (test_code : string) (cases overrides : pyval)
  : result (Dataset float) :=
  cl ← iter cases;
  from_cases ← mapM (test_case_sample test_code) cl;
  from_overrides ←
    (if truthy overrides
     then ol ← iter overrides; mapM (test_override_sample test_code) ol
     else Ok []);
  let samples : list (Sample float) := omap id (from_cases ++ from_overrides)%list in
  d ← to_arrays samples;
  Ok (d.1.1, List.map round32 d.1.2, d.2).

(** The two backend requests: the decoded JSON body, or an exception of the
    HTTP client.  A failed request is logged and read as no data. *)
Variable backend_cases : result pyval.
Variable backend_overrides : string → result pyval.

Definition fetch_cases_for_training : pyval :=
  match backend_cases with Ok v => v | Raise _ => PList [] end.

Definition fetch_overrides (override_type : string) : pyval :=
  match backend_overrides override_type with Ok v => v | Raise _ => PList [] end.
End Schema.

End DataLoader.

(** ** training/trainer.py *)
Module Trainer.

(** [str(e)].  The wording of a library exception is the library's; only a
    [ValueError] raised by this program carries its own text. *)
Definition exn_str (e : exn) : string :=
  match e with
  | ValueError msg => msg
  | TypeError => "TypeError"
  | AttributeError => "AttributeError"
  | ZeroDivisionError => "division by zero"
  | OverflowError => "OverflowError"
  | KeyError => "KeyError"
  | IndexError => "IndexError"
  | OSError => "OSError"
  end.

(** What a training run can change: the manager's active models and the
    blob store. *)
Record World := {
  manager : ModelManager.t;
  disk : Disk;
}.

Definition metrics_val (m : Metrics) : pyval := PDict (PFloat <$> m).

Definition failed (result : gmap string pyval) (e : exn) : gmap string pyval :=
  <["error" := PStr (exn_str e)]> (<["status" := PStr "failed"]> result).

Definition skipped (result : gmap string pyval) (reason : string) : gmap string pyval :=
  <["reason" := PStr reason]> (<["status" := PStr "skipped"]> result).

Section Run.
Variable settings : Config.Settings.
(** The backend and the learners (see [DataLoader] and the two models). *)
Variable backend_cases : result pyval.
Variable backend_overrides : string → result pyval.
Variable calibrated_fit : ndarray → list Z → result Classifier.
Variable classification_metrics : Classifier → ndarray → list Z → result Metrics.
Variable lgbm_fit : ndarray → list float → result Regressor.
Variable regression_metrics : Regressor → ndarray → list float → result Metrics.
Variable dump_ok : Path → bool.
(** Readings of the clock: [datetime.utcnow().isoformat()] at the start and at
    the end of a run, and the [strftime] text of [_generate_version]. *)
Variable started_at completed_at : string.
Variable version_stamp : string.

Definition _generate_version : string := "v" +:+ version_stamp.

Definition finish (result : gmap string pyval) : gmap string pyval :=
  <["completed_at" := PStr completed_at]> result.

Definition train_complexity_model (w : World) (force : bool) (new_version : option string)
  : gmap string pyval * World :=
  let result := mkdict [("model_type", PStr "complexity");
                        ("started_at", PStr started_at);
                        ("status", PStr "running")] in
  let cases := DataLoader.fetch_cases_for_training backend_cases in
  let overrides := DataLoader.fetch_overrides backend_overrides "COMPLEXITY_TIER" in
  match DataLoader.prepare_complexity_dataset settings cases overrides with
  | Raise e => (finish (failed result e), w)
  | Ok (X, y, sample_weights) =>
      if len X =? 0 then
        (<["error" := PStr "No training data available"]>
           (<["status" := PStr "failed"]> result), w)
      else if (len X <? Config.min_training_samples settings) && negb force then
        (<["error" := PStr ("Insufficient training samples: " +:+ pretty (len X) +:+ " < "
                              +:+ pretty (Config.min_training_samples settings))]>
           (<["status" := PStr "failed"]> result), w)
      else
        let model := ComplexityModel.init settings in
        match ComplexityModel.fit calibrated_fit classification_metrics model X y with
        | (Raise e, _) => (finish (failed result e), w)
        | (Ok metrics, model) =>
            let version := version_or new_version _generate_version in
            let model :=
              {| ComplexityModel.model := ComplexityModel.model model;
                 ComplexityModel.feature_names := ComplexityModel.feature_names model;
                 ComplexityModel.version := version;
                 ComplexityModel.is_fitted := ComplexityModel.is_fitted model;
                 ComplexityModel.training_metrics := ComplexityModel.training_metrics model |} in
            match ComplexityModel.save dump_ok model (Some version) w.(disk) with
            | (Raise e, disk') =>
                (finish (failed result e), {| manager := w.(manager); disk := disk' |})
            | (Ok model_path, disk') =>
                let result := <["status" := PStr "completed"]> result in
                let result := <["samples_used" := PInt (len X)]> result in
                let result := <["metrics" := metrics_val metrics]> result in
                let result := <["version" := PStr version]> result in
                let result := <["model_path" := PStr (path_str settings model_path)]> result in
                (finish result,
                 {| manager := ModelManager.update_complexity_model w.(manager) model;
                    disk := disk' |})
            end
        end
  end.

(** The object [fit] and [save] work on is the manager's active bank itself
    when there is one, so what they change is changed for serving too; a
    bank created here is local to the call. *)
Definition store (w : World) (test_model : TestYieldModel.t) (disk' : Disk) : World :=
  match ModelManager.test_yield_model w.(manager) with
  | Some _ =>
      {| manager := {| ModelManager.complexity_model := ModelManager.complexity_model w.(manager);
                       ModelManager.test_yield_model := Some test_model;
                       ModelManager.current_version := ModelManager.current_version w.(manager) |};
         disk := disk' |}
  | None => {| manager := w.(manager); disk := disk' |}
  end.

Definition train_test_yield_model (w : World) (test_code : string) (cases overrides : pyval)
    (force : bool) (version_ : option string) : gmap string pyval * World :=
  let result := mkdict [("test_code", PStr test_code); ("status", PStr "running")] in
  match DataLoader.prepare_test_yield_dataset settings test_code cases overrides with
  | Raise e => (failed result e, w)
  | Ok (X, y, sample_weights) =>
      if len X =? 0 then (skipped result "No training data", w)
      else
        let min_samples := Config.min_training_samples settings `div` 2 in
        if (len X <? min_samples) && negb force then
          (skipped result ("Insufficient samples: " +:+ pretty (len X) +:+ " < "
                             +:+ pretty min_samples), w)
        else
          let test_model := default (TestYieldModel.init settings)
                              (ModelManager.test_yield_model w.(manager)) in
          match TestYieldModel.fit lgbm_fit regression_metrics test_model test_code X y with
          | (Raise e, test_model) => (failed result e, store w test_model w.(disk))
          | (Ok metrics, test_model) =>
              let v := version_or version_ _generate_version in
              let test_model := TestYieldModel.set_version test_model v in
              match TestYieldModel.save dump_ok test_model test_code (Some v) w.(disk) with
              | (Raise e, disk') => (failed result e, store w test_model disk')
              | (Ok model_path, disk') =>
                  let result := <["status" := PStr "completed"]> result in
                  let result := <["samples_used" := PInt (len X)]> result in
                  let result := <["metrics" := metrics_val metrics]> result in
                  let result := <["model_path" := PStr (path_str settings model_path)]> result in
                  (result, store w test_model disk')
              end
          end
  end.

(** [r.get("status") == "completed"] on a recorded outcome. *)
Definition is_completed (r : pyval) : bool :=
  match r with
  | PDict d => eq_str (get d "status") "completed"
  | _ => false
  end.

(** The loop over the supported tests: the recorded outcomes and the world
    after the last one. *)
Definition train_each (w : World) (cases overrides : pyval) (force : bool) (version_ : string)
    (tests : list string) : gmap string pyval * World :=
  foldl (λ (acc : gmap string pyval * World) test_code,
           let '(model_result, w') :=
             train_test_yield_model acc.2 test_code cases overrides force (Some version_) in
           (<[test_code := PDict model_result]> acc.1, w'))
        (∅, w) tests.

Definition train_all_test_yield_models (w : World) (force : bool)
  : gmap string pyval * World :=
  let result := mkdict [("model_type", PStr "test_yield");
                        ("started_at", PStr started_at);
                        ("status", PStr "running");
                        ("models", PDict ∅)] in
  let cases := DataLoader.fetch_cases_for_training backend_cases in
  let overrides := DataLoader.fetch_overrides backend_overrides "TEST_RECOMMENDATION" in
  let version := _generate_version in
  let '(models, w') :=
    train_each w cases overrides force version TestYieldModel.SUPPORTED_TESTS in
  let result := <["models" := PDict models]> result in
  let succeeded := length (List.filter (λ kv : string * pyval, is_completed kv.2)
                                       (map_to_list models)) in
  let result :=
    if (0 <? succeeded)%nat
    then <["version" := PStr version]> (<["status" := PStr "completed"]> result)
    else <["error" := PStr "No models could be trained"]>
           (<["status" := PStr "failed"]> result) in
  (finish result, w').

Definition train (w : World) (model_type : string) (force : bool)
  : result (gmap string pyval * World) :=
  if String.eqb model_type "complexity" then Ok (train_complexity_model w force None)
  else if String.eqb model_type "test_yield" then Ok (train_all_test_yield_models w force)
  else Raise (ValueError ("Unknown model type: " +:+ model_type)).
End Run.

End Trainer.

(** ** api/routes.py: the training jobs *)
Module Routes.

(** [TrainingJobStatus]; the two optional times are kept as the ISO text of
    the clock reading, [samples_used] and [metrics] as the values assigned to
    them (assignment to a field is not validated). *)
Record TrainingJobStatus := {
  job_id : string;
  model_type : string;
  status : string;
  started_at : option string;
  completed_at : option string;
  samples_used : pyval;
  metrics : pyval;
  error : option string;
}.

(** The module-level [training_jobs]. *)
Definition Jobs : Type := gmap string TrainingJobStatus.

(** [trigger_training] up to [training_jobs[job_id] = job]; [uuid] is the
    text of [uuid.uuid4()].  The background task runs afterwards. *)
Definition trigger_training (uuid : string) (request_model_type : string) (jobs : Jobs)
  : TrainingJobStatus * Jobs :=
  let job := {| job_id := uuid; model_type := request_model_type; status := "pending";
                started_at := None; completed_at := None;
                samples_used := PNone; metrics := PNone; error := None |} in
  (job, <[uuid := job]> jobs).

(** [get_training_status]: [None] is the 404 response. *)
Definition get_training_status (jobs : Jobs) (job_id : string) : option TrainingJobStatus :=
  jobs !! job_id.

Section Background.
Variable settings : Config.Settings.
Variable backend_cases : result pyval.
Variable backend_overrides : string → result pyval.
Variable calibrated_fit : ndarray → list Z → result Classifier.
Variable classification_metrics : Classifier → ndarray → list Z → result Metrics.
Variable lgbm_fit : ndarray → list float → result Regressor.
Variable regression_metrics : Regressor → ndarray → list float → result Metrics.
Variable dump_ok : Path → bool.
Variable started_at_ completed_at_ : string.
Variable version_stamp : string.
(** The two clock readings of the task itself. *)
Variable job_started job_completed : string.

(** The background task [run_training] of a job.  The job object it writes
    to is the one [trigger_training] stored in [training_jobs] under its id,
    so every write is seen through the table. *)
Definition run_training (w : Trainer.World) (jobs : Jobs) (job : TrainingJobStatus)
    (request_model_type : string) (request_force : bool) : Jobs * Trainer.World :=
  let job := {| job_id := job.(job_id); model_type := job.(model_type); status := "running";
                started_at := Some job_started; completed_at := job.(completed_at);
                samples_used := job.(samples_used); metrics := job.(metrics);
                error := job.(error) |} in
  match Trainer.train settings backend_cases backend_overrides calibrated_fit
          classification_metrics lgbm_fit regression_metrics dump_ok
          started_at_ completed_at_ version_stamp w request_model_type request_force with
  | Ok (result, w') =>
      (<[job.(job_id) :=
           {| job_id := job.(job_id); model_type := job.(model_type); status := "completed";
              started_at := job.(started_at); completed_at := Some job_completed;
              samples_used := get result "samples_used"; metrics := get result "metrics";
              error := job.(error) |}]> jobs, w')
  | Raise e =>
      (<[job.(job_id) :=
           {| job_id := job.(job_id); model_type := job.(model_type); status := "failed";
              started_at := job.(started_at); completed_at := job.(completed_at);
              samples_used := job.(samples_used); metrics := job.(metrics);
              error := Some (Trainer.exn_str e) |}]> jobs, w)
  end.
End Background.

End Routes.

(** * Definitions used to state the properties *)
Module Spec.

(** A bank in which only supported tests have an entry. *)
Definition keys_supported (self : TestYieldModel.t) : Prop :=
  ∀ k, is_Some (TestYieldModel.models self !! k) → mem k TestYieldModel.SUPPORTED_TESTS = true.

(** [k] is missing from the map or holds a number ([bool] included). *)
Definition numeric_or_absent (features : gmap string pyval) (k : string) : bool :=
  match features !! k with
  | None => true
  | Some v => match as_num v with Some _ => true | None => false end
  end.

(** The fallback yield as a function of the five conditions the rules test:
    a related condition, age from 55, age from 45, obesity on a metabolic
    test, current smoking on a test it matters for. *)
Definition rule_yield (related a55 a45 heavy smoker : bool) : float :=
  let y := 0.3%float in
  let y := if related then (y + 0.35)%float else y in
  let y := if a55 then (y + 0.15)%float else if a45 then (y + 0.08)%float else y in
  let y := if heavy then (y + 0.12)%float else y in
  let y := if smoker then (y + 0.1)%float else y in
  py_min 0.95 y.

(** The field is in the map and is not [None]. *)
Definition supplied (features : gmap string pyval) (k : string) : bool :=
  match features !! k with
  | Some v => match v with PNone => false | _ => true end
  | None => false
  end.

Definition count_supplied (features : gmap string pyval) (ks : list string) : nat :=
  length (List.filter (supplied features) ks).

(** Feature completeness as the design document words it: base 0.5, plus
    0.15 per required field supplied, plus 0.05 per optional field supplied,
    capped at 0.95 (binary64 additions, required fields first). *)
Definition completeness_score (features : gmap string pyval) : float :=
  let r := count_supplied features ["age"; "bmi"] in
  let o := count_supplied features ["smoking_status"; "has_diabetes"; "has_cardiac"] in
  py_min 0.95 (Nat.iter o (λ s, s + 0.05)%float (Nat.iter r (λ s, s + 0.15)%float 0.5%float)).

(** Inputs of the worked examples. *)
Definition example_settings : Config.Settings := Config.default_settings.

Definition fresh_bank : TestYieldModel.t := TestYieldModel.init example_settings.

Definition example_manager : ModelManager.t := ModelManager.init example_settings ∅.

(** A bank whose ECG regressor answers 7.5 on every row. *)
Definition eager_regressor : Regressor := λ _, Ok 7.5%float.
Definition ecg_bank : TestYieldModel.t :=
  TestYieldModel.set_fitted fresh_bank "ECG" (Some eager_regressor).

Definition two_fields : gmap string pyval :=
  mkdict [("age", PInt 40); ("bmi", PFloat 25)].

(** *** The rule table of the complexity fallback, as the document lists it *)
Inductive rule :=
| Age65 | Age55 | Bmi35 | Bmi30 | Smoking | Cardiac | Diabetes | Renal | SumAssured.

Definition increment (r : rule) : float :=
  match r with
  | Age65 => 0.4 | Age55 => 0.2
  | Bmi35 => 0.35 | Bmi30 => 0.2
  | Smoking => 0.3
  | Cardiac => 0.5 | Diabetes => 0.25 | Renal => 0.4
  | SumAssured => 0.1
  end%float.

(** The same increments in hundredths, for exact arithmetic. *)
Definition hundredths (r : rule) : Z :=
  match r with
  | Age65 => 40 | Age55 => 20
  | Bmi35 => 35 | Bmi30 => 20
  | Smoking => 30
  | Cardiac => 50 | Diabetes => 25 | Renal => 40
  | SumAssured => 10
  end.

(** [features.get(k, dflt) >= n], read as false where it is undefined. *)
Definition at_least (features : gmap string pyval) (k : string) (dflt n : Z) : bool :=
  match ge_int (get_or features k (PInt dflt)) n with
  | Ok b => b
  | Raise _ => false
  end.

(** The rules that apply to a feature map. *)
Definition fired (features : gmap string pyval) : list rule :=
  ((if at_least features "age" 35 65 then [Age65]
    else if at_least features "age" 35 55 then [Age55] else [])
   ++ (if at_least features "bmi" 24 35 then [Bmi35]
       else if at_least features "bmi" 24 30 then [Bmi30] else [])
   ++ (if eq_str (get features "smoking_status") "current" then [Smoking] else [])
   ++ (if truthy (get features "has_cardiac") then [Cardiac] else [])
   ++ (if truthy (get features "has_diabetes") then [Diabetes] else [])
   ++ (if truthy (get features "has_renal") then [Renal] else [])
   ++ (if at_least features "sum_assured" 0 10000000 then [SumAssured] else []))%list.

(** The score as the program accumulates it, in binary64. *)
Definition listed_score (features : gmap string pyval) : float :=
  foldl (λ s r, s + increment r)%float 0%float (fired features).

(** The score as an exact number of hundredths. *)
Definition exact_hundredths (features : gmap string pyval) : Z :=
  foldr (λ r s, hundredths r + s) 0 (fired features).

Definition tier_of_hundredths (h : Z) : string :=
  if 60 <=? h then "COMPLEX" else if 30 <=? h then "MODERATE" else "ROUTINE".

(** The tier the program reads off the binary64 score. *)
Definition float_tier (score : float) : string :=
  if (0.6 <=? score)%float then "COMPLEX"
  else if (0.3 <=? score)%float then "MODERATE"
  else "ROUTINE".

Definition tier_triple (tier : string) : gmap string float :=
  if String.eqb tier "COMPLEX" then ComplexityModel.tier_probs 0.1 0.2 0.7
  else if String.eqb tier "MODERATE" then ComplexityModel.tier_probs 0.2 0.6 0.2
  else ComplexityModel.tier_probs 0.7 0.2 0.1.

Definition tier_confidence (tier : string) : float :=
  if String.eqb tier "MODERATE" then 0.6%float else 0.7%float.

(** The worked example of the document: the request and the feature map the
    inference service builds from it. *)
Definition scenario_applicant : gmap string pyval :=
  mkdict [("age", PInt 60); ("bmi", PFloat 32); ("smoking_status", PStr "current");
          ("height_cm", PNone); ("weight_kg", PNone)].

Definition scenario_disclosures : pyval :=
  PList [PDict (mkdict [("disclosure_type", PStr "condition");
                        ("condition_name", PStr "Coronary artery disease")])].

Definition scenario_features : gmap string pyval :=
  mkdict [("age", PInt 60); ("bmi", PFloat 32); ("smoking_status", PStr "current");
          ("sum_assured", PFloat 12000000);
          ("condition_count", PInt 1); ("medication_count", PInt 0);
          ("has_cardiac", PBool true); ("has_diabetes", PBool false);
          ("has_hypertension", PBool false); ("has_renal", PBool false);
          ("family_history_cardiac", PBool false); ("family_history_diabetes", PBool false)].

Definition fresh_complexity : ComplexityModel.t := ComplexityModel.init example_settings.

(** *** Feature extraction *)

(** A number equal to zero: [0], [0.0], [-0.0] or [False]. *)
Definition zero_number (v : pyval) : bool :=
  match as_num v with
  | Some (NInt z) => z =? 0
  | Some (NFloat f) => (f =? 0)%float
  | None => false
  end.

(** The field is missing or holds a zero. *)
Definition absent_or_zero (applicant : gmap string pyval) (k : string) : bool :=
  match applicant !! k with
  | None => true
  | Some v => zero_number v
  end.

(** The plain calendar form [YYYY-MM-DD], which every Python version reads the
    same way; it instantiates the [fromisoformat] parameter in the examples
    (any other text is rejected by it). *)
Definition digit (c : Ascii.ascii) : option Z :=
  let n := Z.of_nat (Ascii.nat_of_ascii c) in
  if (48 <=? n) && (n <=? 57) then Some (n - 48) else None.

Definition is_leap (y : Z) : bool :=
  (y mod 4 =? 0) && (negb (y mod 100 =? 0) || (y mod 400 =? 0)).

Definition days_in_month (y m : Z) : Z :=
  if (m =? 4) || (m =? 6) || (m =? 9) || (m =? 11) then 30
  else if m =? 2 then (if is_leap y then 29 else 28)
  else 31.

Definition iso_calendar_date (s : string) : option FeatureEngineer.date :=
  match s with
  | String y1 (String y2 (String y3 (String y4 (String sep1
      (String m1 (String m2 (String sep2 (String d1 (String d2 EmptyString))))))))) =>
      a ← digit y1; b ← digit y2; c ← digit y3; d ← digit y4;
      e ← digit m1; f ← digit m2; g ← digit d1; h ← digit d2;
      let y := 1000 * a + 100 * b + 10 * c + d in
      let m := 10 * e + f in
      let dd := 10 * g + h in
      if Ascii.eqb sep1 "-" && Ascii.eqb sep2 "-"
         && (1 <=? y) && (1 <=? m) && (m <=? 12) && (1 <=? dd) && (dd <=? days_in_month y m)
      then Some (FeatureEngineer.Build_date y m dd)
      else None
  | _ => None
  end.

Definition born_mid_june : gmap string pyval :=
  mkdict [("date_of_birth", PStr "2000-06-15"); ("bmi", PFloat 22.5)].

Definition eve_of_birthday : FeatureEngineer.date := FeatureEngineer.Build_date 2026 6 14.
Definition birthday : FeatureEngineer.date := FeatureEngineer.Build_date 2026 6 15.

(** An applicant whose age, body-mass index and height are present and zero. *)
Definition zeros_applicant : gmap string pyval :=
  mkdict [("age", PInt 0); ("bmi", PFloat 0); ("height_cm", PInt 0);
          ("weight_kg", PFloat 70); ("smoking_status", PStr "never")].

Definition aged_applicant : gmap string pyval :=
  mkdict [("age", PInt 41); ("date_of_birth", PStr "2000-06-15")].

(** *** Training rows and serving requests *)

(** One request in the two spellings: the backend record read by the data
    loader and the API request read by the inference service. *)
Definition smoker_record : gmap string pyval :=
  mkdict [("age", PInt 40); ("bmi", PFloat 25); ("smokingStatus", PStr "current")].

Definition smoker_request : gmap string pyval :=
  mkdict [("age", PInt 40); ("bmi", PFloat 25); ("smoking_status", PStr "current");
          ("height_cm", PNone); ("weight_kg", PNone)].

Definition arrhythmia : pyval :=
  PList [PDict (mkdict [("disclosure_type", PStr "condition");
                        ("condition_name", PStr "Arrhythmia")])].

Definition diabetic : pyval :=
  PList [PDict (mkdict [("disclosure_type", PStr "condition");
                        ("condition_name", PStr "Type 2 Diabetes")])].

(** The entry of a returned feature map under a name. *)
Definition entry (k : string) (r : result (gmap string pyval)) : result (option pyval) :=
  (λ features : gmap string pyval, features !! k) <$> r.

(** *** Training runs *)

(** A completed case of the backend, with one recorded test result. *)
Definition completed_case (age : Z) (tier test : string) : pyval :=
  PDict (mkdict
    [("applicant", PDict (mkdict [("age", PInt age); ("bmi", PFloat 27.5);
                                  ("smokingStatus", PStr "former")]));
     ("medicalDisclosures", PList []);
     ("sumAssured", PInt 7500000);
     ("complexityTier", PStr tier);
     ("testResults", PList [PDict (mkdict [("testCode", PStr test);
                                           ("resultStatus", PStr "abnormal")])])]).

Definition two_cases : result pyval :=
  Ok (PList [completed_case 44 "ROUTINE" "ECG"; completed_case 61 "COMPLEX" "ECG"]).

Definition no_overrides : string → result pyval := λ _, Ok (PList []).

Definition failing_classifier_fit : ndarray → list Z → result Classifier :=
  λ _ _, Raise OSError.
Definition no_classification_metrics : Classifier → ndarray → list Z → result Metrics :=
  λ _ _ _, Raise OSError.

(** The feature rows of [two_cases] under the complexity schema. *)
Definition two_rows : ndarray :=
  [[44; 27.5; 7.5; 1; 0; 0; 0; 0; 0; 0; 0; 0];
   [61; 27.5; 7.5; 1; 0; 0; 0; 0; 0; 0; 0; 0]]%float.

(** The number of rows assembled for a test code, when the assembly returns. *)
Definition rows (settings : Config.Settings) (test_code : string) (cases overrides : pyval)
  : option Z :=
  match DataLoader.prepare_test_yield_dataset settings test_code cases overrides with
  | Ok (X, _, _) => Some (len X)
  | Raise _ => None
  end.

(** A test model is trained when there are rows and, unless the run is
    forced, at least half the configured minimum of them. *)
Definition trains (settings : Config.Settings) (force : bool) (n : Z) : bool :=
  negb (n =? 0) && ((Config.min_training_samples settings `div` 2 <=? n) || force).

Definition trains_test (settings : Config.Settings) (force : bool) (cases overrides : pyval)
    (test_code : string) : bool :=
  match rows settings test_code cases overrides with
  | Some n => trains settings force n
  | None => false
  end.

(** The recorded outcome of a test code in the [models] entry of a run. *)
Definition run_models (r : gmap string pyval) : gmap string pyval :=
  match r !! "models" with
  | Some (PDict models) => models
  | _ => ∅
  end.

Definition outcome (models : gmap string pyval) (test_code : string) : pyval :=
  match models !! test_code with
  | Some (PDict d) => get d "status"
  | _ => PNone
  end.

Definition count_outcome (models : gmap string pyval) (status : string) : nat :=
  length (List.filter (λ t, eq_str (outcome models t) status) TestYieldModel.SUPPORTED_TESTS).

(** Fifty completed cases, each with an ECG, a lipid and an HbA1c result:
    three test codes reach the per-test minimum of 50 rows, the other six
    have no rows. *)
Definition screened_case : pyval :=
  PDict (mkdict
    [("applicant", PDict (mkdict [("age", PInt 52); ("bmi", PFloat 31);
                                  ("smokingStatus", PStr "current")]));
     ("medicalDisclosures",
      PList [PDict (mkdict [("disclosure_type", PStr "condition");
                            ("condition_name", PStr "Hypertension")])]);
     ("sumAssured", PInt 7500000);
     ("testResults",
      PList [PDict (mkdict [("testCode", PStr "ECG"); ("resultStatus", PStr "abnormal")]);
             PDict (mkdict [("testCode", PStr "LIPID"); ("resultStatus", PStr "normal")]);
             PDict (mkdict [("testCode", PStr "HBA1C"); ("ledToAction", PBool true)])])]).

Definition fifty_cases : pyval := PList (replicate 50 screened_case).

Definition constant_regressor_fit : ndarray → list float → result Regressor :=
  λ _ _, Ok (λ _, Ok 0.5%float).
Definition no_metrics : Regressor → ndarray → list float → result Metrics :=
  λ _ _ _, Ok ∅.

Definition example_world : Trainer.World :=
  {| Trainer.manager := example_manager; Trainer.disk := ∅ |}.

(** The manager after [update_test_yield_model("XYZ", TestYieldModel())]. *)
Definition xyz_manager : ModelManager.t :=
  ModelManager.update_test_yield_model example_manager "XYZ" fresh_bank.

Definition always_writable : Path → bool := λ _, true.

(** A disclosure as the request schema dumps it when the condition name was
    not given: the key is there and holds [None]. *)
Definition unnamed_condition : gmap string pyval :=
  mkdict [("disclosure_type", PStr "condition"); ("condition_name", PNone)].

Definition unnamed_case : gmap string pyval :=
  mkdict [("applicant", PDict (mkdict [("age", PInt 52)]));
          ("medicalDisclosures", PList [PDict unnamed_condition])].

(** A validated override of the complexity tier. *)
Definition validated_override : pyval :=
  PDict (mkdict
    [("contextSnapshot",
      PDict (mkdict [("applicant", PDict (mkdict [("age", PInt 58); ("bmi", PInt 33);
                                                  ("smokingStatus", PStr "current")]));
                     ("sumAssured", PInt 12000000)]));
     ("underwriterChoice", PStr "COMPLEX");
     ("validated", PBool true)]).

(** A learner that always returns the same classifier, and scores that are
    always computed. *)
Definition constant_classifier_fit : ndarray → list Z → result Classifier :=
  λ _ _, Ok (λ _, Ok [0.2; 0.5; 0.3]%float).
Definition empty_classification_metrics : Classifier → ndarray → list Z → result Metrics :=
  λ _ _ _, Ok ∅.

(** A blob store that refuses every write. *)
Definition never_writable : Path → bool := λ _, false.

(** Calendar order on dates: by year, then by month and day. *)
Definition date_le (a b : FeatureEngineer.date) : bool :=
  (FeatureEngineer.year a <? FeatureEngineer.year b)
  || ((FeatureEngineer.year a =? FeatureEngineer.year b) && negb (FeatureEngineer.md_lt b a)).

(** The names under which [prepare_features] computes a value. *)
Definition engineered_names : list string :=
  ["age"; "bmi"; "smoking_status"; "sum_assured"; "sum_assured_tier";
   "has_cardiac"; "has_diabetes"; "has_hypertension"; "has_renal"; "has_hepatic";
   "has_respiratory"; "has_cancer"; "has_neurological";
   "family_history_cardiac"; "family_history_diabetes"; "family_history_cancer";
   "family_history_stroke";
   "condition_count"; "medication_count"; "family_history_count"; "surgery_count"].

(** Disclosures whose words are in the keyword lists of the training
    extraction only: a kidney condition named by "nephro" and a family
    history named by "coronary". *)
Definition nephropathy_and_family_coronary : pyval :=
  PList [PDict (mkdict [("disclosure_type", PStr "condition");
                        ("condition_name", PStr "Diabetic nephropathy")]);
         PDict (mkdict [("disclosure_type", PStr "family_history");
                        ("family_condition", PStr "Coronary artery disease")])].

(** A request without an age, as the serving path receives it, and the
    feature map the inference service builds from it. *)
Definition ageless_request : gmap string pyval :=
  mkdict [("age", PNone); ("bmi", PFloat 25); ("smoking_status", PStr "never")].

Definition ageless_features : gmap string pyval :=
  mkdict [("age", PNone); ("bmi", PFloat 25); ("smoking_status", PStr "never");
          ("sum_assured", PInt 5000000);
          ("condition_count", PInt 0); ("medication_count", PInt 0);
          ("has_cardiac", PBool false); ("has_diabetes", PBool false);
          ("has_hypertension", PBool false); ("has_renal", PBool false);
          ("family_history_cardiac", PBool false); ("family_history_diabetes", PBool false)].

(** The value is [None] or a number: neither text nor a list nor a
    dictionary. *)
Definition plain_number (v : pyval) : bool :=
  match v with
  | PNone | PBool _ | PInt _ | PFloat _ => true
  | PStr _ | PList _ | PDict _ => false
  end.

(** What the training of one test code comes to in a run: the regressor and
    its scores, when the rows are assembled and are enough, the learner and
    the scoring return, and the file of the test code under [version_] is
    written; nothing otherwise. *)
Definition trained (settings : Config.Settings)
    (lgbm_fit : ndarray → list float → result Regressor)
    (regression_metrics : Regressor → ndarray → list float → result Metrics)
    (dump_ok : Path → bool) (force : bool) (cases overrides : pyval) (version_ : string)
    (test_code : string) : option (Regressor * Metrics) :=
  match DataLoader.prepare_test_yield_dataset settings test_code cases overrides with
  | Ok (X, y, _) =>
      if trains settings force (len X) then
        match lgbm_fit X y with
        | Ok model =>
            match regression_metrics model X y with
            | Ok metrics =>
                if dump_ok (version_, "test_yield_" +:+ lower test_code +:+ ".joblib")
                then Some (model, metrics) else None
            | Raise _ => None
            end
        | Raise _ => None
        end
      else None
  | Raise _ => None
  end.

(** The outcome of one test code, read off the same data: skipped when the
    rows are not enough, completed when the training comes to a regressor,
    failed when the assembly or the training raises. *)
Definition expected_outcome (settings : Config.Settings)
    (lgbm_fit : ndarray → list float → result Regressor)
    (regression_metrics : Regressor → ndarray → list float → result Metrics)
    (dump_ok : Path → bool) (force : bool) (cases overrides : pyval) (version_ : string)
    (test_code : string) : string :=
  match rows settings test_code cases overrides with
  | None => "failed"
  | Some n =>
      if trains settings force n then
        match trained settings lgbm_fit regression_metrics dump_ok force cases overrides
                version_ test_code with
        | Some _ => "completed"
        | None => "failed"
        end
      else "skipped"
  end.

End Spec.

(** * Properties *)

(** ** Facts about binary64 comparisons *)
Section FloatFacts.

Lemma ltb_leb (x y : float) : (x <? y)%float = true → (x <=? y)%float = true.
Proof.
  rewrite ltb_spec, leb_spec. unfold SFltb, SFleb.
  destruct (SFcompare _ _) as [[]|]; congruence.
Qed.

(** [max(0.0, min(1.0, y))] lies in the unit interval for every float [y],
    NaN and the infinities included. *)
Lemma clamp_unit (y : float) :
  (0 <=? py_max 0 (py_min 1 y))%float = true ∧ (py_max 0 (py_min 1 y) <=? 1)%float = true.
Proof.
  unfold py_max, py_min.
  destruct (y <? 1)%float eqn:H1.
  - destruct (0 <? y)%float eqn:H0.
    + split; now apply ltb_leb.
    + split; reflexivity.
  - split; reflexivity.
Qed.

Lemma float_neq (x y : float) : (x =? y)%float = false → (x =? x)%float = true → x ≠ y.
Proof. intros Hxy Hxx ->. congruence. Qed.

End FloatFacts.

(** ** Hot swap of one test-yield regressor *)

(** C10: [update_test_yield_model t m] changes, in the active bank, only the
    regressor and the fitted flag of test code [t]: every other test code keeps
    its regressor and flag, the schema, version and metrics of the bank and the
    rest of the manager are untouched; the flag of [t] becomes [True] whatever
    [m] holds, and when [m] has no regressor for [t] the active regressor of
    [t] becomes [None]. *)
Theorem update_test_yield_model_frame
    (mm : ModelManager.t) (tym m : TestYieldModel.t) (t : string) :
  ModelManager.test_yield_model mm = Some tym →
  ∃ tym',
    ModelManager.test_yield_model (ModelManager.update_test_yield_model mm t m) = Some tym'
    ∧ (∀ t', t' ≠ t →
         TestYieldModel.models tym' !! t' = TestYieldModel.models tym !! t'
         ∧ TestYieldModel.is_fitted tym' !! t' = TestYieldModel.is_fitted tym !! t')
    ∧ TestYieldModel.is_fitted tym' !! t = Some true
    ∧ TestYieldModel.models tym' !! t = Some (default None (TestYieldModel.models m !! t))
    ∧ (TestYieldModel.models m !! t = None → TestYieldModel.models tym' !! t = Some None)
    ∧ TestYieldModel.feature_names tym' = TestYieldModel.feature_names tym
    ∧ TestYieldModel.version tym' = TestYieldModel.version tym
    ∧ TestYieldModel.training_metrics tym' = TestYieldModel.training_metrics tym
    ∧ ModelManager.complexity_model (ModelManager.update_test_yield_model mm t m)
      = ModelManager.complexity_model mm
    ∧ ModelManager.current_version (ModelManager.update_test_yield_model mm t m)
      = ModelManager.current_version mm.
Proof.
  intros Hbank. unfold ModelManager.update_test_yield_model. rewrite Hbank.
  eexists. split; [reflexivity|]. cbn.
  repeat split.
  - now rewrite lookup_insert_ne.
  - now rewrite lookup_insert_ne.
  - apply lookup_insert_eq.
  - apply lookup_insert_eq.
  - intros ->. apply lookup_insert_eq.
Qed.

Lemma update_test_yield_model_frame_witness :
  ModelManager.test_yield_model Spec.example_manager = Some Spec.fresh_bank
  ∧ ∃ tym',
      ModelManager.test_yield_model
        (ModelManager.update_test_yield_model Spec.example_manager "ECG" Spec.fresh_bank)
      = Some tym'
      ∧ TestYieldModel.is_fitted tym' !! "ECG" = Some true
      ∧ TestYieldModel.models tym' !! "ECG" = Some None
      ∧ TestYieldModel.is_fitted tym' !! "LFT" = Some false.
Proof.
  assert (Hbank : ModelManager.test_yield_model Spec.example_manager = Some Spec.fresh_bank)
    by reflexivity.
  split; [exact Hbank|].
  destruct (update_test_yield_model_frame Spec.example_manager Spec.fresh_bank
              Spec.fresh_bank "ECG" Hbank)
    as (tym' & Hnew & Hframe & Hflag & _ & Hnone & _).
  exists tym'. split; [exact Hnew|]. split; [exact Hflag|]. split.
  - apply Hnone. reflexivity.
  - destruct (Hframe "LFT") as [_ ->]; [discriminate|]. reflexivity.
Defined.

(** ** Test-yield prediction *)
Section TestYieldPredict.
Import TestYieldModel.

Lemma ge_int_numeric (features : gmap string pyval) (k : string) (dflt n : Z) :
  Spec.numeric_or_absent features k = true →
  ∃ b, ge_int (get_or features k (PInt dflt)) n = Ok b.
Proof.
  unfold Spec.numeric_or_absent, get_or, ge_int.
  destruct (features !! k) as [v|]; cbn.
  - destruct (as_num v) as [[z|f]|]; [eauto..|discriminate].
  - eauto.
Qed.

(** What the fallback returns, whenever it returns. *)
Lemma rule_based_shape (t : string) (features : gmap string pyval) (p : Prediction) :
  _rule_based_prediction t features = Ok p →
  p.1.1.2 = 0.7%float
  ∧ ∃ related a55 a45 heavy smoker, p.1.1.1 = Spec.rule_yield related a55 a45 heavy smoker.
Proof.
  unfold _rule_based_prediction.
  destruct (_has_related_condition t features) as [related|]; cbn; [|discriminate].
  destruct (ge_int (get_or features "age" (PInt 35)) 55) as [a55|]; cbn; [|discriminate].
  destruct a55; cbn.
  - destruct (ge_int (get_or features "bmi" (PInt 24)) 30) as [b30|]; cbn; [|discriminate].
    intros [= <-]. split; [reflexivity|].
    exists related, true, false, (b30 && mem t ["HBA1C"; "LIPID"]),
      (eq_str (get features "smoking_status") "current" && mem t ["ECG"; "LIPID"; "LFT"]).
    cbn. unfold Spec.rule_yield.
    destruct related, (b30 && mem t ["HBA1C"; "LIPID"]),
      (eq_str (get features "smoking_status") "current"), (mem t ["ECG"; "LIPID"; "LFT"]);
      reflexivity.
  - destruct (ge_int (get_or features "age" (PInt 35)) 45) as [a45|]; cbn; [|discriminate].
    destruct (ge_int (get_or features "bmi" (PInt 24)) 30) as [b30|]; cbn; [|discriminate].
    intros [= <-]. split; [reflexivity|].
    exists related, false, a45, (b30 && mem t ["HBA1C"; "LIPID"]),
      (eq_str (get features "smoking_status") "current" && mem t ["ECG"; "LIPID"; "LFT"]).
    cbn. unfold Spec.rule_yield.
    destruct related, a45, (b30 && mem t ["HBA1C"; "LIPID"]),
      (eq_str (get features "smoking_status") "current"), (mem t ["ECG"; "LIPID"; "LFT"]);
      reflexivity.
Qed.

Lemma rule_yield_unit (related a55 a45 heavy smoker : bool) :
  (0 <=? Spec.rule_yield related a55 a45 heavy smoker)%float = true
  ∧ (Spec.rule_yield related a55 a45 heavy smoker <=? 1)%float = true.
Proof. destruct related, a55, a45, heavy, smoker; vm_compute; split; reflexivity. Qed.

Lemma has_related_numeric (t : string) (features : gmap string pyval) :
  Spec.numeric_or_absent features "bmi" = true →
  ∃ b, _has_related_condition t features = Ok b.
Proof.
  intros Hbmi. unfold _has_related_condition.
  destruct (ge_int_numeric features "bmi" 24 30 Hbmi) as [b Hb].
  repeat match goal with
         | |- context [if ?c then _ else _] => destruct c; cbn; eauto
         | |- context [ge_int _ _] => rewrite Hb; cbn
         end.
Qed.

(** The fallback returns a prediction as soon as age and body-mass index are
    numbers or missing. *)
Lemma rule_based_returns (t : string) (features : gmap string pyval) :
  Spec.numeric_or_absent features "age" = true →
  Spec.numeric_or_absent features "bmi" = true →
  ∃ p, _rule_based_prediction t features = Ok p.
Proof.
  intros Hage Hbmi. unfold _rule_based_prediction.
  destruct (has_related_numeric t features Hbmi) as [related ->]; cbn.
  destruct (ge_int_numeric features "age" 35 55 Hage) as [a55 ->]; cbn.
  destruct (ge_int_numeric features "age" 35 45 Hage) as [a45 ->].
  destruct (ge_int_numeric features "bmi" 24 30 Hbmi) as [b30 ->].
  destruct a55; cbn; eauto.
Qed.

Lemma present_supplied (features : gmap string pyval) (k : string) :
  present features k = Spec.supplied features k.
Proof.
  unfold present, Spec.supplied. destruct (features !! k) as [[]|]; reflexivity.
Qed.

(** The confidence of the fitted path is the completeness score. *)
Lemma confidence_is_completeness (features : gmap string pyval) :
  _calculate_confidence features = Spec.completeness_score features.
Proof.
  unfold _calculate_confidence, Spec.completeness_score, Spec.count_supplied.
  cbv beta iota zeta delta [foldl List.filter].
  change (Spec.supplied features) with (present features).
  destruct (present features "age"), (present features "bmi"),
    (present features "smoking_status"), (present features "has_diabetes"),
    (present features "has_cardiac"); reflexivity.
Qed.

(** What [predict] returns on the fitted path, whenever it returns. *)
Lemma fitted_shape (self : t) (test_code : string) (features : gmap string pyval)
    (p : Prediction) :
  mem test_code SUPPORTED_TESTS = true →
  default false (is_fitted self !! test_code) = true →
  predict self test_code features = Ok p →
  p.1.1.2 = _calculate_confidence features
  ∧ ∃ raw, p.1.1.1 = py_max 0 (py_min 1 raw).
Proof.
  intros Hsup Hfit. unfold predict. rewrite Hsup, Hfit. cbn.
  destruct (_extract_features self test_code features) as [X|]; cbn; [|discriminate].
  destruct (models self !! test_code) as [[r|]|]; cbn; [|discriminate..].
  destruct (r X) as [raw|]; cbn; [|discriminate].
  destruct (_calculate_contributions test_code features X) as [cs|]; cbn; [|discriminate].
  intros [= <-]. cbn. eauto.
Qed.

Lemma unfitted_predict (self : t) (test_code : string) (features : gmap string pyval) :
  mem test_code SUPPORTED_TESTS = true →
  default false (is_fitted self !! test_code) = false →
  predict self test_code features = _rule_based_prediction test_code features.
Proof. intros Hsup Hfit. unfold predict. now rewrite Hsup, Hfit. Qed.

End TestYieldPredict.

(** C7: for a supported test code, whatever [predict] returns has its yield
    in [0, 1]: the fitted path clamps the regressor output, of any magnitude
    (NaN and infinities included), and the fallback caps its sum of
    increments.  The fallback returns a prediction whenever age and body-mass
    index are numbers or missing. *)
Theorem predict_yield_in_unit_interval
    (self : TestYieldModel.t) (test_code : string) (features : gmap string pyval) :
  mem test_code TestYieldModel.SUPPORTED_TESTS = true →
  (∀ y c r cs,
     TestYieldModel.predict self test_code features = Ok (y, c, r, cs) →
     (0 <=? y)%float = true ∧ (y <=? 1)%float = true)
  ∧ (default false (TestYieldModel.is_fitted self !! test_code) = false →
     Spec.numeric_or_absent features "age" = true →
     Spec.numeric_or_absent features "bmi" = true →
     ∃ p, TestYieldModel.predict self test_code features = Ok p).
Proof.
  intros Hsup. split.
  - intros y c r cs Hp.
    destruct (default false (TestYieldModel.is_fitted self !! test_code)) eqn:Hfit.
    + destruct (fitted_shape _ _ _ _ Hsup Hfit Hp) as [_ [raw Hy]].
      cbn in Hy. subst y. apply clamp_unit.
    + rewrite unfitted_predict in Hp by assumption.
      destruct (rule_based_shape _ _ _ Hp) as [_ (b1 & b2 & b3 & b4 & b5 & Hy)].
      cbn in Hy. subst y. apply rule_yield_unit.
  - intros Hfit Hage Hbmi. rewrite unfitted_predict by assumption.
    now apply rule_based_returns.
Qed.

Lemma predict_yield_in_unit_interval_witness :
  mem "ECG" TestYieldModel.SUPPORTED_TESTS = true
  ∧ TestYieldModel.predict Spec.ecg_bank "ECG" Spec.two_fields
    = Ok (1%float, 0.8%float, "recommended", [])
  ∧ (0 <=? 1)%float = true ∧ (1 <=? 1)%float = true.
Proof.
  assert (Hsup : mem "ECG" TestYieldModel.SUPPORTED_TESTS = true) by reflexivity.
  assert (Hp : TestYieldModel.predict Spec.ecg_bank "ECG" Spec.two_fields
               = Ok (1%float, 0.8%float, "recommended", [])) by (vm_compute; reflexivity).
  split; [exact Hsup|]. split; [exact Hp|].
  exact (proj1 (predict_yield_in_unit_interval Spec.ecg_bank "ECG" Spec.two_fields Hsup)
           _ _ _ _ Hp).
Defined.

(** C6 as stated fails on the fallback path: with age and body-mass index
    supplied the completeness score is 0.8, and an unfitted bank answers with
    confidence 0.7. *)
Lemma fallback_confidence_counterexample :
  mem "HBA1C" TestYieldModel.SUPPORTED_TESTS = true
  ∧ Spec.completeness_score Spec.two_fields = 0.8%float
  ∧ ∃ y r cs,
      TestYieldModel.predict Spec.fresh_bank "HBA1C" Spec.two_fields = Ok (y, 0.7%float, r, cs)
      ∧ 0.7%float ≠ Spec.completeness_score Spec.two_fields.
Proof.
  split; [reflexivity|]. split; [vm_compute; reflexivity|].
  eexists _, _, _. split; [vm_compute; reflexivity|].
  apply float_neq; vm_compute; reflexivity.
Qed.

(** C6, amended: for a supported test code, the confidence [predict] returns
    on the fitted path is the feature-completeness score (0.5, plus 0.15 per
    supplied required field, plus 0.05 per supplied optional field, capped at
    0.95), whatever the yield; on the fallback path it is the constant 0.7. *)
Theorem predict_confidence
    (self : TestYieldModel.t) (test_code : string) (features : gmap string pyval)
    (y c : float) (r : string) (cs : list Contribution) :
  mem test_code TestYieldModel.SUPPORTED_TESTS = true →
  TestYieldModel.predict self test_code features = Ok (y, c, r, cs) →
  c = if default false (TestYieldModel.is_fitted self !! test_code)
      then Spec.completeness_score features
      else 0.7%float.
Proof.
  intros Hsup Hp.
  destruct (default false (TestYieldModel.is_fitted self !! test_code)) eqn:Hfit.
  - destruct (fitted_shape _ _ _ _ Hsup Hfit Hp) as [Hc _].
    cbn in Hc. now rewrite <- confidence_is_completeness.
  - rewrite unfitted_predict in Hp by assumption.
    now destruct (rule_based_shape _ _ _ Hp) as [Hc _].
Qed.

Lemma predict_confidence_witness :
  mem "ECG" TestYieldModel.SUPPORTED_TESTS = true
  ∧ TestYieldModel.predict Spec.ecg_bank "ECG" Spec.two_fields
    = Ok (1%float, 0.8%float, "recommended", [])
  ∧ 0.8%float = Spec.completeness_score Spec.two_fields.
Proof.
  assert (Hsup : mem "ECG" TestYieldModel.SUPPORTED_TESTS = true) by reflexivity.
  assert (Hp : TestYieldModel.predict Spec.ecg_bank "ECG" Spec.two_fields
               = Ok (1%float, 0.8%float, "recommended", [])) by (vm_compute; reflexivity).
  split; [exact Hsup|]. split; [exact Hp|].
  exact (predict_confidence Spec.ecg_bank "ECG" Spec.two_fields _ _ _ _ Hsup Hp).
Defined.

(** ** Unsupported test codes *)
Section Unsupported.
Import TestYieldModel.

Lemma keys_supported_init (settings : Config.Settings) : Spec.keys_supported (init settings).
Proof. intros k [r Hr]. cbn in Hr. now rewrite lookup_empty in Hr. Qed.

Lemma keys_supported_set_fitted (self : t) (test_code : string) (r : option Regressor) :
  mem test_code SUPPORTED_TESTS = true →
  Spec.keys_supported self → Spec.keys_supported (set_fitted self test_code r).
Proof.
  intros Hsup Hself k Hk. cbn in Hk.
  destruct (decide (test_code = k)) as [<-|Hne]; [assumption|].
  rewrite lookup_insert_ne in Hk by assumption. now apply Hself.
Qed.

Lemma keys_supported_fit lgbm_fit regression_metrics (self : t) (test_code : string)
    (X : ndarray) (y : list float) :
  Spec.keys_supported self →
  Spec.keys_supported (fit lgbm_fit regression_metrics self test_code X y).2.
Proof.
  intros Hself. unfold fit.
  destruct (mem test_code SUPPORTED_TESTS) eqn:Hsup; cbn; [|assumption].
  destruct (lgbm_fit X y) as [model|]; cbn; [|assumption].
  destruct (regression_metrics model X y); cbn; now apply keys_supported_set_fitted.
Qed.

Lemma keys_supported_load_from (disk : Disk) (version_ : option string) (tests : list string)
    (loaded : gmap string bool) (self : t) :
  (∀ k, k ∈ tests → mem k SUPPORTED_TESTS = true) →
  Spec.keys_supported self →
  Spec.keys_supported (foldl (load_one disk version_) (loaded, self) tests).2.
Proof.
  revert loaded self. induction tests as [|test_code tests IH]; intros loaded self Htests Hself.
  - exact Hself.
  - cbn [foldl]. unfold load_one at 2.
    assert (Hhead : mem test_code SUPPORTED_TESTS = true) by (apply Htests; left).
    assert (Htail : ∀ k, k ∈ tests → mem k SUPPORTED_TESTS = true)
      by (intros k Hk; apply Htests; now right).
    destruct (disk !! get_model_path self test_code version_) as [[| model names v metrics]|];
      apply IH; try assumption.
    intros k Hk. cbn in Hk. now apply (keys_supported_set_fitted self test_code model Hhead Hself).
Qed.

Lemma keys_supported_load (self : t) (version_ : option string) (disk : Disk) :
  Spec.keys_supported self → Spec.keys_supported (load self version_ disk).2.
Proof.
  apply keys_supported_load_from. intros k Hk.
  unfold SUPPORTED_TESTS in *. set_unfold. intuition (subst; reflexivity).
Qed.

End Unsupported.

(** C5 as stated fails for [save]: it asks whether the bank has an entry for
    the code, not whether the code is supported, and
    [ModelManager.update_test_yield_model] creates an entry for any code. *)
Lemma save_unsupported_counterexample :
  mem "XYZ" TestYieldModel.SUPPORTED_TESTS = false
  ∧ ∃ bank,
      ModelManager.test_yield_model Spec.xyz_manager = Some bank
      ∧ (TestYieldModel.save Spec.always_writable bank "XYZ" None ∅).1
        = Ok ("v1", "test_yield_xyz.joblib")
      ∧ is_Some ((TestYieldModel.save Spec.always_writable bank "XYZ" None ∅).2
                   !! ("v1", "test_yield_xyz.joblib")).
Proof.
  split; [reflexivity|]. eexists. split; [reflexivity|].
  split; [reflexivity|]. vm_compute. eauto.
Qed.

(** C5, amended: for an unsupported test code, [fit] and [predict] raise
    [ValueError("Unsupported test: ...")] at once, for every input and in
    every state, and [fit] leaves the bank as it was; [save] raises
    [ValueError("No model for test ...")] and writes nothing whenever the bank
    has no entry for the code, which holds for every unsupported code in a
    bank whose entries all belong to supported tests (as the constructor,
    [load] and [fit] leave it). *)
Theorem unsupported_test_rejected
    lgbm_fit regression_metrics dump_ok
    (self : TestYieldModel.t) (test_code : string) (X : ndarray) (y : list float)
    (features : gmap string pyval) (version_ : option string) (disk : Disk) :
  mem test_code TestYieldModel.SUPPORTED_TESTS = false →
  TestYieldModel.fit lgbm_fit regression_metrics self test_code X y
    = (Raise (ValueError ("Unsupported test: " +:+ test_code)), self)
  ∧ TestYieldModel.predict self test_code features
    = Raise (ValueError ("Unsupported test: " +:+ test_code))
  ∧ (TestYieldModel.models self !! test_code = None →
     TestYieldModel.save dump_ok self test_code version_ disk
     = (Raise (ValueError ("No model for test " +:+ test_code)), disk))
  ∧ (Spec.keys_supported self → TestYieldModel.models self !! test_code = None).
Proof.
  intros Hsup. repeat split.
  - unfold TestYieldModel.fit. now rewrite Hsup.
  - unfold TestYieldModel.predict. now rewrite Hsup.
  - intros Hnone. unfold TestYieldModel.save. now rewrite Hnone.
  - intros Hkeys. destruct (TestYieldModel.models self !! test_code) as [r|] eqn:Hr; [|done].
    assert (mem test_code TestYieldModel.SUPPORTED_TESTS = true) by (apply Hkeys; eauto).
    congruence.
Qed.

Lemma unsupported_test_rejected_witness :
  mem "XYZ" TestYieldModel.SUPPORTED_TESTS = false
  ∧ TestYieldModel.predict Spec.ecg_bank "XYZ" Spec.two_fields
    = Raise (ValueError "Unsupported test: XYZ")
  ∧ TestYieldModel.save Spec.always_writable Spec.ecg_bank "XYZ" None ∅
    = (Raise (ValueError "No model for test XYZ"), ∅).
Proof.
  assert (Hsup : mem "XYZ" TestYieldModel.SUPPORTED_TESTS = false) by reflexivity.
  destruct (unsupported_test_rejected (λ _ _, Raise OSError) (λ _ _ _, Raise OSError)
              Spec.always_writable Spec.ecg_bank "XYZ" [] [] Spec.two_fields None ∅ Hsup)
    as (_ & Hpredict & Hsave & Hkeys).
  split; [exact Hsup|]. split; [exact Hpredict|].
  apply Hsave. reflexivity.
Defined.

(** Sequencing after a call that returned, and after one that raised. *)
Lemma bind_Ok {A B} (a : A) (k : A → result B) : (Ok a ≫= k) = k a.
Proof. reflexivity. Qed.

Lemma bind_Raise {A B} (e : exn) (k : A → result B) : (Raise e ≫= k) = Raise e.
Proof. reflexivity. Qed.

(** ** The rule-based complexity fallback *)
Section ComplexityFallback.
Import ComplexityModel.

Lemma at_least_numeric (features : gmap string pyval) (k : string) (dflt n : Z) :
  Spec.numeric_or_absent features k = true →
  ge_int (get_or features k (PInt dflt)) n = Ok (Spec.at_least features k dflt n).
Proof.
  intros Hk. unfold Spec.at_least.
  destruct (ge_int_numeric features k dflt n Hk) as [b ->]. reflexivity.
Qed.

Lemma foldl_option_rule (f : float → Spec.rule → float) (acc : float) (b : bool)
    (r : Spec.rule) (rest : list Spec.rule) :
  foldl f acc ((if b then [r] else []) ++ rest)%list
  = foldl f (if b then f acc r else acc) rest.
Proof. now destruct b. Qed.

Lemma foldl_choice_rule (f : float → Spec.rule → float) (acc : float) (b1 b2 : bool)
    (r1 r2 : Spec.rule) (rest : list Spec.rule) :
  foldl f acc ((if b1 then [r1] else if b2 then [r2] else []) ++ rest)%list
  = foldl f (if b1 then f acc r1 else if b2 then f acc r2 else acc) rest.
Proof. now destruct b1, b2. Qed.

(** The score of the fallback is the binary64 sum of the increments of the
    rules that apply, in the order of the table. *)
Lemma listed_score_unfold (features : gmap string pyval) :
  Spec.listed_score features
  = (let score := 0%float in
     let score := if Spec.at_least features "age" 35 65 then score + 0.4
                  else if Spec.at_least features "age" 35 55 then score + 0.2 else score in
     let score := if Spec.at_least features "bmi" 24 35 then score + 0.35
                  else if Spec.at_least features "bmi" 24 30 then score + 0.2 else score in
     let score := if eq_str (get features "smoking_status") "current"
                  then score + 0.3 else score in
     let score := if truthy (get features "has_cardiac") then score + 0.5 else score in
     let score := if truthy (get features "has_diabetes") then score + 0.25 else score in
     let score := if truthy (get features "has_renal") then score + 0.4 else score in
     if Spec.at_least features "sum_assured" 0 10000000 then score + 0.1 else score)%float.
Proof.
  unfold Spec.listed_score, Spec.fired.
  rewrite !foldl_choice_rule, !foldl_option_rule.
  now destruct (Spec.at_least features "sum_assured" 0 10000000).
Qed.

(** From the score to the returned tuple. *)
Lemma tier_probs_lookup (r m c : float) :
  tier_probs r m c !! "COMPLEX" = Some c
  ∧ tier_probs r m c !! "MODERATE" = Some m
  ∧ tier_probs r m c !! "ROUTINE" = Some r.
Proof. repeat split; reflexivity. Qed.

(** Binary64 rounding never moves the score across a cut point: the tier read
    off the float sum is the tier of the exact decimal sum. *)
Lemma float_tier_exact (features : gmap string pyval) :
  Spec.float_tier (Spec.listed_score features)
  = Spec.tier_of_hundredths (Spec.exact_hundredths features).
Proof.
  unfold Spec.listed_score, Spec.exact_hundredths, Spec.fired.
  destruct (Spec.at_least features "age" 35 65), (Spec.at_least features "age" 35 55),
    (Spec.at_least features "bmi" 24 35), (Spec.at_least features "bmi" 24 30),
    (eq_str (get features "smoking_status") "current"),
    (truthy (get features "has_cardiac")), (truthy (get features "has_diabetes")),
    (truthy (get features "has_renal")), (Spec.at_least features "sum_assured" 0 10000000);
    vm_compute; reflexivity.
Qed.

(** The fallback on a map whose age, body-mass index and sum assured are
    numbers or missing: the binary64 sum of the listed increments, and the
    tier the exact sum selects. *)
Lemma rule_based_listed (features : gmap string pyval) :
  Spec.numeric_or_absent features "age" = true →
  Spec.numeric_or_absent features "bmi" = true →
  Spec.numeric_or_absent features "sum_assured" = true →
  _rule_based_prediction features
  = Ok (Spec.tier_of_hundredths (Spec.exact_hundredths features),
        Spec.tier_confidence (Spec.tier_of_hundredths (Spec.exact_hundredths features)),
        Spec.tier_triple (Spec.tier_of_hundredths (Spec.exact_hundredths features)),
        [Build_Contribution "rule_based" (PFloat (Spec.listed_score features))
           (Spec.listed_score features) "increases"]).
Proof.
  intros Hage Hbmi Hsa.
  rewrite <- float_tier_exact.
  assert (Hscore := listed_score_unfold features). cbv zeta in Hscore.
  unfold _rule_based_prediction.
  rewrite !(at_least_numeric features "age") by assumption.
  rewrite !(at_least_numeric features "bmi") by assumption.
  rewrite !(at_least_numeric features "sum_assured") by assumption.
  cbv zeta.
  destruct (Spec.at_least features "age" 35 65), (Spec.at_least features "age" 35 55),
    (Spec.at_least features "bmi" 24 35), (Spec.at_least features "bmi" 24 30);
    cbv beta iota zeta delta [mbind result_bind] in Hscore |- *;
    rewrite <- Hscore; clear Hscore;
    generalize (Spec.listed_score features); intros s;
    unfold Spec.float_tier;
    destruct (0.6 <=? s)%float, (0.3 <=? s)%float; reflexivity.
Qed.

(** A field that is present without being a number makes the comparison with
    a threshold raise. *)
Lemma ge_int_not_numeric (features : gmap string pyval) (k : string) (dflt n : Z) :
  Spec.numeric_or_absent features k = false →
  ge_int (get_or features k (PInt dflt)) n = Raise TypeError.
Proof.
  unfold Spec.numeric_or_absent, get_or, ge_int.
  destruct (features !! k) as [v|]; [|discriminate]. cbn [default from_option id].
  now destruct (as_num v).
Qed.

Lemma rule_based_type_error (features : gmap string pyval) :
  Spec.numeric_or_absent features "age" && Spec.numeric_or_absent features "bmi"
  && Spec.numeric_or_absent features "sum_assured" = false →
  _rule_based_prediction features = Raise TypeError.
Proof.
  intros H. unfold _rule_based_prediction. cbv zeta.
  destruct (Spec.numeric_or_absent features "age") eqn:Hage.
  2:{ now rewrite (ge_int_not_numeric features "age" 35 65 Hage). }
  rewrite !(at_least_numeric features "age") by assumption. rewrite bind_Ok.
  assert (Hscore : ∃ s, (if Spec.at_least features "age" 35 65 then Ok (0 + 0.4)%float
                         else a55 ← Ok (Spec.at_least features "age" 35 55);
                              Ok (if a55 : bool then (0 + 0.2)%float else 0%float)) = Ok s).
  { destruct (Spec.at_least features "age" 35 65); eauto. }
  destruct Hscore as [s ->]. rewrite bind_Ok.
  destruct (Spec.numeric_or_absent features "bmi") eqn:Hbmi.
  2:{ now rewrite (ge_int_not_numeric features "bmi" 24 35 Hbmi). }
  rewrite !(at_least_numeric features "bmi") by assumption. rewrite bind_Ok.
  assert (Hscore : ∃ s', (if Spec.at_least features "bmi" 24 35 then Ok (s + 0.35)%float
                          else b30 ← Ok (Spec.at_least features "bmi" 24 30);
                               Ok (if b30 : bool then (s + 0.2)%float else s)) = Ok s').
  { destruct (Spec.at_least features "bmi" 24 35); eauto. }
  destruct Hscore as [s' ->]. rewrite bind_Ok.
  cbn [andb] in H. now rewrite (ge_int_not_numeric features "sum_assured" 0 10000000 H).
Qed.

End ComplexityFallback.




(** ** Feature extraction: defaults and the clock *)
Section Extraction.
Import FeatureEngineer.
Variable fromisoformat : string → option date.

Lemma zero_number_falsy (v : pyval) : Spec.zero_number v = true → truthy v = false.
Proof.
  unfold Spec.zero_number. destruct v as [|[]|z|f|s|l|d]; cbn; try discriminate.
  - reflexivity.
  - now intros ->.
  - now intros ->.
Qed.

Lemma absent_or_zero_falsy (applicant : gmap string pyval) (k : string) :
  Spec.absent_or_zero applicant k = true → truthy (get applicant k) = false.
Proof.
  unfold Spec.absent_or_zero, get. destruct (applicant !! k) as [v|]; cbn.
  - apply zero_number_falsy.
  - reflexivity.
Qed.

Lemma py_or_truthy (a b : pyval) : truthy a = true → py_or a b = a.
Proof. unfold py_or. now intros ->. Qed.

Lemma py_or_falsy (a b : pyval) : truthy a = false → py_or a b = b.
Proof. unfold py_or. now intros ->. Qed.

Lemma get_delete_ne (applicant : gmap string pyval) (k k' : string) :
  k ≠ k' → get (delete k applicant) k' = get applicant k'.
Proof. intros Hne. unfold get. now rewrite lookup_delete_ne. Qed.

Lemma get_delete_eq (applicant : gmap string pyval) (k : string) :
  get (delete k applicant) k = PNone.
Proof. unfold get. now rewrite lookup_delete_eq. Qed.

Lemma get_lookup (applicant : gmap string pyval) (k : string) (v : pyval) :
  applicant !! k = Some v → get applicant k = v.
Proof. unfold get. now intros ->. Qed.

(** A zero under one of the four keys is read like a missing entry. *)
Lemma all_features_zero_as_absent (today : date) (applicant : gmap string pyval)
    (sum_assured disclosures : pyval) (k : string) (v : pyval) :
  k ∈ ["age"; "bmi"; "height_cm"; "weight_kg"] →
  applicant !! k = Some v →
  Spec.zero_number v = true →
  all_features fromisoformat today applicant sum_assured disclosures
  = all_features fromisoformat today (delete k applicant) sum_assured disclosures.
Proof.
  intros Hk Hv Hzero.
  assert (Hfalsy : truthy (get applicant k) = false)
    by (rewrite (get_lookup _ _ _ Hv); now apply zero_number_falsy).
  unfold all_features.
  repeat (apply elem_of_cons in Hk as [->|Hk]); [..|now apply elem_of_nil in Hk].
  - rewrite get_delete_eq, !get_delete_ne by discriminate.
    unfold py_or at 2 4. rewrite Hfalsy. reflexivity.
  - rewrite get_delete_eq, !get_delete_ne by discriminate.
    rewrite Hfalsy. reflexivity.
  - rewrite get_delete_eq, !get_delete_ne by discriminate.
    unfold calculate_bmi. rewrite Hfalsy. reflexivity.
  - rewrite get_delete_eq, !get_delete_ne by discriminate.
    unfold calculate_bmi. rewrite Hfalsy. cbn [truthy negb]. now rewrite !orb_true_r.
Qed.

Lemma mapM_lookup {A B} (f : A → result B) (l : list A) (l' : list B) (i : nat) (x : A) :
  mapM f l = Ok l' → l !! i = Some x → ∃ y, f x = Ok y ∧ l' !! i = Some y.
Proof.
  revert l' i. induction l as [|a l IH]; intros l' i Hm Hi; [discriminate|].
  cbn in Hm. destruct (f a) as [b|] eqn:Hb; cbn in Hm; [|discriminate].
  destruct (mapM f l) as [bs|] eqn:Hbs; cbn in Hm; [|discriminate].
  injection Hm as <-. destruct i as [|i]; cbn in *.
  - injection Hi as <-. eauto.
  - now apply IH.
Qed.

(** The age and body-mass entries of [all_features]. *)
Lemma all_features_age_bmi (today : date) (applicant : gmap string pyval)
    (sum_assured disclosures : pyval) (feats : gmap string pyval) :
  all_features fromisoformat today applicant sum_assured disclosures = Ok feats →
  get_or feats "age" (PInt 0)
  = py_or (py_or (get applicant "age")
             (calculate_age fromisoformat today (get applicant "date_of_birth"))) (PInt 35)
  ∧ ∃ bmi,
      (if truthy (get applicant "bmi") then Ok (get applicant "bmi")
       else calculate_bmi (get applicant "height_cm") (get applicant "weight_kg")) = Ok bmi
      ∧ get_or feats "bmi" (PInt 0) = py_or bmi (PFloat 24).
Proof.
  unfold all_features.
  destruct (if truthy (get applicant "bmi") then _ else _) as [bmi|]; cbn; [|discriminate].
  unfold extract_condition_flags, extract_family_history_flags, count_disclosures.
  destruct (iter disclosures) as [l|]; cbn; [|discriminate].
  destruct (lowered_names "condition" "condition_name" l) as [cn|]; cbn; [|discriminate].
  destruct (lowered_names "family_history" "family_condition" l) as [fn|]; cbn; [|discriminate].
  destruct (count_loop l (0, 0, 0, 0)) as [[[[nc nm] nf] ns]|]; cbn; [|discriminate].
  destruct (truediv sum_assured (PInt 1000000)) as [millions|]; cbn; [|discriminate].
  destruct (get_sum_assured_tier sum_assured) as [tier|]; cbn; [|discriminate].
  intros [= <-]. split; [reflexivity|]. exists bmi. split; reflexivity.
Qed.

(** The clock is read only through [calculate_age], and only when the
    applicant gives no usable age. *)
Lemma all_features_clock (today1 today2 : date) (applicant : gmap string pyval)
    (sum_assured disclosures : pyval) :
  truthy (get applicant "age") = true ∨ truthy (get applicant "date_of_birth") = false →
  all_features fromisoformat today1 applicant sum_assured disclosures
  = all_features fromisoformat today2 applicant sum_assured disclosures.
Proof.
  intros [Hage|Hdob]; unfold all_features; cbv zeta.
  - now rewrite !(py_or_truthy _ _ Hage).
  - unfold calculate_age. rewrite Hdob. reflexivity.
Qed.

End Extraction.

(** C9: [prepare_features] reads a present but zero age, body-mass index,
    height or weight exactly as it reads a missing one: the vector (or the
    exception) is the one obtained with the entry removed.  With a zero age
    and no date of birth the age entry of the vector is the default 35; with
    a zero body-mass index and a height or weight that is missing or zero the
    body-mass entry is the default 24.0. *)
Theorem prepare_features_zero_as_absent
    (fromisoformat : string → option FeatureEngineer.date) (today : FeatureEngineer.date)
    (applicant : gmap string pyval) (sum_assured disclosures : pyval)
    (feature_names : list string) :
  (∀ k v,
     k ∈ ["age"; "bmi"; "height_cm"; "weight_kg"] →
     applicant !! k = Some v → Spec.zero_number v = true →
     FeatureEngineer.prepare_features fromisoformat today applicant sum_assured disclosures
       feature_names
     = FeatureEngineer.prepare_features fromisoformat today (delete k applicant) sum_assured
         disclosures feature_names)
  ∧ (∀ v vector i,
       applicant !! "age" = Some v → Spec.zero_number v = true →
       applicant !! "date_of_birth" = None →
       FeatureEngineer.prepare_features fromisoformat today applicant sum_assured disclosures
         feature_names = Ok vector →
       feature_names !! i = Some "age" → vector !! i = Some 35%float)
  ∧ (∀ v vector i,
       applicant !! "bmi" = Some v → Spec.zero_number v = true →
       Spec.absent_or_zero applicant "height_cm" = true
       ∨ Spec.absent_or_zero applicant "weight_kg" = true →
       FeatureEngineer.prepare_features fromisoformat today applicant sum_assured disclosures
         feature_names = Ok vector →
       feature_names !! i = Some "bmi" → vector !! i = Some 24%float).
Proof.
  split; [|split].
  - intros k v Hk Hv Hzero. unfold FeatureEngineer.prepare_features.
    now rewrite (all_features_zero_as_absent fromisoformat today applicant sum_assured
                   disclosures k v).
  - intros v vector i Hv Hzero Hdob Hvec Hi. unfold FeatureEngineer.prepare_features in Hvec.
    destruct (FeatureEngineer.all_features _ _ _ _ _) as [feats|] eqn:Hfeats; [|discriminate].
    cbn in Hvec. unfold np_array_f32 in Hvec.
    destruct (all_features_age_bmi _ _ _ _ _ _ Hfeats) as [Hage _].
    destruct (mapM_lookup _ _ _ i (get_or feats "age" (PInt 0)) Hvec) as (y & Hy & ->).
    { rewrite list_lookup_fmap, Hi. reflexivity. }
    rewrite Hage in Hy. rewrite (get_lookup _ _ _ Hv) in Hy.
    unfold py_or at 2 in Hy. rewrite (zero_number_falsy _ Hzero) in Hy.
    unfold get in Hy at 1. rewrite Hdob in Hy. cbn in Hy. now injection Hy as <-.
  - intros v vector i Hv Hzero Hhw Hvec Hi. unfold FeatureEngineer.prepare_features in Hvec.
    destruct (FeatureEngineer.all_features _ _ _ _ _) as [feats|] eqn:Hfeats; [|discriminate].
    cbn in Hvec. unfold np_array_f32 in Hvec.
    destruct (all_features_age_bmi _ _ _ _ _ _ Hfeats) as [_ (bmi & Hbmi & Hget)].
    destruct (mapM_lookup _ _ _ i (get_or feats "bmi" (PInt 0)) Hvec) as (y & Hy & ->).
    { rewrite list_lookup_fmap, Hi. reflexivity. }
    rewrite (get_lookup _ _ _ Hv), (zero_number_falsy _ Hzero) in Hbmi.
    unfold FeatureEngineer.calculate_bmi in Hbmi.
    assert (Hnone : negb (truthy (get applicant "height_cm"))
                    || negb (truthy (get applicant "weight_kg")) = true).
    { destruct Hhw as [H|H]; apply absent_or_zero_falsy in H; rewrite H; cbn;
        [reflexivity|apply orb_true_r]. }
    rewrite Hnone in Hbmi. injection Hbmi as <-.
    rewrite Hget in Hy. cbn in Hy. now injection Hy as <-.
Qed.

Lemma prepare_features_zero_as_absent_witness :
  Spec.zeros_applicant !! "age" = Some (PInt 0)
  ∧ Spec.zero_number (PInt 0) = true
  ∧ Spec.zeros_applicant !! "date_of_birth" = None
  ∧ FeatureEngineer.prepare_features Spec.iso_calendar_date Spec.birthday Spec.zeros_applicant
      (PInt 5000000) (PList []) ["bmi"; "age"] = Ok [24%float; 35%float]
  ∧ [24%float; 35%float] !! 1%nat = Some 35%float.
Proof.
  assert (Hvec : FeatureEngineer.prepare_features Spec.iso_calendar_date Spec.birthday
                   Spec.zeros_applicant (PInt 5000000) (PList []) ["bmi"; "age"]
                 = Ok [24%float; 35%float]) by reflexivity.
  split; [reflexivity|]. split; [reflexivity|]. split; [reflexivity|].
  split; [exact Hvec|].
  exact (proj1 (proj2 (prepare_features_zero_as_absent Spec.iso_calendar_date Spec.birthday
                         Spec.zeros_applicant (PInt 5000000) (PList []) ["bmi"; "age"]))
           (PInt 0) _ 1%nat eq_refl eq_refl eq_refl Hvec eq_refl).
Defined.

(** C8 as stated fails: with a date of birth instead of an age, the vector
    depends on the day of the call.  The same request gives age 25 on the eve
    of the birthday and 26 on the birthday. *)
Lemma prepare_features_clock_counterexample :
  FeatureEngineer.prepare_features Spec.iso_calendar_date Spec.eve_of_birthday
    Spec.born_mid_june (PInt 5000000) (PList []) ["age"; "bmi"] = Ok [25%float; 22.5%float]
  ∧ FeatureEngineer.prepare_features Spec.iso_calendar_date Spec.birthday
      Spec.born_mid_june (PInt 5000000) (PList []) ["age"; "bmi"] = Ok [26%float; 22.5%float]
  ∧ FeatureEngineer.prepare_features Spec.iso_calendar_date Spec.eve_of_birthday
      Spec.born_mid_june (PInt 5000000) (PList []) ["age"; "bmi"]
    ≠ FeatureEngineer.prepare_features Spec.iso_calendar_date Spec.birthday
        Spec.born_mid_june (PInt 5000000) (PList []) ["age"; "bmi"].
Proof.
  assert (H1 : FeatureEngineer.prepare_features Spec.iso_calendar_date Spec.eve_of_birthday
                 Spec.born_mid_june (PInt 5000000) (PList []) ["age"; "bmi"]
               = Ok [25%float; 22.5%float]) by reflexivity.
  assert (H2 : FeatureEngineer.prepare_features Spec.iso_calendar_date Spec.birthday
                 Spec.born_mid_june (PInt 5000000) (PList []) ["age"; "bmi"]
               = Ok [26%float; 22.5%float]) by reflexivity.
  split; [exact H1|]. split; [exact H2|].
  rewrite H1, H2. intros [= H].
Qed.

(** C8, amended: the extraction reads nothing but its arguments and the
    current date, and the date only to turn a date of birth into an age: two
    calls on the same inputs, on whatever days, return the same vector (or
    raise the same exception) when the applicant supplies a non-zero age or
    supplies no date of birth. *)
Theorem prepare_features_clock_independent
    (fromisoformat : string → option FeatureEngineer.date)
    (today1 today2 : FeatureEngineer.date)
    (applicant : gmap string pyval) (sum_assured disclosures : pyval)
    (feature_names : list string) :
  truthy (get applicant "age") = true ∨ truthy (get applicant "date_of_birth") = false →
  FeatureEngineer.prepare_features fromisoformat today1 applicant sum_assured disclosures
    feature_names
  = FeatureEngineer.prepare_features fromisoformat today2 applicant sum_assured disclosures
      feature_names.
Proof.
  intros H. unfold FeatureEngineer.prepare_features.
  now rewrite (all_features_clock fromisoformat today1 today2).
Qed.

Lemma prepare_features_clock_independent_witness :
  (truthy (get Spec.aged_applicant "age") = true
   ∨ truthy (get Spec.aged_applicant "date_of_birth") = false)
  ∧ FeatureEngineer.prepare_features Spec.iso_calendar_date Spec.eve_of_birthday
      Spec.aged_applicant (PInt 5000000) (PList []) ["age"]
    = FeatureEngineer.prepare_features Spec.iso_calendar_date Spec.birthday
        Spec.aged_applicant (PInt 5000000) (PList []) ["age"].
Proof.
  assert (H : truthy (get Spec.aged_applicant "age") = true
              ∨ truthy (get Spec.aged_applicant "date_of_birth") = false)
    by (left; reflexivity).
  split; [exact H|].
  exact (prepare_features_clock_independent Spec.iso_calendar_date Spec.eve_of_birthday
           Spec.birthday Spec.aged_applicant (PInt 5000000) (PList []) ["age"] H).
Defined.

(** ** Training rows against serving requests *)
Section Parity.
Import FeatureEngineer InferenceService.

Lemma eq_str_get_or (d : gmap string pyval) (k tag : string) :
  tag ≠ "" → eq_str (get_or d k (PStr "")) tag = eq_str (get d k) tag.
Proof.
  intros Htag. unfold get_or, get. destruct (d !! k) as [v|]; cbn; [reflexivity|].
  destruct tag; [done|reflexivity].
Qed.

(** The serving loop sorts the disclosures into the lists the training
    comprehensions filter out, and its list lengths are the training counts. *)
Lemma classify_spec (l : list pyval) (cs0 ms0 fs0 cs ms fs : list (gmap string pyval))
    (nc nm nf ns : Z) :
  classify l (cs0, ms0, fs0) = Ok (cs, ms, fs) →
  ∃ cs1 ms1 fs1 ns1,
    cs = (cs0 ++ cs1)%list ∧ ms = (ms0 ++ ms1)%list ∧ fs = (fs0 ++ fs1)%list
    ∧ lowered_names "condition" "condition_name" l
      = mapM (λ c, py_lower (get_or c "condition_name" (PStr ""))) cs1
    ∧ lowered_names "family_history" "family_condition" l
      = mapM (λ f, py_lower (get_or f "family_condition" (PStr ""))) fs1
    ∧ count_loop l (nc, nm, nf, ns)
      = Ok (nc + Z.of_nat (length cs1), nm + Z.of_nat (length ms1),
            nf + Z.of_nat (length fs1), ns1).
Proof.
  revert cs0 ms0 fs0 nc nm nf ns.
  induction l as [|v l IH]; intros cs0 ms0 fs0 nc nm nf ns Hc.
  - injection Hc as <- <- <-. exists [], [], [], ns.
    rewrite !app_nil_r, !Z.add_0_r. repeat split; reflexivity.
  - cbn [classify lowered_names count_loop] in *.
    destruct (as_dict v) as [d|]; cbn in *; [|discriminate].
    rewrite !(eq_str_get_or d "disclosure_type") in * by discriminate.
    destruct (eq_str (get d "disclosure_type") "condition") eqn:Hcond.
    { assert (Hfam : eq_str (get d "disclosure_type") "family_history" = false).
      { destruct (get d "disclosure_type") as [| | | |s| |]; try reflexivity.
        cbn in *. apply String.eqb_eq in Hcond as ->. reflexivity. }
      rewrite Hfam.
      destruct (IH _ _ _ (nc + 1) nm nf ns Hc) as (cs1 & ms1 & fs1 & ns1 & -> & -> & -> & Hn & Hf & Hk).
      exists (d :: cs1), ms1, fs1, ns1. rewrite <- !app_assoc. cbn [app mapM length].
      rewrite Hn, Hf, Hk. repeat split; try reflexivity.
      do 2 f_equal. f_equal. f_equal. lia. }
    destruct (eq_str (get d "disclosure_type") "medication") eqn:Hmed.
    { assert (Hfam : eq_str (get d "disclosure_type") "family_history" = false).
      { destruct (get d "disclosure_type") as [| | | |s| |]; try reflexivity.
        cbn in *. apply String.eqb_eq in Hmed as ->. reflexivity. }
      rewrite Hfam.
      destruct (IH _ _ _ nc (nm + 1) nf ns Hc) as (cs1 & ms1 & fs1 & ns1 & -> & -> & -> & Hn & Hf & Hk).
      exists cs1, (d :: ms1), fs1, ns1. rewrite <- !app_assoc. cbn [app mapM length].
      rewrite Hn, Hf, Hk. repeat split; try reflexivity.
      do 2 f_equal. f_equal. f_equal. lia. }
    destruct (eq_str (get d "disclosure_type") "family_history") eqn:Hfam.
    { destruct (IH _ _ _ nc nm (nf + 1) ns Hc) as (cs1 & ms1 & fs1 & ns1 & -> & -> & -> & Hn & Hf & Hk).
      exists cs1, ms1, (d :: fs1), ns1. rewrite <- !app_assoc. cbn [app mapM length].
      rewrite Hn, Hf, Hk. repeat split; try reflexivity.
      do 2 f_equal. f_equal. lia. }
    destruct (eq_str (get d "disclosure_type") "surgery").
    + destruct (IH _ _ _ nc nm nf (ns + 1) Hc) as (cs1 & ms1 & fs1 & ns1 & -> & -> & -> & Hn & Hf & Hk).
      exists cs1, ms1, fs1, ns1. rewrite Hn, Hf, Hk. repeat split; reflexivity.
    + destruct (IH _ _ _ nc nm nf ns Hc) as (cs1 & ms1 & fs1 & ns1 & -> & -> & -> & Hn & Hf & Hk).
      exists cs1, ms1, fs1, ns1. rewrite Hn, Hf, Hk. repeat split; reflexivity.
Qed.

(** One step through a sequence of calls that returned: name the value of
    the first call and continue with the rest. *)
Ltac step H :=
  match type of H with
  | mbind ?k ?e = Ok _ =>
      let x := fresh "x" in
      let E := fresh "E" in
      destruct e as [x|] eqn:E;
      [rewrite bind_Ok in H; cbv beta iota zeta in H
      |rewrite bind_Raise in H; discriminate H]
  end.

(** The first stage of the serving extraction keeps the three entries it
    copies from the request. *)
Lemma serving_first_stage (applicant : gmap string pyval) (sum_assured : pyval)
    (f1 : gmap string pyval) :
  (if negb (truthy (get (mkdict [("age", get applicant "age"); ("bmi", get applicant "bmi");
                                 ("smoking_status", get applicant "smoking_status");
                                 ("sum_assured", sum_assured)]) "bmi"))
      && truthy (get applicant "height_cm") && truthy (get applicant "weight_kg")
   then
     height_m ← truediv (get applicant "height_cm") (PInt 100);
     bmi ← truediv (get applicant "weight_kg") (PFloat (height_m * height_m));
     Ok (<["bmi" := PFloat bmi]>
           (mkdict [("age", get applicant "age"); ("bmi", get applicant "bmi");
                    ("smoking_status", get applicant "smoking_status");
                    ("sum_assured", sum_assured)]))
   else Ok (mkdict [("age", get applicant "age"); ("bmi", get applicant "bmi");
                    ("smoking_status", get applicant "smoking_status");
                    ("sum_assured", sum_assured)])) = Ok f1 →
  f1 !! "age" = Some (get applicant "age")
  ∧ f1 !! "smoking_status" = Some (get applicant "smoking_status")
  ∧ f1 !! "sum_assured" = Some sum_assured.
Proof.
  intros H.
  destruct (negb _ && _ && _).
  - step H. step H. injection H as <-. repeat split; reflexivity.
  - injection H as <-. repeat split; reflexivity.
Qed.

Lemma extract_condition_flags_shape (disclosures : pyval) (flags : gmap string pyval) :
  extract_condition_flags disclosures = Ok flags →
  ∃ l cn, iter disclosures = Ok l
          ∧ lowered_names "condition" "condition_name" l = Ok cn
          ∧ flags = condition_flags_of (join " " cn).
Proof.
  unfold extract_condition_flags. intros H. step H. step H. injection H as <-. eauto.
Qed.

Lemma extract_family_history_flags_shape (disclosures : pyval) (flags : gmap string pyval) :
  extract_family_history_flags disclosures = Ok flags →
  ∃ l fn, iter disclosures = Ok l
          ∧ lowered_names "family_history" "family_condition" l = Ok fn
          ∧ flags = family_flags_of (join " " fn).
Proof.
  unfold extract_family_history_flags. intros H. step H. step H. injection H as <-. eauto.
Qed.

Lemma count_disclosures_shape (disclosures : pyval) (counts : gmap string pyval) :
  count_disclosures disclosures = Ok counts →
  ∃ l nc nm nf ns,
    iter disclosures = Ok l
    ∧ count_loop l (0, 0, 0, 0) = Ok (nc, nm, nf, ns)
    ∧ counts = mkdict [("condition_count", PInt nc); ("medication_count", PInt nm);
                       ("family_history_count", PInt nf); ("surgery_count", PInt ns)].
Proof.
  unfold count_disclosures. intros H. step H. step H.
  destruct x0 as [[[nc nm] nf] ns]. injection H as <-. eauto 10.
Qed.

(** The shape of a training row that was returned. *)
Lemma training_row_shape (applicant : gmap string pyval) (sum_assured disclosures : pyval)
    (ft : gmap string pyval) :
  DataLoader._extract_case_features (PDict applicant) sum_assured disclosures = Ok ft →
  ∃ l cn fn nc nm nf ns bmi millions,
    iter disclosures = Ok l
    ∧ lowered_names "condition" "condition_name" l = Ok cn
    ∧ lowered_names "family_history" "family_condition" l = Ok fn
    ∧ count_loop l (0, 0, 0, 0) = Ok (nc, nm, nf, ns)
    ∧ truediv sum_assured (PInt 1000000) = Ok millions
    ∧ ft = merge_into (merge_into (merge_into
             (mkdict [("age", get_or applicant "age" (PInt 35));
                      ("bmi", py_or bmi (PFloat 24.0));
                      ("sum_assured", PFloat millions);
                      ("smoking_status",
                       PInt (encode_smoking_status (get applicant "smokingStatus")))])
             (condition_flags_of (join " " cn))) (family_flags_of (join " " fn)))
           (mkdict [("condition_count", PInt nc); ("medication_count", PInt nm);
                    ("family_history_count", PInt nf); ("surgery_count", PInt ns)]).
Proof.
  intros H. unfold DataLoader._extract_case_features in H.
  step H. apply extract_condition_flags_shape in E as (l & cn & Hl & Hcn & ->).
  step H. apply extract_family_history_flags_shape in E as (l' & fn & Hl' & Hfn & ->).
  step H. apply count_disclosures_shape in E as (l'' & nc & nm & nf & ns & Hl'' & Hk & ->).
  rewrite Hl in Hl', Hl''. injection Hl' as <-. injection Hl'' as <-.
  cbn [as_dict] in H. rewrite bind_Ok in H.
  step H. step H. injection H as <-.
  exists l, cn, fn, nc, nm, nf, ns, x, x0. repeat split; assumption || reflexivity.
Qed.

(** The shape of a serving map that was returned. *)
Lemma serving_map_shape (applicant : gmap string pyval) (sum_assured disclosures : pyval)
    (fs : gmap string pyval) :
  _prepare_complexity_features applicant sum_assured disclosures = Ok fs →
  ∃ f1 l cs ms fh names fnames,
    f1 !! "age" = Some (get applicant "age")
    ∧ f1 !! "smoking_status" = Some (get applicant "smoking_status")
    ∧ f1 !! "sum_assured" = Some sum_assured
    ∧ iter disclosures = Ok l
    ∧ classify l ([], [], []) = Ok (cs, ms, fh)
    ∧ mapM (λ c, py_lower (get_or c "condition_name" (PStr ""))) cs = Ok names
    ∧ mapM (λ f, py_lower (get_or f "family_condition" (PStr ""))) fh = Ok fnames
    ∧ fs = <["family_history_diabetes" := PBool (contains "diabetes" (join " " fnames))]>
           (<["family_history_cardiac" :=
                PBool (any_in ["cardiac"; "heart"] (join " " fnames))]>
           (<["has_renal" := PBool (any_in ["kidney"; "renal"; "ckd"] (join " " names))]>
           (<["has_hypertension" :=
                PBool (any_in ["hypertension"; "blood pressure"; "htn"] (join " " names))]>
           (<["has_diabetes" := PBool (contains "diabetes" (join " " names))]>
           (<["has_cardiac" :=
                PBool (any_in ["cardiac"; "heart"; "coronary"; " mi "; "angina"]
                         (join " " names))]>
           (<["medication_count" := PInt (Z.of_nat (length ms))]>
           (<["condition_count" := PInt (Z.of_nat (length cs))]> f1))))))).
Proof.
  intros H. unfold _prepare_complexity_features in H. cbv zeta in H.
  step H. rename x into f1. rename E into Hf1.
  apply serving_first_stage in Hf1 as (Hage & Hsmoke & Hsa).
  step H. rename x into l.
  step H. destruct x as [[cs ms] fh].
  step H. step H. injection H as <-.
  exists f1, l, cs, ms, fh, x, x0. repeat split; assumption || reflexivity.
Qed.

(** A body-mass index that the record supplies is copied by both
    extractions. *)
Lemma training_row_bmi (record : gmap string pyval) (sum_assured disclosures : pyval)
    (ft : gmap string pyval) :
  DataLoader._extract_case_features (PDict record) sum_assured disclosures = Ok ft →
  truthy (get record "bmi") = true →
  ft !! "bmi" = Some (get record "bmi").
Proof.
  unfold DataLoader._extract_case_features. intros H Hbmi.
  step H. step H. step H. cbn [as_dict] in H. rewrite bind_Ok in H.
  cbv zeta in H. rewrite Hbmi in H. rewrite bind_Ok in H. step H.
  injection H as <-.
  apply extract_condition_flags_shape in E as (l & cn & _ & _ & ->).
  apply extract_family_history_flags_shape in E0 as (l' & fn & _ & _ & ->).
  apply count_disclosures_shape in E1 as (l'' & nc & nm & nf & ns & _ & _ & ->).
  rewrite (py_or_truthy _ _ Hbmi). reflexivity.
Qed.

Lemma serving_map_bmi (request : gmap string pyval) (sum_assured disclosures : pyval)
    (fs : gmap string pyval) :
  _prepare_complexity_features request sum_assured disclosures = Ok fs →
  truthy (get request "bmi") = true →
  fs !! "bmi" = Some (get request "bmi").
Proof.
  unfold _prepare_complexity_features. intros H Hbmi. cbv zeta in H.
  assert (Hfirst : get (mkdict [("age", get request "age"); ("bmi", get request "bmi");
                                ("smoking_status", get request "smoking_status");
                                ("sum_assured", sum_assured)]) "bmi" = get request "bmi")
    by reflexivity.
  rewrite Hfirst, Hbmi in H. cbn [negb andb] in H. rewrite bind_Ok in H.
  step H. step H. destruct x0 as [[cs ms] fh]. step H. step H.
  injection H as <-. now rewrite !lookup_insert_ne by discriminate.
Qed.

End Parity.

(** C1 as stated fails: for one and the same request the training row and the
    serving map differ under the names of the schema.  Smoking is a code in
    the row and text in the serving map; the sum assured is in millions in
    the row and unscaled in the serving map.  The keyword lists of the two
    extractions differ as well: a disclosed arrhythmia sets [has_cardiac], a
    nephropathy sets [has_renal] and a family history of coronary disease
    sets [family_history_cardiac] in the training row only. *)
Lemma train_serve_counterexample :
  Spec.entry "has_cardiac"
    (DataLoader._extract_case_features (PDict Spec.smoker_record) (PInt 5000000) Spec.arrhythmia)
  = Ok (Some (PBool true))
  ∧ Spec.entry "has_cardiac"
      (InferenceService._prepare_complexity_features Spec.smoker_request (PInt 5000000)
         Spec.arrhythmia)
    = Ok (Some (PBool false))
  ∧ Spec.entry "smoking_status"
      (DataLoader._extract_case_features (PDict Spec.smoker_record) (PInt 5000000)
         Spec.arrhythmia)
    = Ok (Some (PInt 2))
  ∧ Spec.entry "smoking_status"
      (InferenceService._prepare_complexity_features Spec.smoker_request (PInt 5000000)
         Spec.arrhythmia)
    = Ok (Some (PStr "current"))
  ∧ Spec.entry "sum_assured"
      (DataLoader._extract_case_features (PDict Spec.smoker_record) (PInt 5000000)
         Spec.arrhythmia)
    = Ok (Some (PFloat 5))
  ∧ Spec.entry "sum_assured"
      (InferenceService._prepare_complexity_features Spec.smoker_request (PInt 5000000)
         Spec.arrhythmia)
    = Ok (Some (PInt 5000000))
  ∧ Spec.entry "has_renal"
      (DataLoader._extract_case_features (PDict Spec.smoker_record) (PInt 5000000)
         Spec.nephropathy_and_family_coronary)
    = Ok (Some (PBool true))
  ∧ Spec.entry "has_renal"
      (InferenceService._prepare_complexity_features Spec.smoker_request (PInt 5000000)
         Spec.nephropathy_and_family_coronary)
    = Ok (Some (PBool false))
  ∧ Spec.entry "family_history_cardiac"
      (DataLoader._extract_case_features (PDict Spec.smoker_record) (PInt 5000000)
         Spec.nephropathy_and_family_coronary)
    = Ok (Some (PBool true))
  ∧ Spec.entry "family_history_cardiac"
      (InferenceService._prepare_complexity_features Spec.smoker_request (PInt 5000000)
         Spec.nephropathy_and_family_coronary)
    = Ok (Some (PBool false)).
Proof. repeat split; reflexivity. Qed.

(** C1, amended: when both extractions return for the same disclosures and
    sum assured, the training row and the serving map carry the same
    [has_diabetes], [has_hypertension], [family_history_diabetes],
    [condition_count] and [medication_count]; the age is the same when the
    record has one, and the body-mass index is the same when the record
    supplies one; the smoking code and the sum assured in millions of the
    training row are what [ComplexityModel._extract_features] computes from
    the serving map.  Nothing is stated of [has_cardiac], [has_renal] and
    [family_history_cardiac], whose keyword lists differ between the two
    extractions. *)
Theorem train_serve_agreement
    (record request : gmap string pyval) (sum_assured disclosures : pyval)
    (ft fs : gmap string pyval) :
  DataLoader._extract_case_features (PDict record) sum_assured disclosures = Ok ft →
  InferenceService._prepare_complexity_features request sum_assured disclosures = Ok fs →
  (∀ k, k ∈ ["has_diabetes"; "has_hypertension"; "family_history_diabetes";
             "condition_count"; "medication_count"] →
        is_Some (ft !! k) ∧ ft !! k = fs !! k)
  ∧ (is_Some (record !! "age") → record !! "age" = request !! "age" →
     ft !! "age" = fs !! "age")
  ∧ (truthy (get record "bmi") = true → get record "bmi" = get request "bmi" →
     ft !! "bmi" = Some (get record "bmi") ∧ ft !! "bmi" = fs !! "bmi")
  ∧ (get record "smokingStatus" = get request "smoking_status" →
     ∃ v, ft !! "smoking_status" = Some v
          ∧ ComplexityModel.feature_cell fs "smoking_status" = Ok v)
  ∧ (∃ v, ft !! "sum_assured" = Some v
          ∧ ComplexityModel.feature_cell fs "sum_assured" = Ok v).
Proof.
  intros Htrain Hserve.
  assert (Hbmi : truthy (get record "bmi") = true → get record "bmi" = get request "bmi" →
                 ft !! "bmi" = Some (get record "bmi") ∧ ft !! "bmi" = fs !! "bmi").
  { intros Htruthy Hsame.
    rewrite (training_row_bmi _ _ _ _ Htrain Htruthy).
    rewrite (serving_map_bmi _ _ _ _ Hserve); [now rewrite Hsame|now rewrite <- Hsame]. }
  cut ((∀ k, k ∈ ["has_diabetes"; "has_hypertension"; "family_history_diabetes";
                  "condition_count"; "medication_count"] →
             is_Some (ft !! k) ∧ ft !! k = fs !! k)
       ∧ (is_Some (record !! "age") → record !! "age" = request !! "age" →
          ft !! "age" = fs !! "age")
       ∧ (get record "smokingStatus" = get request "smoking_status" →
          ∃ v, ft !! "smoking_status" = Some v
               ∧ ComplexityModel.feature_cell fs "smoking_status" = Ok v)
       ∧ (∃ v, ft !! "sum_assured" = Some v
               ∧ ComplexityModel.feature_cell fs "sum_assured" = Ok v)).
  { intros (H1 & H2 & H4 & H5). auto 10. }
  clear Hbmi.
  apply training_row_shape in Htrain
    as (l & cn & fn & nc & nm & nf & ns & bmi & millions & Hl & Hcn & Hfn & Hk & Hdiv & ->).
  apply serving_map_shape in Hserve
    as (f1 & l' & cs & ms & fh & names & fnames & Hage & Hsmoke & Hsa & Hl' & Hcl & Hn & Hf & ->).
  rewrite Hl in Hl'. injection Hl' as <-.
  destruct (classify_spec l [] [] [] cs ms fh 0 0 0 0 Hcl)
    as (cs1 & ms1 & fs1 & ns1 & -> & -> & -> & Hcn' & Hfn' & Hk').
  cbn [app] in *.
  rewrite Hcn' in Hcn. rewrite Hn in Hcn. injection Hcn as <-.
  rewrite Hfn' in Hfn. rewrite Hf in Hfn. injection Hfn as <-.
  rewrite Hk' in Hk. injection Hk as <- <- <- <-. rewrite !Z.add_0_l.
  split; [|split; [|split]].
  - intros k Hin.
    repeat (apply elem_of_cons in Hin as [->|Hin]); [..|now apply elem_of_nil in Hin];
      (split; [eexists; reflexivity|]);
      repeat (rewrite lookup_insert_ne by discriminate); rewrite lookup_insert_eq; reflexivity.
  - intros [v Hv] Heq.
    repeat (rewrite lookup_insert_ne by discriminate). rewrite Hage.
    change (Some (get_or record "age" (PInt 35)) = Some (get request "age")).
    unfold get_or, get. rewrite <- Heq, Hv. reflexivity.
  - intros Hsame. eexists. split; [reflexivity|].
    unfold ComplexityModel.feature_cell. cbn [String.eqb Ascii.eqb Bool.eqb].
    unfold get_or. repeat (rewrite lookup_insert_ne by discriminate). rewrite Hsmoke. cbn [from_option id].
    rewrite <- Hsame. reflexivity.
  - eexists. split; [reflexivity|].
    unfold ComplexityModel.feature_cell. cbn [String.eqb Ascii.eqb Bool.eqb].
    unfold get_or. repeat (rewrite lookup_insert_ne by discriminate). rewrite Hsa. cbn [from_option id].
    rewrite Hdiv. reflexivity.
Qed.

Lemma train_serve_agreement_witness :
  is_ok (DataLoader._extract_case_features (PDict Spec.smoker_record) (PInt 5000000)
           Spec.diabetic) = true
  ∧ is_ok (InferenceService._prepare_complexity_features Spec.smoker_request (PInt 5000000)
             Spec.diabetic) = true
  ∧ Spec.entry "has_diabetes"
      (DataLoader._extract_case_features (PDict Spec.smoker_record) (PInt 5000000)
         Spec.diabetic)
    = Spec.entry "has_diabetes"
        (InferenceService._prepare_complexity_features Spec.smoker_request (PInt 5000000)
           Spec.diabetic)
  ∧ Spec.entry "bmi"
      (DataLoader._extract_case_features (PDict Spec.smoker_record) (PInt 5000000)
         Spec.diabetic)
    = Spec.entry "bmi"
        (InferenceService._prepare_complexity_features Spec.smoker_request (PInt 5000000)
           Spec.diabetic).
Proof.
  split; [reflexivity|]. split; [reflexivity|].
  destruct (DataLoader._extract_case_features (PDict Spec.smoker_record) (PInt 5000000)
              Spec.diabetic) as [ft|] eqn:Htrain; [|discriminate].
  destruct (InferenceService._prepare_complexity_features Spec.smoker_request (PInt 5000000)
              Spec.diabetic) as [fs|] eqn:Hserve; [|discriminate].
  destruct (train_serve_agreement Spec.smoker_record Spec.smoker_request (PInt 5000000)
              Spec.diabetic ft fs Htrain Hserve) as (Hsame & _ & Hbmi & _).
  cbn. split; f_equal.
  - apply Hsame. left.
  - apply Hbmi; reflexivity.
Defined.

(** ** Training runs *)

(** C4: a complexity training run that is not forced and whose assembled
    data set has fewer rows than the configured minimum returns to its caller
    a result with status [failed] whose error names the lack of data (no
    rows at all, or the count against the minimum); the manager's active
    models and the blob store are exactly as before the run: nothing was
    fitted, saved or swapped in. *)
Theorem insufficient_data_fails
    (settings : Config.Settings) (backend_cases : result pyval)
    (backend_overrides : string → result pyval)
    (calibrated_fit : ndarray → list Z → result Classifier)
    (classification_metrics : Classifier → ndarray → list Z → result Metrics)
    (dump_ok : Path → bool) (started_at completed_at version_stamp : string)
    (w : Trainer.World) (new_version : option string)
    (X : ndarray) (y : list Z) (sample_weights : list float) :
  DataLoader.prepare_complexity_dataset settings
    (DataLoader.fetch_cases_for_training backend_cases)
    (DataLoader.fetch_overrides backend_overrides "COMPLEXITY_TIER")
  = Ok (X, y, sample_weights) →
  len X < Config.min_training_samples settings →
  ∃ r,
    Trainer.train_complexity_model settings backend_cases backend_overrides calibrated_fit
      classification_metrics dump_ok started_at completed_at version_stamp w false new_version
    = (r, w)
    ∧ r !! "status" = Some (PStr "failed")
    ∧ r !! "error"
      = Some (PStr (if len X =? 0 then "No training data available"
                    else "Insufficient training samples: " +:+ pretty (len X) +:+ " < "
                         +:+ pretty (Config.min_training_samples settings))).
Proof.
  intros Hdata Hfew. unfold Trainer.train_complexity_model. rewrite Hdata.
  destruct (len X =? 0) eqn:Hzero.
  - eexists. split; [reflexivity|]. split; reflexivity.
  - apply Z.ltb_lt in Hfew. rewrite Hfew. cbn [negb andb].
    eexists. split; [reflexivity|]. split; reflexivity.
Qed.

Lemma insufficient_data_fails_witness :
  DataLoader.prepare_complexity_dataset Spec.example_settings
    (DataLoader.fetch_cases_for_training Spec.two_cases)
    (DataLoader.fetch_overrides Spec.no_overrides "COMPLEXITY_TIER")
  = Ok (Spec.two_rows, [0; 2], [1; 1]%float)
  ∧ len Spec.two_rows < Config.min_training_samples Spec.example_settings
  ∧ ∃ r,
      Trainer.train_complexity_model Spec.example_settings Spec.two_cases Spec.no_overrides
        Spec.failing_classifier_fit Spec.no_classification_metrics Spec.always_writable
        "2026-11-03T10:00:00" "2026-11-03T10:00:01" "20261103_100000"
        Spec.example_world false None
      = (r, Spec.example_world)
      ∧ r !! "status" = Some (PStr "failed")
      ∧ r !! "error" = Some (PStr "Insufficient training samples: 2 < 100").
Proof.
  assert (Hdata : DataLoader.prepare_complexity_dataset Spec.example_settings
                    (DataLoader.fetch_cases_for_training Spec.two_cases)
                    (DataLoader.fetch_overrides Spec.no_overrides "COMPLEXITY_TIER")
                  = Ok (Spec.two_rows, [0; 2], [1; 1]%float)) by reflexivity.
  assert (Hfew : len Spec.two_rows < Config.min_training_samples Spec.example_settings)
    by reflexivity.
  split; [exact Hdata|]. split; [exact Hfew|].
  exact (insufficient_data_fails Spec.example_settings Spec.two_cases Spec.no_overrides
           Spec.failing_classifier_fit Spec.no_classification_metrics Spec.always_writable
           "2026-11-03T10:00:00" "2026-11-03T10:00:01" "20261103_100000"
           Spec.example_world None Spec.two_rows [0; 2] [1; 1]%float Hdata Hfew).
Defined.

(** *** The test-yield run *)

Lemma supported_nodup : NoDup TestYieldModel.SUPPORTED_TESTS.
Proof.
  unfold TestYieldModel.SUPPORTED_TESTS. apply NoDup_ListNoDup.
  repeat constructor; cbn; intuition discriminate.
Qed.

Lemma supported_mem (t : string) :
  t ∈ TestYieldModel.SUPPORTED_TESTS ↔ mem t TestYieldModel.SUPPORTED_TESTS = true.
Proof.
  unfold mem. rewrite existsb_exists. split.
  - intros Ht. exists t. split; [now apply list_elem_of_In|apply String.eqb_refl].
  - intros (t' & Hin & Heq). apply String.eqb_eq in Heq as ->. now apply list_elem_of_In.
Qed.

Lemma some_filtered {A} (f : A → bool) (l : list A) :
  (0 <? length (List.filter f l))%nat = true ↔ ∃ x, In x l ∧ f x = true.
Proof.
  split.
  - intros H. destruct (List.filter f l) as [|x rest] eqn:Hf; [discriminate|].
    exists x. apply filter_In. rewrite Hf. now left.
  - intros (x & Hin & Hx). assert (Hfx : In x (List.filter f l)) by now apply filter_In.
    destruct (List.filter f l); [contradiction|reflexivity].
Qed.

Lemma eq_str_true (v : pyval) (s : string) : eq_str v s = true ↔ v = PStr s.
Proof.
  split.
  - destruct v; cbn; try discriminate. now intros ->%String.eqb_eq.
  - intros ->. apply String.eqb_refl.
Qed.
(** * Further properties of the embedded code *)

(** ** Persistence of the two model families *)
Section Persistence.

Lemma disk_lookup_insert (d : Disk) (p : Path) (a : Artifact) : <[p := a]> d !! p = Some a.
Proof. apply lookup_insert_eq. Qed.

Lemma disk_lookup_insert_ne (d : Disk) (p q : Path) (a : Artifact) :
  p ≠ q → <[p := a]> d !! q = d !! q.
Proof. apply lookup_insert_ne. Qed.

Lemma version_or_some (v own : string) : v ≠ "" → version_or (Some v) own = v.
Proof.
  intros Hv. unfold version_or. destruct (String.eqb v "") eqn:E; [|reflexivity].
  now apply String.eqb_eq in E.
Qed.

(** X1: a complexity model saved under a version and loaded from it comes
    back with the saved classifier, schema and metrics, under that version,
    and marked fitted, whatever the loading object held before. *)
Theorem complexity_save_load (dump_ok : Path → bool) (self other : ComplexityModel.t)
    (v : string) (disk disk' : Disk) (path : Path) :
  v ≠ "" →
  ComplexityModel.save dump_ok self (Some v) disk = (Ok path, disk') →
  ComplexityModel.load other (Some v) disk'
  = (true, {| ComplexityModel.model := ComplexityModel.model self;
              ComplexityModel.feature_names := ComplexityModel.feature_names self;
              ComplexityModel.version := v;
              ComplexityModel.is_fitted := true;
              ComplexityModel.training_metrics := ComplexityModel.training_metrics self |}).
Proof.
  intros Hv. unfold ComplexityModel.save, ComplexityModel.load, ComplexityModel.get_model_path.
  cbv zeta. rewrite !(version_or_some v) by assumption. destruct (dump_ok _); [|discriminate].
  intros [= <- <-]. now rewrite disk_lookup_insert.
Qed.

Lemma complexity_save_load_witness :
  ComplexityModel.load Spec.fresh_complexity (Some "v7")
    (ComplexityModel.save Spec.always_writable Spec.fresh_complexity (Some "v7") ∅).2
  = (true, {| ComplexityModel.model := None;
              ComplexityModel.feature_names := ComplexityModel.feature_names Spec.fresh_complexity;
              ComplexityModel.version := "v7";
              ComplexityModel.is_fitted := true;
              ComplexityModel.training_metrics := ∅ |}).
Proof.
  apply (complexity_save_load Spec.always_writable Spec.fresh_complexity Spec.fresh_complexity
           "v7" ∅ _ ("v7", "complexity_model.joblib")).
  - discriminate.
  - reflexivity.
Defined.

(** X2: the file written for a model that was never trained holds no
    classifier, yet loading it marks the model fitted: from then on no
    prediction is answered, the rule-based fallback included. *)
Theorem untrained_save_load_disables_fallback (scalar_round : float → float)
    (dump_ok : Path → bool) (self other : ComplexityModel.t) (v : string)
    (disk disk' : Disk) (path : Path) (features : gmap string pyval) :
  v ≠ "" →
  ComplexityModel.model self = None →
  ComplexityModel.save dump_ok self (Some v) disk = (Ok path, disk') →
  ComplexityModel.is_fitted (ComplexityModel.load other (Some v) disk').2 = true
  ∧ is_ok (ComplexityModel.predict scalar_round
             (ComplexityModel.load other (Some v) disk').2 features) = false
  ∧ (is_ok (ComplexityModel._extract_features
              (ComplexityModel.load other (Some v) disk').2 features) = true →
     ComplexityModel.predict scalar_round (ComplexityModel.load other (Some v) disk').2 features
     = Raise AttributeError).
Proof.
  intros Hv Hnone Hsave.
  pose proof (Hload := Hsave).
  unfold ComplexityModel.save, ComplexityModel.get_model_path in Hload. cbv zeta in Hload.
  rewrite !(version_or_some v) in Hload by assumption.
  destruct (dump_ok _); [|discriminate]. injection Hload as <- <-.
  unfold ComplexityModel.load, ComplexityModel.get_model_path.
  rewrite (version_or_some v) by assumption. rewrite disk_lookup_insert. cbn [snd].
  rewrite Hnone. split; [reflexivity|].
  unfold ComplexityModel.predict. cbn [ComplexityModel.is_fitted negb ComplexityModel.model].
  destruct (ComplexityModel._extract_features _ features) as [X|e]; cbn; auto.
  split; [reflexivity|discriminate].
Qed.

Lemma untrained_save_load_disables_fallback_witness :
  ComplexityModel.predict round32 Spec.fresh_complexity Spec.scenario_features
  = Ok ("COMPLEX", 0.7%float, ComplexityModel.tier_probs 0.1 0.2 0.7,
        [Build_Contribution "rule_based" (PFloat 1.3) 1.3 "increases"])
  ∧ ComplexityModel.predict round32
      (ComplexityModel.load Spec.fresh_complexity (Some "v7")
         (ComplexityModel.save Spec.always_writable Spec.fresh_complexity (Some "v7") ∅).2).2
      Spec.scenario_features
    = Raise AttributeError.
Proof.
  split; [reflexivity|].
  apply (untrained_save_load_disables_fallback round32 Spec.always_writable
           Spec.fresh_complexity Spec.fresh_complexity "v7" ∅ _
           ("v7", "complexity_model.joblib") Spec.scenario_features).
  - discriminate.
  - reflexivity.
  - reflexivity.
  - vm_compute. reflexivity.
Defined.

End Persistence.
Section BankPersistence.
Import TestYieldModel.

Lemma load_one_keeps (disk : Disk) (version_ : option string) (loaded : gmap string bool)
    (self : t) (test_code : string) :
  version (load_one disk version_ (loaded, self) test_code).2 = version self
  ∧ feature_names (load_one disk version_ (loaded, self) test_code).2 = feature_names self.
Proof.
  unfold load_one. destruct (disk !! _) as [[]|]; split; reflexivity.
Qed.

Lemma load_from_spec (disk : Disk) (version_ : option string) (tests : list string) :
  NoDup tests →
  ∀ (loaded : gmap string bool) (self : t),
    version (foldl (load_one disk version_) (loaded, self) tests).2 = version self
    ∧ feature_names (foldl (load_one disk version_) (loaded, self) tests).2 = feature_names self
    ∧ (∀ k, k ∉ tests →
         (foldl (load_one disk version_) (loaded, self) tests).1 !! k = loaded !! k
         ∧ models (foldl (load_one disk version_) (loaded, self) tests).2 !! k = models self !! k
         ∧ is_fitted (foldl (load_one disk version_) (loaded, self) tests).2 !! k
           = is_fitted self !! k
         ∧ training_metrics (foldl (load_one disk version_) (loaded, self) tests).2 !! k
           = training_metrics self !! k)
    ∧ (∀ k, k ∈ tests →
         match disk !! get_model_path self k version_ with
         | Some (TestYieldArtifact model _ _ metrics) =>
             (foldl (load_one disk version_) (loaded, self) tests).1 !! k = Some true
             ∧ models (foldl (load_one disk version_) (loaded, self) tests).2 !! k = Some model
             ∧ is_fitted (foldl (load_one disk version_) (loaded, self) tests).2 !! k = Some true
             ∧ training_metrics (foldl (load_one disk version_) (loaded, self) tests).2 !! k
               = Some metrics
         | _ =>
             (foldl (load_one disk version_) (loaded, self) tests).1 !! k = Some false
             ∧ models (foldl (load_one disk version_) (loaded, self) tests).2 !! k
               = models self !! k
             ∧ is_fitted (foldl (load_one disk version_) (loaded, self) tests).2 !! k
               = is_fitted self !! k
             ∧ training_metrics (foldl (load_one disk version_) (loaded, self) tests).2 !! k
               = training_metrics self !! k
         end).
Proof.
  induction 1 as [|t tests Hnotin Hnodup IH]; intros loaded self.
  - cbn. repeat split; try reflexivity. intros k Hk. now apply elem_of_nil in Hk.
  - cbn [foldl].
    destruct (load_one disk version_ (loaded, self) t) as [loaded1 self1] eqn:Hone.
    destruct (IH loaded1 self1) as (Hv & Hn & Hout & Hin).
    pose proof (load_one_keeps disk version_ loaded self t) as [Hv1 Hn1].
    rewrite Hone in Hv1, Hn1. cbn [snd] in Hv1, Hn1.
    assert (Hpath : ∀ k, get_model_path self1 k version_ = get_model_path self k version_).
    { intros k. unfold get_model_path. now rewrite Hv1. }
    assert (Hat : ∀ k, k ≠ t →
              loaded1 !! k = loaded !! k ∧ models self1 !! k = models self !! k
              ∧ is_fitted self1 !! k = is_fitted self !! k
              ∧ training_metrics self1 !! k = training_metrics self !! k).
    { intros k Hk. unfold load_one in Hone.
      destruct (disk !! get_model_path self t version_) as [[]|]; injection Hone as <- <-;
        cbn; rewrite ?lookup_insert_ne by congruence; auto. }
    split; [congruence|]. split; [congruence|]. split.
    + intros k Hk. apply not_elem_of_cons in Hk as [Hkt Hk].
      destruct (Hout k Hk) as (-> & -> & -> & ->). now apply Hat.
    + intros k Hk. apply elem_of_cons in Hk as [->|Hk].
      * destruct (Hout t Hnotin) as (-> & -> & -> & ->).
        unfold load_one in Hone.
        destruct (disk !! get_model_path self t version_) as [[]|]; injection Hone as <- <-;
          cbn; rewrite ?lookup_insert_eq; auto.
      * specialize (Hin k Hk). rewrite Hpath in Hin.
        assert (Hkt : k ≠ t) by (intros ->; contradiction).
        destruct (Hat k Hkt) as (H1 & H2 & H3 & H4).
        destruct (disk !! get_model_path self k version_) as [[]|];
          rewrite <- ?H1, <- ?H2, <- ?H3, <- ?H4; exact Hin.
Qed.

End BankPersistence.
Section BankFiles.
Import TestYieldModel.

Lemma supported_cases (t : string) :
  t ∈ SUPPORTED_TESTS →
  t = "HBA1C" ∨ t = "LIPID" ∨ t = "ECG" ∨ t = "LFT" ∨ t = "RFT" ∨ t = "CBC"
  ∨ t = "URINE" ∨ t = "ECHO" ∨ t = "TMT".
Proof.
  intros H. apply list_elem_of_In in H. cbn in H. intuition (subst; auto 10).
Qed.

Lemma supported_lower_inj (k t : string) :
  k ∈ SUPPORTED_TESTS → t ∈ SUPPORTED_TESTS → lower k = lower t → k = t.
Proof.
  intros Hk Ht.
  apply supported_cases in Hk. apply supported_cases in Ht.
  repeat (destruct Hk as [->|Hk]); try subst k;
    repeat (destruct Ht as [->|Ht]); try subst t;
    first [reflexivity | intros [=]].
Qed.

Lemma supported_key_inj (k t : string) :
  k ∈ SUPPORTED_TESTS → t ∈ SUPPORTED_TESTS →
  "test_yield_" +:+ lower k = "test_yield_" +:+ lower t → k = t.
Proof.
  intros Hk Ht H. apply supported_lower_inj; [assumption..|]. now injection H.
Qed.

Lemma supported_path_ne (self self' : t) (version_ version_' : option string) (k t : string) :
  k ∈ SUPPORTED_TESTS → t ∈ SUPPORTED_TESTS → k ≠ t →
  get_model_path self k version_ ≠ get_model_path self' t version_'.
Proof.
  intros Hk Ht Hne H. apply Hne. unfold get_model_path in H. injection H as _ H.
  apply supported_cases in Hk. apply supported_cases in Ht.
  repeat (destruct Hk as [->|Hk]); try subst k;
    repeat (destruct Ht as [->|Ht]); try subst t;
    first [reflexivity | discriminate H].
Qed.

End BankFiles.
Section BankRoundTrip.
Import TestYieldModel.

(** X3: [load] reads exactly the files of the supported tests: a test whose
    file exists gets the stored regressor and metrics and is marked fitted,
    a test without a file keeps what the object held and is reported as not
    loaded.  The version and the feature names of the object are not read
    back from the files. *)
Theorem test_yield_load_per_file (self : t) (version_ : option string) (disk : Disk) :
  version (load self version_ disk).2 = version self
  ∧ feature_names (load self version_ disk).2 = feature_names self
  ∧ (∀ k, is_Some ((load self version_ disk).1 !! k) ↔ k ∈ SUPPORTED_TESTS)
  ∧ (∀ k, k ∈ SUPPORTED_TESTS →
       match disk !! get_model_path self k version_ with
       | Some (TestYieldArtifact model _ _ metrics) =>
           (load self version_ disk).1 !! k = Some true
           ∧ models (load self version_ disk).2 !! k = Some model
           ∧ is_fitted (load self version_ disk).2 !! k = Some true
           ∧ training_metrics (load self version_ disk).2 !! k = Some metrics
       | _ =>
           (load self version_ disk).1 !! k = Some false
           ∧ models (load self version_ disk).2 !! k = models self !! k
           ∧ is_fitted (load self version_ disk).2 !! k = is_fitted self !! k
           ∧ training_metrics (load self version_ disk).2 !! k = training_metrics self !! k
       end)
  ∧ (∀ k, k ∉ SUPPORTED_TESTS →
       models (load self version_ disk).2 !! k = models self !! k
       ∧ is_fitted (load self version_ disk).2 !! k = is_fitted self !! k
       ∧ training_metrics (load self version_ disk).2 !! k = training_metrics self !! k).
Proof.
  unfold load.
  destruct (load_from_spec disk version_ SUPPORTED_TESTS supported_nodup ∅ self)
    as (Hv & Hn & Hout & Hin).
  split; [exact Hv|]. split; [exact Hn|]. split; [|split].
  - intros k. split.
    + intros Hsome. destruct (decide (k ∈ SUPPORTED_TESTS)) as [|Hk]; [assumption|].
      destruct (Hout k Hk) as (Hl & _). rewrite Hl, lookup_empty in Hsome.
      now destruct Hsome.
    + intros Hk. specialize (Hin k Hk).
      destruct (disk !! get_model_path self k version_) as [[]|];
        destruct Hin as (-> & _); eauto.
  - exact Hin.
  - intros k Hk. destruct (Hout k Hk) as (_ & H1 & H2 & H3). auto.
Qed.

(** X4: a regressor saved for a supported test under a version is the one a
    later [load] of that version installs for it, with its metrics; the
    other tests load as they would have without the save. *)
Theorem test_yield_save_load (dump_ok : Path → bool) (self other : t) (test_code v : string)
    (disk disk' : Disk) (path : Path) :
  v ≠ "" →
  test_code ∈ SUPPORTED_TESTS →
  save dump_ok self test_code (Some v) disk = (Ok path, disk') →
  (∃ model, models self !! test_code = Some model
            ∧ models (load other (Some v) disk').2 !! test_code = Some model)
  ∧ (load other (Some v) disk').1 !! test_code = Some true
  ∧ is_fitted (load other (Some v) disk').2 !! test_code = Some true
  ∧ training_metrics (load other (Some v) disk').2 !! test_code
    = Some (default ∅ (training_metrics self !! test_code))
  ∧ (∀ k, k ≠ test_code →
       (load other (Some v) disk').1 !! k = (load other (Some v) disk).1 !! k
       ∧ models (load other (Some v) disk').2 !! k = models (load other (Some v) disk).2 !! k
       ∧ is_fitted (load other (Some v) disk').2 !! k
         = is_fitted (load other (Some v) disk).2 !! k
       ∧ training_metrics (load other (Some v) disk').2 !! k
         = training_metrics (load other (Some v) disk).2 !! k).
Proof.
  intros Hv Hsup Hsave. unfold save in Hsave.
  destruct (models self !! test_code) as [model|] eqn:Hmodel; [|discriminate].
  cbv zeta in Hsave. unfold get_model_path in Hsave.
  rewrite !(version_or_some v) in Hsave by assumption.
  destruct (dump_ok _); [|discriminate]. injection Hsave as <- <-.
  unfold load. set (disk' := <[_ := _]> disk).
  destruct (load_from_spec disk' (Some v) SUPPORTED_TESTS supported_nodup ∅ other)
    as (_ & _ & Hout' & Hin').
  destruct (load_from_spec disk (Some v) SUPPORTED_TESTS supported_nodup ∅ other)
    as (_ & _ & Hout & Hin).
  assert (Hhere : disk' !! get_model_path other test_code (Some v)
                  = Some (TestYieldArtifact model (feature_names self) v
                            (default ∅ (training_metrics self !! test_code)))).
  { unfold get_model_path. rewrite (version_or_some v) by assumption.
    apply disk_lookup_insert. }
  pose proof (Hin' test_code Hsup) as Ht. rewrite Hhere in Ht.
  destruct Ht as (H1 & H2 & H3 & H4).
  split; [eauto|]. split; [exact H1|]. split; [exact H3|]. split; [exact H4|].
  intros k Hk. destruct (decide (k ∈ SUPPORTED_TESTS)) as [Hin_k|Hout_k].
  - assert (Hsame : disk' !! get_model_path other k (Some v)
                    = disk !! get_model_path other k (Some v)).
    { apply disk_lookup_insert_ne. intros Heq.
      apply (supported_path_ne other other (Some v) (Some v) test_code k Hsup Hin_k);
        [congruence|].
      unfold get_model_path in *. rewrite (version_or_some v) in * by assumption.
      exact Heq. }
    pose proof (Hin' k Hin_k) as Hk'. pose proof (Hin k Hin_k) as Hk0.
    rewrite Hsame in Hk'.
    destruct (disk !! get_model_path other k (Some v)) as [[]|];
      destruct Hk' as (-> & -> & -> & ->); destruct Hk0 as (-> & -> & -> & ->); auto.
  - destruct (Hout' k Hout_k) as (-> & -> & -> & ->).
    destruct (Hout k Hout_k) as (-> & -> & -> & ->). auto.
Qed.

Lemma test_yield_save_load_witness :
  is_fitted (load Spec.fresh_bank (Some "v7")
               (save Spec.always_writable Spec.ecg_bank "ECG" (Some "v7") ∅).2).2 !! "ECG"
  = Some true
  ∧ is_fitted (load Spec.fresh_bank (Some "v7")
                 (save Spec.always_writable Spec.ecg_bank "ECG" (Some "v7") ∅).2).2 !! "LFT"
    = is_fitted (load Spec.fresh_bank (Some "v7") ∅).2 !! "LFT".
Proof.
  destruct (test_yield_save_load Spec.always_writable Spec.ecg_bank Spec.fresh_bank "ECG" "v7"
              ∅ (save Spec.always_writable Spec.ecg_bank "ECG" (Some "v7") ∅).2
              ("v7", "test_yield_ecg.joblib")) as (_ & _ & Hfit & _ & Hframe).
  - discriminate.
  - apply supported_mem. reflexivity.
  - reflexivity.
  - split; [exact Hfit|]. apply (Hframe "LFT"). discriminate.
Defined.

End BankRoundTrip.
(** ** The model manager *)
Section Manager.

Lemma foldl_insert_keys {V} (key : string → string) (val : string → V) (c : string → bool)
    (tests : list string) :
  NoDup tests →
  (∀ a b, a ∈ tests → b ∈ tests → key a = key b → a = b) →
  ∀ m : gmap string V,
    (∀ t, t ∈ tests →
       foldl (λ m t, if c t then <[key t := val t]> m else m) m tests !! key t
       = if c t then Some (val t) else m !! key t)
    ∧ (∀ k, (∀ t, t ∈ tests → k ≠ key t) →
         foldl (λ m t, if c t then <[key t := val t]> m else m) m tests !! k = m !! k).
Proof.
  induction 1 as [|t tests Hnotin Hnodup IH]; intros Hinj m.
  - split; [intros t Ht; now apply elem_of_nil in Ht|reflexivity].
  - cbn [foldl].
    destruct (IH (λ a b Ha Hb, Hinj a b (list_elem_of_further _ _ _ Ha)
                                  (list_elem_of_further _ _ _ Hb))
                 (if c t then <[key t := val t]> m else m)) as [Hin Hout].
    split.
    + intros k Hk. apply elem_of_cons in Hk as [->|Hk].
      * rewrite Hout.
        -- destruct (c t); [apply lookup_insert_eq|reflexivity].
        -- intros t' Ht' Heq. apply Hnotin.
           rewrite (Hinj t t'); [assumption|apply list_elem_of_here|
                                 now apply list_elem_of_further|assumption].
      * rewrite (Hin k Hk). destruct (c k); [reflexivity|].
        destruct (c t); [|reflexivity]. apply lookup_insert_ne.
        intros Heq. apply Hnotin.
        rewrite (Hinj t k); [assumption|apply list_elem_of_here|
                             now apply list_elem_of_further|assumption].
    + intros k Hk. rewrite Hout.
      * destruct (c t); [|reflexivity]. apply lookup_insert_ne.
        intros Heq. apply (Hk t); [apply list_elem_of_here|now symmetry].
      * intros t' Ht'. apply Hk. now apply list_elem_of_further.
Qed.

Lemma loaded_models_bank (mm : ModelManager.t) (tym : TestYieldModel.t) :
  ModelManager.test_yield_model mm = Some tym →
  ModelManager.get_loaded_models mm !! "complexity"
  = Some (match ModelManager.complexity_model mm with
          | Some cm => ComplexityModel.is_fitted cm
          | None => false
          end)
  ∧ (∀ t, t ∈ TestYieldModel.SUPPORTED_TESTS →
       ModelManager.get_loaded_models mm !! ("test_yield_" +:+ lower t)
       = Some (default false (TestYieldModel.is_fitted tym !! t))).
Proof.
  intros Hbank. unfold ModelManager.get_loaded_models. rewrite Hbank. cbv zeta.
  destruct (foldl_insert_keys (λ t, "test_yield_" +:+ lower t)
              (λ t, default false (TestYieldModel.is_fitted tym !! t)) (λ _, true)
              TestYieldModel.SUPPORTED_TESTS supported_nodup supported_key_inj
              ({[ "complexity" := match ModelManager.complexity_model mm with
                                  | Some cm => ComplexityModel.is_fitted cm
                                  | None => false
                                  end ]})) as [Hin Hout].
  cbv beta iota in Hin, Hout. split.
  - rewrite Hout; [apply lookup_singleton_eq|]. intros t _. discriminate.
  - exact Hin.
Qed.

End Manager.
Section ManagerReports.

(** X5: after start-up the health report says for the complexity model and
    for each supported test exactly whether its file exists under the
    configured version. *)
Theorem init_reports_files (settings : Config.Settings) (disk : Disk) :
  ModelManager.get_loaded_models (ModelManager.init settings disk) !! "complexity"
  = Some (match disk !! ComplexityModel.get_model_path (ComplexityModel.init settings)
                          (Some (Config.current_model_version settings)) with
          | Some (ComplexityArtifact _ _ _ _) => true
          | _ => false
          end)
  ∧ (∀ t, t ∈ TestYieldModel.SUPPORTED_TESTS →
       ModelManager.get_loaded_models (ModelManager.init settings disk)
         !! ("test_yield_" +:+ lower t)
       = Some (match disk !! TestYieldModel.get_model_path (TestYieldModel.init settings) t
                               (Some (Config.current_model_version settings)) with
               | Some (TestYieldArtifact _ _ _ _) => true
               | _ => false
               end)).
Proof.
  destruct (loaded_models_bank (ModelManager.init settings disk)
              (TestYieldModel.load (TestYieldModel.init settings)
                 (Some (Config.current_model_version settings)) disk).2 eq_refl)
    as [Hc Ht].
  split.
  - rewrite Hc. cbn. unfold ComplexityModel.load.
    now destruct (disk !! _) as [[]|].
  - intros t Hsup. rewrite (Ht t Hsup). f_equal.
    destruct (load_from_spec disk (Some (Config.current_model_version settings))
                TestYieldModel.SUPPORTED_TESTS supported_nodup ∅ (TestYieldModel.init settings))
      as (_ & _ & _ & Hin).
    specialize (Hin t Hsup). unfold TestYieldModel.load.
    assert (Hfresh : TestYieldModel.is_fitted (TestYieldModel.init settings) !! t = Some false).
    { apply supported_cases in Hsup.
      repeat (destruct Hsup as [->|Hsup]); try subst t; reflexivity. }
    destruct (disk !! TestYieldModel.get_model_path _ t _) as [[]|];
      destruct Hin as (_ & _ & -> & _); rewrite ?Hfresh; reflexivity.
Qed.

End ManagerReports.
(** One step through a sequence of calls that returned. *)
Ltac bind_step H :=
  match type of H with
  | mbind ?k ?e = Ok _ =>
      let x := fresh "x" in
      let E := fresh "E" in
      destruct e as [x|] eqn:E;
      [rewrite bind_Ok in H; cbv beta iota zeta in H
      |rewrite bind_Raise in H; discriminate H]
  end.

Section ManagerInfo.

(** X6: the model information lists a test-yield entry exactly for the
    supported tests the health report gives as loaded, while the complexity
    entry is listed whenever a complexity object exists, fitted or not. *)
Theorem model_info_matches_loaded (mm : ModelManager.t) (tym : TestYieldModel.t) :
  ModelManager.test_yield_model mm = Some tym →
  (∀ t, t ∈ TestYieldModel.SUPPORTED_TESTS →
     ModelManager.get_model_info mm !! ("test_yield_" +:+ lower t)
     = (if default false (TestYieldModel.is_fitted tym !! t)
        then Some (ModelManager.test_yield_info tym t) else None)
     ∧ (is_Some (ModelManager.get_model_info mm !! ("test_yield_" +:+ lower t))
        ↔ ModelManager.get_loaded_models mm !! ("test_yield_" +:+ lower t) = Some true))
  ∧ ModelManager.get_model_info mm !! "complexity"
    = ModelManager.complexity_info <$> ModelManager.complexity_model mm.
Proof.
  intros Hbank. destruct (loaded_models_bank mm tym Hbank) as [_ Hloaded].
  unfold ModelManager.get_model_info. rewrite Hbank. cbv zeta.
  destruct (foldl_insert_keys (λ t, "test_yield_" +:+ lower t)
              (ModelManager.test_yield_info tym)
              (λ t, default false (TestYieldModel.is_fitted tym !! t))
              TestYieldModel.SUPPORTED_TESTS supported_nodup supported_key_inj
              (match ModelManager.complexity_model mm with
               | Some cm => {[ "complexity" := ModelManager.complexity_info cm ]}
               | None => ∅
               end)) as [Hin Hout].
  cbv beta in Hin, Hout. split.
  - intros t Hsup. rewrite (Hin t Hsup), (Hloaded t Hsup).
    assert (Hbase : (match ModelManager.complexity_model mm with
                     | Some cm => {[ "complexity" := ModelManager.complexity_info cm ]}
                     | None => ∅
                     end : gmap string pyval) !! ("test_yield_" +:+ lower t) = None).
    { destruct (ModelManager.complexity_model mm); [|apply lookup_empty].
      apply lookup_singleton_ne. discriminate. }
    rewrite Hbase.
    destruct (default false (TestYieldModel.is_fitted tym !! t)); split;
      try reflexivity; split; intros H; try (now eauto); try discriminate.
    now destruct H.
  - rewrite Hout by (intros t _; discriminate).
    destruct (ModelManager.complexity_model mm); [apply lookup_singleton_eq|apply lookup_empty].
Qed.

Lemma model_info_matches_loaded_witness :
  ModelManager.get_model_info Spec.example_manager !! ("test_yield_" +:+ lower "ECG") = None
  ∧ is_Some (ModelManager.get_model_info Spec.example_manager !! "complexity").
Proof.
  destruct (model_info_matches_loaded Spec.example_manager Spec.fresh_bank eq_refl)
    as [Htests Hc].
  split.
  - destruct (Htests "ECG") as [H _]; [apply supported_mem; reflexivity|exact H].
  - rewrite Hc. cbn. eauto.
Defined.

(** X7: the bank the manager builds at start-up or on a reload keeps the
    version text "v1" of a new bank whichever version it was loaded from, so
    a test-yield answer served right after reports model version "v1". *)
Theorem reloaded_bank_version (settings : Config.Settings) (disk : Disk) (mm : ModelManager.t)
    (version_ : option string) :
  (TestYieldModel.version <$> ModelManager.test_yield_model (ModelManager.init settings disk))
  = Some "v1"
  ∧ (TestYieldModel.version
       <$> ModelManager.test_yield_model
             (ModelManager.reload_models settings disk mm version_).2) = Some "v1"
  ∧ (∀ test_code applicant sum_assured disclosures p ver,
       InferenceService.predict_test_yield
         (ModelManager.reload_models settings disk mm version_).2
         test_code applicant sum_assured disclosures = Ok (p, ver) →
       ver = "v1").
Proof.
  assert (Hv : ∀ v, TestYieldModel.version
                      (TestYieldModel.load (TestYieldModel.init settings) v disk).2 = "v1").
  { intros v. unfold TestYieldModel.load.
    now destruct (load_from_spec disk v TestYieldModel.SUPPORTED_TESTS supported_nodup ∅
                    (TestYieldModel.init settings)) as (-> & _). }
  split; [|split].
  - exact (f_equal Some (Hv _)).
  - exact (f_equal Some (Hv _)).
  - intros test_code applicant sum_assured disclosures p ver.
    unfold InferenceService.predict_test_yield.
    change (ModelManager.test_yield_model
              (ModelManager.reload_models settings disk mm version_).2)
      with (Some (TestYieldModel.load (TestYieldModel.init settings)
                    (Some (version_or version_ (ModelManager.current_version mm))) disk).2).
    intros H. bind_step H. rewrite bind_Ok in H. bind_step H.
    injection H as _ <-. apply Hv.
Qed.

End ManagerInfo.
(** ** Test-yield predictions *)
Section YieldPredictions.
Import TestYieldModel.

Lemma rule_based_recommendation (t : string) (features : gmap string pyval) (p : Prediction) :
  _rule_based_prediction t features = Ok p →
  p.1.2 = _get_recommendation p.1.1.1 t
  ∧ p.2 = [Build_Contribution "rule_based" (PFloat p.1.1.1) p.1.1.1 "increases"].
Proof.
  unfold _rule_based_prediction. intros H.
  bind_step H. bind_step H. bind_step H. bind_step H.
  injection H as <-. split; reflexivity.
Qed.

Lemma rule_yield_floor (related a55 a45 heavy smoker : bool) :
  (0.3 <=? Spec.rule_yield related a55 a45 heavy smoker)%float = true
  ∧ (Spec.rule_yield related a55 a45 heavy smoker <=? 0.95)%float = true
  ∧ ∀ t, _get_recommendation (Spec.rule_yield related a55 a45 heavy smoker) t ≠ "low_yield".
Proof.
  destruct related, a55, a45, heavy, smoker; vm_compute; repeat split; discriminate.
Qed.

(** X8: whichever path answers, the recommendation returned is the one the
    thresholds give for the yield returned; an answer of the rule-based
    fallback has a yield between 0.3 and 0.95, so the fallback never says
    "low_yield", and carries the single contribution "rule_based". *)
Theorem recommendation_follows_yield (self : t) (test_code : string)
    (features : gmap string pyval) (y c : float) (r : string) (cs : list Contribution) :
  predict self test_code features = Ok (y, c, r, cs) →
  r = _get_recommendation y test_code
  ∧ (default false (is_fitted self !! test_code) = false →
     (0.3 <=? y)%float = true ∧ (y <=? 0.95)%float = true ∧ r ≠ "low_yield"
     ∧ cs = [Build_Contribution "rule_based" (PFloat y) y "increases"]).
Proof.
  intros Hp.
  assert (Hsup : mem test_code SUPPORTED_TESTS = true).
  { unfold predict in Hp. now destruct (mem test_code SUPPORTED_TESTS). }
  destruct (default false (is_fitted self !! test_code)) eqn:Hfit.
  - split; [|discriminate]. unfold predict in Hp. rewrite Hsup, Hfit in Hp.
    cbn [negb] in Hp. cbv iota in Hp.
    bind_step Hp. bind_step Hp. bind_step Hp. bind_step Hp. now injection Hp as <- _ <- _.
  - rewrite (unfitted_predict self test_code features Hsup Hfit) in Hp.
    destruct (rule_based_recommendation _ _ _ Hp) as [Hr Hcs].
    destruct (rule_based_shape _ _ _ Hp) as (_ & related & a55 & a45 & heavy & smoker & Hy).
    cbn in Hr, Hcs, Hy.
    destruct (rule_yield_floor related a55 a45 heavy smoker) as (Hlo & Hhi & Hrec).
    split; [exact Hr|]. intros _. rewrite Hcs, Hr, Hy. repeat split; auto.
Qed.

Lemma recommendation_follows_yield_witness :
  TestYieldModel.predict Spec.ecg_bank "ECG" Spec.two_fields
  = Ok (1%float, 0.8%float, "recommended", [])
  ∧ "recommended" = _get_recommendation 1 "ECG".
Proof.
  split; [vm_compute; reflexivity|].
  apply (recommendation_follows_yield Spec.ecg_bank "ECG" Spec.two_fields 1 0.8
           "recommended" []).
  vm_compute. reflexivity.
Defined.

End YieldPredictions.
Section YieldFit.
Import TestYieldModel.

Lemma predict_depends (self self' : t) (test_code : string) (features : gmap string pyval) :
  feature_names self' = feature_names self →
  is_fitted self' !! test_code = is_fitted self !! test_code →
  models self' !! test_code = models self !! test_code →
  predict self' test_code features = predict self test_code features.
Proof.
  intros Hn Hf Hm. unfold predict, _extract_features. rewrite Hn, Hf.
  destruct (negb (mem test_code SUPPORTED_TESTS)); [reflexivity|].
  destruct (negb (default false (is_fitted self !! test_code))); [reflexivity|].
  destruct (mapM _ _ ≫= np_array_f32) as [row|e]; [|reflexivity].
  rewrite !bind_Ok. cbv beta. unfold Regressor in *. now rewrite Hm.
Qed.

(** X9: fitting one test changes the answers for that test only.  Whatever
    the outcome of [fit], predictions for every other test are as before;
    after a successful [fit] the answer for the fitted test is the output of
    the regressor the learner returned, clamped to the unit interval, and the
    metrics are recorded under the test. *)
Theorem fit_changes_one_test
    (lgbm_fit : ndarray → list float → result Regressor)
    (regression_metrics : Regressor → ndarray → list float → result Metrics)
    (self : t) (test_code : string) (X : ndarray) (y : list float) :
  (∀ t features, t ≠ test_code →
     predict (fit lgbm_fit regression_metrics self test_code X y).2 t features
     = predict self t features)
  ∧ version (fit lgbm_fit regression_metrics self test_code X y).2 = version self
  ∧ feature_names (fit lgbm_fit regression_metrics self test_code X y).2 = feature_names self
  ∧ (∀ metrics,
       (fit lgbm_fit regression_metrics self test_code X y).1 = Ok metrics →
       training_metrics (fit lgbm_fit regression_metrics self test_code X y).2 !! test_code
       = Some metrics
       ∧ ∃ model,
           lgbm_fit X y = Ok model
           ∧ models (fit lgbm_fit regression_metrics self test_code X y).2 !! test_code
             = Some (Some model)
           ∧ ∀ features p,
               predict (fit lgbm_fit regression_metrics self test_code X y).2 test_code features
               = Ok p →
               ∃ row raw,
                 _extract_features self test_code features = Ok row
                 ∧ model row = Ok raw
                 ∧ p.1.1.1 = py_max 0 (py_min 1 raw)
                 ∧ p.1.1.2 = _calculate_confidence features).
Proof.
  unfold fit. destruct (negb (mem test_code SUPPORTED_TESTS)) eqn:Hsup.
  { cbn [fst snd]. split; [reflexivity|]. split; [reflexivity|]. split; [reflexivity|].
    intros metrics [=]. }
  apply negb_false_iff in Hsup.
  destruct (lgbm_fit X y) as [model|e].
  2:{ cbn [fst snd]. split; [reflexivity|]. split; [reflexivity|]. split; [reflexivity|].
    intros metrics [=]. }
  cbv zeta.
  assert (Hframe : ∀ self', feature_names self' = feature_names self →
            (∀ t, t ≠ test_code → is_fitted self' !! t = is_fitted self !! t
                                  ∧ models self' !! t = models self !! t) →
            ∀ t features, t ≠ test_code → predict self' t features = predict self t features).
  { intros self' Hn Hother t features Ht. destruct (Hother t Ht).
    now apply predict_depends. }
  destruct (regression_metrics model X y) as [metrics|e]; cbn [fst snd].
  - split; [|split; [reflexivity|split; [reflexivity|]]].
    + apply Hframe; [reflexivity|]. intros t Ht. cbn.
      now rewrite !lookup_insert_ne by congruence.
    + intros ? [= <-]. split; [cbn; apply lookup_insert_eq|].
      exists model. split; [reflexivity|]. split; [cbn; apply lookup_insert_eq|].
      intros features p Hp. unfold predict in Hp. rewrite Hsup in Hp.
      cbn [negb set_metrics set_fitted is_fitted models] in Hp.
      rewrite !lookup_insert_eq in Hp. cbn [default from_option id negb] in Hp.
      cbv iota in Hp. bind_step Hp. rewrite bind_Ok in Hp. bind_step Hp. bind_step Hp.
      injection Hp as <-. exists x, x0. repeat split; assumption.
  - split; [|split; [reflexivity|split; [reflexivity|intros metrics [=]]]].
    apply Hframe; [reflexivity|]. intros t Ht. cbn.
    now rewrite !lookup_insert_ne by congruence.
Qed.

Lemma fit_changes_one_test_witness :
  (fit Spec.constant_regressor_fit Spec.no_metrics Spec.fresh_bank "ECG" [] []).1 = Ok ∅
  ∧ training_metrics
      (fit Spec.constant_regressor_fit Spec.no_metrics Spec.fresh_bank "ECG" [] []).2 !! "ECG"
    = Some ∅.
Proof.
  split; [reflexivity|].
  apply (fit_changes_one_test Spec.constant_regressor_fit Spec.no_metrics Spec.fresh_bank
           "ECG" [] []).
  reflexivity.
Defined.

(** X10: hot-swapping a test from a bank that holds no regressor for it
    installs nothing and still marks the test fitted: predictions for the test
    are then never answered, where the fallback answered before. *)
Theorem hot_swap_without_regressor (mm : ModelManager.t) (tym m : t) (test_code : string)
    (features : gmap string pyval) :
  ModelManager.test_yield_model mm = Some tym →
  test_code ∈ SUPPORTED_TESTS →
  models m !! test_code = None →
  ∃ tym',
    ModelManager.test_yield_model (ModelManager.update_test_yield_model mm test_code m)
    = Some tym'
    ∧ is_ok (predict tym' test_code features) = false
    ∧ (is_ok (_extract_features tym test_code features) = true →
       predict tym' test_code features = Raise AttributeError).
Proof.
  intros Hbank Hsup Hnone. apply supported_mem in Hsup.
  unfold ModelManager.update_test_yield_model. rewrite Hbank, Hnone. cbn [default from_option id].
  eexists. split; [reflexivity|].
  unfold predict. rewrite Hsup. cbn [negb set_fitted is_fitted models].
  rewrite !lookup_insert_eq. cbn [default from_option id negb]. cbv iota.
  unfold _extract_features. cbn [feature_names].
  destruct (mapM _ _ ≫= np_array_f32) as [row|e]; [|split; [reflexivity|discriminate]].
  rewrite bind_Ok. split; [reflexivity|]. reflexivity.
Qed.

Lemma hot_swap_without_regressor_witness :
  is_ok (predict Spec.fresh_bank "ECG" Spec.two_fields) = true
  ∧ ∃ tym',
      ModelManager.test_yield_model
        (ModelManager.update_test_yield_model Spec.example_manager "ECG" Spec.fresh_bank)
      = Some tym'
      ∧ is_ok (predict tym' "ECG" Spec.two_fields) = false.
Proof.
  split; [vm_compute; reflexivity|].
  destruct (hot_swap_without_regressor Spec.example_manager Spec.fresh_bank Spec.fresh_bank
              "ECG" Spec.two_fields) as (tym' & H1 & H2 & _).
  - reflexivity.
  - apply supported_mem. reflexivity.
  - reflexivity.
  - exists tym'. split; assumption.
Defined.

End YieldFit.
(** ** Requests the fallback cannot answer *)
Section ServingErrors.

Lemma ge_int_raises (v : pyval) (n : Z) (e : exn) : ge_int v n = Raise e → e = TypeError.
Proof. unfold ge_int. destruct (as_num v) as [[]|]; now intros [=]. Qed.

Lemma has_related_raises (t : string) (features : gmap string pyval) (e : exn) :
  TestYieldModel._has_related_condition t features = Raise e → e = TypeError.
Proof.
  unfold TestYieldModel._has_related_condition. cbv zeta.
  repeat (match goal with
          | |- (if ?c then Ok true else _) = Raise _ → _ => destruct c; [discriminate|]
          end).
  destruct (if mem "obesity" _ then _ else _) as [[]|e1] eqn:E1.
  - discriminate.
  - rewrite bind_Ok.
    destruct (if mem "metabolic" _ then _ else _) as [[]|e2] eqn:E2; try discriminate.
    rewrite bind_Raise. intros [= <-].
    destruct (mem "metabolic" _); [|discriminate].
    destruct (truthy _); [discriminate|]. now apply ge_int_raises in E2.
  - rewrite bind_Raise. intros [= <-].
    destruct (mem "obesity" _); [|discriminate]. now apply ge_int_raises in E1.
Qed.

Lemma get_or_lookup (d : gmap string pyval) (k : string) (v dflt : pyval) :
  d !! k = Some v → get_or d k dflt = v.
Proof. unfold get_or. now intros ->. Qed.

Lemma serving_keeps_age (applicant : gmap string pyval) (sum_assured disclosures : pyval)
    (fs : gmap string pyval) :
  InferenceService._prepare_complexity_features applicant sum_assured disclosures = Ok fs →
  fs !! "age" = Some (get applicant "age").
Proof.
  intros H. apply serving_map_shape in H
    as (f1 & l & cs & ms & fh & names & fnames & Hage & _ & _ & _ & _ & _ & _ & ->).
  now rewrite !lookup_insert_ne by discriminate.
Qed.

(** X11: a request that gives no age (the field is missing or null) cannot be
    answered by either rule-based fallback: the comparison of the age with a
    threshold raises [TypeError], for the complexity service and for every
    supported test of the test-yield service. *)
Theorem request_without_age (scalar_round : float → float) (mm : ModelManager.t)
    (applicant : gmap string pyval) (sum_assured disclosures : pyval) :
  get applicant "age" = PNone →
  (∀ m, ModelManager.complexity_model mm = Some m →
        ComplexityModel.is_fitted m = false →
        InferenceService.predict_complexity scalar_round mm applicant sum_assured disclosures
        = match InferenceService._prepare_complexity_features applicant sum_assured
                  disclosures with
          | Ok _ => Raise TypeError
          | Raise e => Raise e
          end)
  ∧ (∀ tym test_code,
       ModelManager.test_yield_model mm = Some tym →
       test_code ∈ TestYieldModel.SUPPORTED_TESTS →
       default false (TestYieldModel.is_fitted tym !! test_code) = false →
       InferenceService.predict_test_yield mm test_code applicant sum_assured disclosures
       = match InferenceService._prepare_complexity_features applicant sum_assured
                 disclosures with
         | Ok _ => Raise TypeError
         | Raise e => Raise e
         end).
Proof.
  intros Hage. split.
  - intros m Hm Hfit. unfold InferenceService.predict_complexity. rewrite Hm.
    destruct (InferenceService._prepare_complexity_features _ _ _) as [fs|e] eqn:Hprep;
      [|reflexivity].
    rewrite !bind_Ok. apply serving_keeps_age in Hprep. rewrite Hage in Hprep.
    unfold ComplexityModel.predict. rewrite Hfit. cbn [negb].
    unfold ComplexityModel._rule_based_prediction. cbv zeta.
    rewrite (get_or_lookup fs "age" PNone (PInt 35) Hprep). reflexivity.
  - intros tym test_code Hbank Hsup Hfit.
    unfold InferenceService.predict_test_yield, InferenceService._prepare_test_features.
    rewrite Hbank.
    destruct (InferenceService._prepare_complexity_features _ _ _) as [fs|e] eqn:Hprep;
      [|reflexivity].
    rewrite !bind_Ok. apply serving_keeps_age in Hprep. rewrite Hage in Hprep.
    apply supported_mem in Hsup.
    rewrite (unfitted_predict tym test_code _ Hsup Hfit).
    unfold TestYieldModel._rule_based_prediction. cbv zeta.
    destruct (TestYieldModel._has_related_condition _ _) as [related|e] eqn:Hrel.
    + rewrite bind_Ok.
      rewrite (get_or_lookup _ "age" PNone (PInt 35))
        by (now rewrite lookup_insert_ne by discriminate).
      reflexivity.
    + apply has_related_raises in Hrel as ->. reflexivity.
Qed.

Lemma request_without_age_witness :
  InferenceService.predict_complexity round32 Spec.example_manager ∅ (PInt 5000000) (PList [])
  = Raise TypeError.
Proof.
  destruct (request_without_age round32 Spec.example_manager ∅ (PInt 5000000) (PList []))
    as [Hc _]; [reflexivity|].
  rewrite (Hc (ComplexityModel.init Spec.example_settings)); reflexivity.
Defined.

End ServingErrors.
Section UnnamedCondition.

Lemma lowered_names_bad (tag field : string) (l : list pyval) (d : gmap string pyval)
    (v : pyval) :
  PDict d ∈ l →
  eq_str (get d "disclosure_type") tag = true →
  d !! field = Some v →
  (∀ s, v ≠ PStr s) →
  FeatureEngineer.lowered_names tag field l = Raise AttributeError.
Proof.
  intros Hin Htag Hfield Hv. induction l as [|x l IH]; [now apply elem_of_nil in Hin|].
  cbn [FeatureEngineer.lowered_names].
  apply elem_of_cons in Hin as [<-|Hin].
  - cbn [as_dict]. rewrite bind_Ok, Htag. unfold get_or. rewrite Hfield. cbn [default from_option id].
    destruct v; try reflexivity. now destruct (Hv s).
  - specialize (IH Hin). destruct (as_dict x) as [dx|] eqn:Hx.
    + rewrite bind_Ok, IH. destruct (eq_str (get dx "disclosure_type") tag); [|reflexivity].
      destruct (py_lower _) as [s|e] eqn:Hs; [reflexivity|].
      unfold py_lower in Hs. destruct (get_or dx field (PStr "")); inversion Hs; reflexivity.
    + destruct x; inversion Hx; reflexivity.
Qed.

Lemma mapM_raises {A B} (f : A → result B) (l : list A) (x : A) :
  x ∈ l → is_ok (f x) = false → is_ok (mapM f l) = false.
Proof.
  intros Hin Hx. induction l as [|a l IH]; [now apply elem_of_nil in Hin|].
  cbn [mapM]. apply elem_of_cons in Hin as [<-|Hin].
  - now destruct (f x).
  - destruct (f a); [|reflexivity]. rewrite bind_Ok. specialize (IH Hin).
    now destruct (mapM f l).
Qed.

(** X12: a condition disclosure whose name is present but is not text (the
    request schema dumps a name that was not given as [None]) makes the
    condition extraction raise [AttributeError].  The training extraction
    raises it for the case, the serving extraction does not return, and the
    preparation of a complexity dataset that contains such a case fails as a
    whole: the case is not skipped. *)
Theorem unnamed_condition_raises (l : list pyval) (d : gmap string pyval) (v : pyval) :
  PDict d ∈ l →
  get d "disclosure_type" = PStr "condition" →
  d !! "condition_name" = Some v →
  (∀ s, v ≠ PStr s) →
  FeatureEngineer.extract_condition_flags (PList l) = Raise AttributeError
  ∧ (∀ applicant sum_assured,
       DataLoader._extract_case_features applicant sum_assured (PList l) = Raise AttributeError)
  ∧ (∀ applicant sum_assured,
       is_ok (InferenceService._prepare_complexity_features applicant sum_assured (PList l))
       = false)
  ∧ (∀ settings cases c overrides,
       PDict c ∈ cases →
       c !! "medicalDisclosures" = Some (PList l) →
       is_ok (DataLoader.prepare_complexity_dataset settings (PList cases) overrides) = false).
Proof.
  intros Hin Htype Hname Hv.
  assert (Htag : eq_str (get d "disclosure_type") "condition" = true) by now rewrite Htype.
  pose proof (lowered_names_bad "condition" "condition_name" l d v Hin Htag Hname Hv) as Hbad.
  assert (Hflags : FeatureEngineer.extract_condition_flags (PList l) = Raise AttributeError).
  { unfold FeatureEngineer.extract_condition_flags. cbn [iter]. now rewrite bind_Ok, Hbad. }
  assert (Hcase : ∀ applicant sum_assured,
            DataLoader._extract_case_features applicant sum_assured (PList l)
            = Raise AttributeError).
  { intros. unfold DataLoader._extract_case_features. now rewrite Hflags. }
  split; [exact Hflags|]. split; [exact Hcase|]. split.
  - intros applicant sum_assured.
    destruct (InferenceService._prepare_complexity_features _ _ _) as [fs|] eqn:Hprep;
      [|reflexivity].
    apply serving_map_shape in Hprep
      as (f1 & l' & cs & ms & fh & names & fnames & _ & _ & _ & Hiter & Hcl & Hnames & _).
    injection Hiter as <-.
    destruct (classify_spec l [] [] [] cs ms fh 0 0 0 0 Hcl)
      as (cs1 & ms1 & fs1 & ns1 & -> & _ & _ & Hlow & _).
    cbn [app] in Hnames. congruence.
  - intros settings cases c overrides Hc Hdisc.
    unfold DataLoader.prepare_complexity_dataset. cbn [iter]. rewrite bind_Ok.
    assert (Hrow : is_ok (mapM (DataLoader.complexity_case_sample settings) cases) = false).
    { apply (mapM_raises _ _ (PDict c) Hc).
      unfold DataLoader.complexity_case_sample. cbn [as_dict]. rewrite bind_Ok. cbv zeta.
      rewrite (get_or_lookup c "medicalDisclosures" (PList l) (PList []) Hdisc).
      now rewrite Hcase. }
    now destruct (mapM (DataLoader.complexity_case_sample settings) cases).
Qed.

Lemma unnamed_condition_raises_witness :
  FeatureEngineer.extract_condition_flags (PList [PDict Spec.unnamed_condition])
  = Raise AttributeError
  ∧ is_ok (DataLoader.prepare_complexity_dataset Spec.example_settings
             (PList [PDict Spec.unnamed_case]) (PList [])) = false.
Proof.
  destruct (unnamed_condition_raises [PDict Spec.unnamed_condition] Spec.unnamed_condition PNone)
    as (H1 & _ & _ & H4).
  - apply list_elem_of_here.
  - reflexivity.
  - reflexivity.
  - discriminate.
  - split; [exact H1|].
    apply (H4 Spec.example_settings [PDict Spec.unnamed_case] Spec.unnamed_case (PList []));
      [apply list_elem_of_here|reflexivity].
Defined.

End UnnamedCondition.
(** ** The training datasets *)
Section Datasets.
Variable settings : Config.Settings.

Lemma mapM_Forall2 {A B} (f : A → result B) (l : list A) (l' : list B) :
  mapM f l = Ok l' → Forall2 (λ x y, f x = Ok y) l l'.
Proof.
  revert l'. induction l as [|a l IH]; intros l' H.
  - injection H as <-. constructor.
  - cbn [mapM] in H. bind_step H. bind_step H. injection H as <-.
    constructor; [assumption|now apply IH].
Qed.

Lemma mapM_length {A B} (f : A → result B) (l : list A) (l' : list B) :
  mapM f l = Ok l' → length l' = length l.
Proof. intros H%mapM_Forall2. symmetry. exact (Forall2_length _ _ _ H). Qed.

Lemma tier_label_range (tier : pyval) (z : Z) :
  DataLoader.tier_label tier = Ok z → 0 ≤ z ≤ 2.
Proof.
  unfold DataLoader.tier_label.
  destruct tier; try discriminate; intros [= <-];
    repeat (match goal with |- context [if ?c then _ else _] => destruct c end); lia.
Qed.

Lemma case_sample_shape (case : pyval) (s : DataLoader.Sample Z) :
  DataLoader.complexity_case_sample settings case = Ok s →
  length s.1.1 = length (Config.complexity_features settings)
  ∧ 0 ≤ s.1.2 ≤ 2 ∧ s.2 = 1%float.
Proof.
  unfold DataLoader.complexity_case_sample. intros H.
  bind_step H. bind_step H. bind_step H. injection H as <-. cbn [fst snd].
  split; [unfold DataLoader.row; apply length_fmap|].
  split; [eapply tier_label_range; eassumption|reflexivity].
Qed.

Lemma override_sample_shape (override : pyval) (s : DataLoader.Sample Z) :
  DataLoader.complexity_override_sample settings override = Ok s →
  length s.1.1 = length (Config.complexity_features settings)
  ∧ 0 ≤ s.1.2 ≤ 2 ∧ (s.2 = 1.5%float ∨ s.2 = 2%float).
Proof.
  unfold DataLoader.complexity_override_sample. intros H.
  bind_step H. bind_step H. bind_step H. bind_step H. injection H as <-. cbn [fst snd].
  split; [unfold DataLoader.row; apply length_fmap|].
  split; [eapply tier_label_range; eassumption|].
  destruct (truthy _); auto.
Qed.

Lemma np_array_width (row : list pyval) (r : list float) :
  np_array_f32 row = Ok r → length r = length row.
Proof. apply mapM_length. Qed.

Lemma to_arrays_shape {L} (samples : list (DataLoader.Sample L)) (X : ndarray) (y : list L)
    (ws : list float) :
  DataLoader.to_arrays samples = Ok (X, y, ws) →
  length X = length samples
  ∧ Forall2 (λ (s : DataLoader.Sample L) row, length row = length s.1.1) samples X
  ∧ y = (λ s : DataLoader.Sample L, s.1.2) <$> samples
  ∧ ws = (λ s : DataLoader.Sample L, round32 s.2) <$> samples.
Proof.
  unfold DataLoader.to_arrays. intros H. bind_step H. injection H as <- <- <-.
  split; [eapply mapM_length; eassumption|]. split; [|split; reflexivity].
  apply mapM_Forall2 in E. eapply Forall2_impl; [exact E|].
  intros s row Hrow. now apply np_array_width.
Qed.

(** X13: the samples of a complexity dataset, before the array cast.  When
    the loop over the cases returns the samples [fc] and the loop over the
    overrides the samples [fo], there is one sample per case and one per
    override; every sample has one cell per configured feature and a label
    among 0, 1 and 2; the weight is 1 for a case and 1.5 or 2 for an
    override.  When moreover every cell is [None] or a number, a dataset
    that is returned has one row per sample, cases first, each as wide as
    the configured feature list, with the labels and the weights of the
    samples. *)
Theorem complexity_dataset_rows (cases overrides : list pyval)
    (fc fo : list (DataLoader.Sample Z)) :
  mapM (DataLoader.complexity_case_sample settings) cases = Ok fc →
  mapM (DataLoader.complexity_override_sample settings) overrides = Ok fo →
  length fc = length cases
  ∧ length fo = length overrides
  ∧ Forall (λ s : DataLoader.Sample Z,
              length s.1.1 = length (Config.complexity_features settings)
              ∧ 0 ≤ s.1.2 ≤ 2 ∧ s.2 = 1%float) fc
  ∧ Forall (λ s : DataLoader.Sample Z,
              length s.1.1 = length (Config.complexity_features settings)
              ∧ 0 ≤ s.1.2 ≤ 2 ∧ (s.2 = 1.5%float ∨ s.2 = 2%float)) fo
  ∧ (Forall (λ s : DataLoader.Sample Z, forallb Spec.plain_number s.1.1 = true)
       (fc ++ fo)%list →
     ∀ X y ws,
       DataLoader.prepare_complexity_dataset settings (PList cases) (PList overrides)
       = Ok (X, y, ws) →
       length X = (length cases + length overrides)%nat
       ∧ Forall (λ row, length row = length (Config.complexity_features settings)) X
       ∧ y = (λ s : DataLoader.Sample Z, s.1.2) <$> (fc ++ fo)%list
       ∧ ws = (λ s : DataLoader.Sample Z, round32 s.2) <$> (fc ++ fo)%list).
Proof.
  intros Hfc Hfo.
  pose proof (mapM_length _ _ _ Hfc) as Hlc. pose proof (mapM_length _ _ _ Hfo) as Hlo.
  assert (Hc : Forall (λ s : DataLoader.Sample Z,
                 length s.1.1 = length (Config.complexity_features settings)
                 ∧ 0 ≤ s.1.2 ≤ 2 ∧ s.2 = 1%float) fc).
  { pose proof (mapM_Forall2 _ _ _ Hfc) as H. clear -H. induction H; constructor; auto.
    eapply case_sample_shape; eassumption. }
  assert (Ho : Forall (λ s : DataLoader.Sample Z,
                 length s.1.1 = length (Config.complexity_features settings)
                 ∧ 0 ≤ s.1.2 ≤ 2 ∧ (s.2 = 1.5%float ∨ s.2 = 2%float)) fo).
  { pose proof (mapM_Forall2 _ _ _ Hfo) as H. clear -H. induction H; constructor; auto.
    eapply override_sample_shape; eassumption. }
  split; [exact Hlc|]. split; [exact Hlo|]. split; [exact Hc|]. split; [exact Ho|].
  intros _ X y ws H.
  unfold DataLoader.prepare_complexity_dataset in H.
  change (iter (PList cases)) with (Ok cases) in H. rewrite bind_Ok, Hfc, bind_Ok in H.
  assert (Hov : (if truthy (PList overrides)
                 then ol ← iter (PList overrides);
                      mapM (DataLoader.complexity_override_sample settings) ol
                 else Ok []) = Ok fo).
  { destruct overrides; [now injection Hfo as <-|exact Hfo]. }
  rewrite Hov, bind_Ok in H.
  apply to_arrays_shape in H as (HX & Hrows & -> & ->).
  split; [now rewrite HX, length_app, Hlc, Hlo|]. split; [|split; reflexivity].
  assert (Hall : Forall (λ s : DataLoader.Sample Z,
                   length s.1.1 = length (Config.complexity_features settings)) (fc ++ fo)).
  { apply Forall_app. split; [eapply Forall_impl; [exact Hc|]|eapply Forall_impl; [exact Ho|]];
      now intros s (? & _). }
  clear -Hrows Hall. induction Hrows; constructor.
  - apply Forall_cons in Hall as [Hx _]. congruence.
  - apply Forall_cons in Hall as [_ Hl]. auto.
Qed.

End Datasets.
Lemma complexity_dataset_rows_witness :
  mapM (DataLoader.complexity_case_sample Spec.example_settings)
    [Spec.completed_case 44 "ROUTINE" "ECG"; Spec.completed_case 61 "COMPLEX" "ECG"]
  = Ok [([PInt 44; PFloat 27.5; PFloat 7.5; PInt 1; PInt 0; PInt 0; PBool false; PBool false;
          PBool false; PBool false; PBool false; PBool false], 0, 1%float);
        ([PInt 61; PFloat 27.5; PFloat 7.5; PInt 1; PInt 0; PInt 0; PBool false; PBool false;
          PBool false; PBool false; PBool false; PBool false], 2, 1%float)]
  ∧ mapM (DataLoader.complexity_override_sample Spec.example_settings)
      [Spec.validated_override]
    = Ok [([PInt 58; PInt 33; PFloat 12; PInt 2; PInt 0; PInt 0; PBool false; PBool false;
            PBool false; PBool false; PBool false; PBool false], 2, 2%float)]
  ∧ DataLoader.prepare_complexity_dataset Spec.example_settings
      (PList [Spec.completed_case 44 "ROUTINE" "ECG"; Spec.completed_case 61 "COMPLEX" "ECG"])
      (PList [Spec.validated_override])
    = Ok ([[44; 27.5; 7.5; 1; 0; 0; 0; 0; 0; 0; 0; 0];
           [61; 27.5; 7.5; 1; 0; 0; 0; 0; 0; 0; 0; 0];
           [58; 33; 12; 2; 0; 0; 0; 0; 0; 0; 0; 0]]%float, [0; 2; 2], [1; 1; 2]%float)
  ∧ length [[44; 27.5; 7.5; 1; 0; 0; 0; 0; 0; 0; 0; 0];
            [61; 27.5; 7.5; 1; 0; 0; 0; 0; 0; 0; 0; 0];
            [58; 33; 12; 2; 0; 0; 0; 0; 0; 0; 0; 0]]%float = (2 + 1)%nat.
Proof.
  assert (Hfc : mapM (DataLoader.complexity_case_sample Spec.example_settings)
                  [Spec.completed_case 44 "ROUTINE" "ECG";
                   Spec.completed_case 61 "COMPLEX" "ECG"]
                = Ok [([PInt 44; PFloat 27.5; PFloat 7.5; PInt 1; PInt 0; PInt 0; PBool false;
                        PBool false; PBool false; PBool false; PBool false; PBool false],
                       0, 1%float);
                      ([PInt 61; PFloat 27.5; PFloat 7.5; PInt 1; PInt 0; PInt 0; PBool false;
                        PBool false; PBool false; PBool false; PBool false; PBool false],
                       2, 1%float)])
    by (vm_compute; reflexivity).
  assert (Hfo : mapM (DataLoader.complexity_override_sample Spec.example_settings)
                  [Spec.validated_override]
                = Ok [([PInt 58; PInt 33; PFloat 12; PInt 2; PInt 0; PInt 0; PBool false;
                        PBool false; PBool false; PBool false; PBool false; PBool false],
                       2, 2%float)])
    by (vm_compute; reflexivity).
  assert (H : DataLoader.prepare_complexity_dataset Spec.example_settings
                (PList [Spec.completed_case 44 "ROUTINE" "ECG";
                        Spec.completed_case 61 "COMPLEX" "ECG"])
                (PList [Spec.validated_override])
              = Ok ([[44; 27.5; 7.5; 1; 0; 0; 0; 0; 0; 0; 0; 0];
                     [61; 27.5; 7.5; 1; 0; 0; 0; 0; 0; 0; 0; 0];
                     [58; 33; 12; 2; 0; 0; 0; 0; 0; 0; 0; 0]]%float, [0; 2; 2], [1; 1; 2]%float))
    by (vm_compute; reflexivity).
  split; [exact Hfc|]. split; [exact Hfo|]. split; [exact H|].
  destruct (complexity_dataset_rows Spec.example_settings _ _ _ _ Hfc Hfo)
    as (_ & _ & _ & _ & Hshape).
  refine (proj1 (Hshape _ _ _ _ H)).
  repeat constructor.
Defined.

Section YieldDatasets.
Variable settings : Config.Settings.

Lemma test_features_ok (test_code : string) (case : pyval) (s : DataLoader.Sample float) :
  DataLoader.test_case_sample settings test_code case = Ok (Some s) →
  length s.1.1 = length (Config.test_yield_features settings)
  ∧ (s.1.2 = 1%float ∨ s.1.2 = 0%float) ∧ s.2 = 1%float.
Proof.
  unfold DataLoader.test_case_sample. intros H.
  bind_step H. bind_step H. bind_step H. destruct x1 as [test_result|]; [|discriminate].
  destruct (negb _); [discriminate|]. cbv zeta in H. bind_step H.
  injection H as <-. cbn [fst snd].
  split; [unfold DataLoader.row; apply length_fmap|].
  split; [destruct (DataLoader._was_test_informative _); auto|reflexivity].
Qed.

Lemma test_override_ok (test_code : string) (override : pyval) (s : DataLoader.Sample float) :
  DataLoader.test_override_sample settings test_code override = Ok (Some s) →
  length s.1.1 = length (Config.test_yield_features settings)
  ∧ (s.1.2 = 0.8%float ∨ s.1.2 = 0.2%float ∨ s.1.2 = 0.5%float) ∧ s.2 = 1.5%float.
Proof.
  unfold DataLoader.test_override_sample. intros H.
  bind_step H. bind_step H. destruct (negb _); [discriminate|].
  bind_step H. cbv zeta in H. bind_step H. injection H as <-. cbn [fst snd].
  split; [unfold DataLoader.row; apply length_fmap|].
  split; [|reflexivity].
  destruct (eq_str _ "ADD"); [auto|]. destruct (eq_str _ "REMOVE"); auto.
Qed.

Lemma omap_id_length {A} (l : list (option A)) : (length (omap id l) ≤ length l)%nat.
Proof. induction l as [|[a|] l IH]; cbn; lia. Qed.

Lemma omap_id_Forall {A} (P : A → Prop) (l : list (option A)) :
  Forall (λ o, ∀ a, o = Some a → P a) l → Forall P (omap id l).
Proof.
  induction 1 as [|[a|] l Ha _ IH]; cbn; [constructor| |assumption].
  constructor; auto.
Qed.

(** X14: the samples of a test-yield dataset, before the array cast.  When
    the loop over the cases returns [fc] and the loop over the overrides
    [fo], each case and each override gives at most one sample; every sample
    has one cell per configured feature; a case has label 1 or 0 and weight
    1, an override label 0.8, 0.2 or 0.5 and weight 1.5.  When moreover
    every cell is [None] or a number, a dataset that is returned has one row
    per sample, each as wide as the configured feature list, with the labels
    and the weights of the samples in single precision. *)
Theorem test_yield_dataset_rows (test_code : string) (cases overrides : list pyval)
    (fc fo : list (option (DataLoader.Sample float))) :
  mapM (DataLoader.test_case_sample settings test_code) cases = Ok fc →
  mapM (DataLoader.test_override_sample settings test_code) overrides = Ok fo →
  length fc = length cases
  ∧ length fo = length overrides
  ∧ Forall (λ o : option (DataLoader.Sample float), ∀ s, o = Some s →
              length s.1.1 = length (Config.test_yield_features settings)
              ∧ (s.1.2 = 1%float ∨ s.1.2 = 0%float) ∧ s.2 = 1%float) fc
  ∧ Forall (λ o : option (DataLoader.Sample float), ∀ s, o = Some s →
              length s.1.1 = length (Config.test_yield_features settings)
              ∧ (s.1.2 = 0.8%float ∨ s.1.2 = 0.2%float ∨ s.1.2 = 0.5%float)
              ∧ s.2 = 1.5%float) fo
  ∧ (Forall (λ s : DataLoader.Sample float, forallb Spec.plain_number s.1.1 = true)
       (omap id (fc ++ fo)%list) →
     ∀ X y ws,
       DataLoader.prepare_test_yield_dataset settings test_code (PList cases)
         (PList overrides) = Ok (X, y, ws) →
       length X = length (omap id (fc ++ fo)%list)
       ∧ (length X ≤ length cases + length overrides)%nat
       ∧ Forall (λ row, length row = length (Config.test_yield_features settings)) X
       ∧ y = (λ s : DataLoader.Sample float, round32 s.1.2) <$> omap id (fc ++ fo)%list
       ∧ ws = (λ s : DataLoader.Sample float, round32 s.2) <$> omap id (fc ++ fo)%list).
Proof.
  intros Hfc Hfo.
  pose proof (mapM_length _ _ _ Hfc) as Hlc. pose proof (mapM_length _ _ _ Hfo) as Hlo.
  assert (Hc : Forall (λ o : option (DataLoader.Sample float), ∀ s, o = Some s →
                 length s.1.1 = length (Config.test_yield_features settings)
                 ∧ (s.1.2 = 1%float ∨ s.1.2 = 0%float) ∧ s.2 = 1%float) fc).
  { pose proof (mapM_Forall2 _ _ _ Hfc) as H. clear -H. induction H; constructor; auto.
    intros s ->. eapply test_features_ok; eassumption. }
  assert (Ho : Forall (λ o : option (DataLoader.Sample float), ∀ s, o = Some s →
                 length s.1.1 = length (Config.test_yield_features settings)
                 ∧ (s.1.2 = 0.8%float ∨ s.1.2 = 0.2%float ∨ s.1.2 = 0.5%float)
                 ∧ s.2 = 1.5%float) fo).
  { pose proof (mapM_Forall2 _ _ _ Hfo) as H. clear -H. induction H; constructor; auto.
    intros s ->. eapply test_override_ok; eassumption. }
  split; [exact Hlc|]. split; [exact Hlo|]. split; [exact Hc|]. split; [exact Ho|].
  intros _ X y ws H.
  unfold DataLoader.prepare_test_yield_dataset in H.
  change (iter (PList cases)) with (Ok cases) in H. rewrite bind_Ok, Hfc, bind_Ok in H.
  assert (Hov : (if truthy (PList overrides)
                 then ol ← iter (PList overrides);
                      mapM (DataLoader.test_override_sample settings test_code) ol
                 else Ok []) = Ok fo).
  { destruct overrides; [now injection Hfo as <-|exact Hfo]. }
  rewrite Hov, bind_Ok in H. cbv zeta in H. bind_step H.
  destruct x as [[X0 y0] ws0]. injection H as <- <- <-.
  apply to_arrays_shape in E as (HX & Hrows & -> & ->). cbn [fst snd].
  assert (Hall : Forall (λ s : DataLoader.Sample float,
                   length s.1.1 = length (Config.test_yield_features settings))
                   (omap id (fc ++ fo)%list)).
  { apply omap_id_Forall, Forall_app.
    split; [eapply Forall_impl; [exact Hc|]|eapply Forall_impl; [exact Ho|]];
      intros o Hs s Heq; now destruct (Hs s Heq). }
  split; [exact HX|].
  split. { rewrite HX. etransitivity; [apply omap_id_length|]. rewrite length_app. lia. }
  split; [|split].
  - clear -Hrows Hall. induction Hrows; constructor.
    + apply Forall_cons in Hall as [Hx _]. congruence.
    + apply Forall_cons in Hall as [_ Hl]. auto.
  - change (List.map round32) with (fmap (M := list) round32).
    now rewrite <- list_fmap_compose.
  - reflexivity.
Qed.

End YieldDatasets.

Lemma test_yield_dataset_rows_witness :
  mapM (DataLoader.test_case_sample Spec.example_settings "ECG")
    [Spec.completed_case 44 "ROUTINE" "ECG"; Spec.completed_case 61 "COMPLEX" "LFT"]
  = Ok [Some ([PInt 44; PFloat 27.5; PInt 1; PInt 0; PInt 0; PInt 2], 1%float, 1%float); None]
  ∧ DataLoader.prepare_test_yield_dataset Spec.example_settings "ECG"
      (PList [Spec.completed_case 44 "ROUTINE" "ECG"; Spec.completed_case 61 "COMPLEX" "LFT"])
      (PList [])
    = Ok ([[44; 27.5; 1; 0; 0; 2]]%float, [1%float], [1%float])
  ∧ length [[44; 27.5; 1; 0; 0; 2]]%float = 1%nat.
Proof.
  assert (Hfc : mapM (DataLoader.test_case_sample Spec.example_settings "ECG")
                  [Spec.completed_case 44 "ROUTINE" "ECG";
                   Spec.completed_case 61 "COMPLEX" "LFT"]
                = Ok [Some ([PInt 44; PFloat 27.5; PInt 1; PInt 0; PInt 0; PInt 2],
                            1%float, 1%float); None])
    by (vm_compute; reflexivity).
  assert (H : DataLoader.prepare_test_yield_dataset Spec.example_settings "ECG"
                (PList [Spec.completed_case 44 "ROUTINE" "ECG";
                        Spec.completed_case 61 "COMPLEX" "LFT"]) (PList [])
              = Ok ([[44; 27.5; 1; 0; 0; 2]]%float, [1%float], [1%float]))
    by (vm_compute; reflexivity).
  split; [exact Hfc|]. split; [exact H|].
  destruct (test_yield_dataset_rows Spec.example_settings "ECG" _ [] _ [] Hfc eq_refl)
    as (_ & _ & _ & _ & Hshape).
  refine (proj1 (Hshape _ _ _ _ H)).
  repeat constructor.
Defined.
(** ** Training runs *)
Section ComplexityRun.
Variable settings : Config.Settings.
Variable backend_cases : result pyval.
Variable backend_overrides : string → result pyval.
Variable calibrated_fit : ndarray → list Z → result Classifier.
Variable classification_metrics : Classifier → ndarray → list Z → result Metrics.
Variable dump_ok : Path → bool.
Variable started_at completed_at version_stamp : string.

Lemma generated_version_nonempty (new_version : option string) :
  version_or new_version (Trainer._generate_version version_stamp) ≠ "".
Proof.
  unfold version_or, Trainer._generate_version.
  destruct new_version as [v|]; [|discriminate].
  destruct (String.eqb v "") eqn:E; [discriminate|]. now apply String.eqb_neq in E.
Qed.

Lemma world_eta (w : Trainer.World) :
  {| Trainer.manager := Trainer.manager w; Trainer.disk := Trainer.disk w |} = w.
Proof. now destruct w. Qed.

(** X15: a complexity training run never touches the test-yield bank nor the
    manager's current version, and a run that does not end "completed" leaves
    the served models and the stored files exactly as they were. *)
Theorem complexity_run_frame (w : Trainer.World) (force : bool) (new_version : option string) :
  ModelManager.test_yield_model
    (Trainer.manager
       (Trainer.train_complexity_model settings backend_cases backend_overrides calibrated_fit
          classification_metrics dump_ok started_at completed_at version_stamp
          w force new_version).2)
  = ModelManager.test_yield_model (Trainer.manager w)
  ∧ ModelManager.current_version
      (Trainer.manager
         (Trainer.train_complexity_model settings backend_cases backend_overrides calibrated_fit
            classification_metrics dump_ok started_at completed_at version_stamp
            w force new_version).2)
    = ModelManager.current_version (Trainer.manager w)
  ∧ ((Trainer.train_complexity_model settings backend_cases backend_overrides calibrated_fit
        classification_metrics dump_ok started_at completed_at version_stamp
        w force new_version).1 !! "status" = Some (PStr "completed")
     ∨ (Trainer.train_complexity_model settings backend_cases backend_overrides calibrated_fit
          classification_metrics dump_ok started_at completed_at version_stamp
          w force new_version).1 !! "status" = Some (PStr "failed")
        ∧ (Trainer.train_complexity_model settings backend_cases backend_overrides
             calibrated_fit classification_metrics dump_ok started_at completed_at
             version_stamp w force new_version).2 = w).
Proof.
  unfold Trainer.train_complexity_model. cbv zeta.
  destruct (DataLoader.prepare_complexity_dataset _ _ _) as [[[X y] ws]|e].
  2:{ cbn [fst snd]. repeat split. right. split; [reflexivity|reflexivity]. }
  destruct (len X =? 0).
  { cbn [fst snd]. repeat split. right. split; reflexivity. }
  destruct (_ && _).
  { cbn [fst snd]. repeat split. right. split; reflexivity. }
  destruct (ComplexityModel.fit _ _ _ _ _) as [[metrics|e] model].
  2:{ cbn [fst snd]. repeat split. right. split; reflexivity. }
  unfold ComplexityModel.save. cbv zeta. destruct (dump_ok _).
  - cbn [fst snd Trainer.manager]. repeat split. left. reflexivity.
  - cbn [fst snd Trainer.manager]. repeat split. right. split; [reflexivity|apply world_eta].
Qed.

End ComplexityRun.
Section ComplexityRunCompleted.
Variable settings : Config.Settings.
Variable backend_cases : result pyval.
Variable backend_overrides : string → result pyval.
Variable calibrated_fit : ndarray → list Z → result Classifier.
Variable classification_metrics : Classifier → ndarray → list Z → result Metrics.
Variable dump_ok : Path → bool.
Variable started_at completed_at version_stamp : string.

Ltac not_completed :=
  let H := fresh "H" in
  let Hf := fresh "Hf" in
  intros H;
  match type of H with
  | ?l = _ => assert (Hf : l = Some (PStr "failed")) by reflexivity; congruence
  end.

(** X16: a complexity training run that ends "completed" serves a fitted
    model under the run's version, has written it to the file of that
    version and to no other file, and a reload of that version installs the
    very model being served. *)
Theorem complexity_run_completed (w : Trainer.World) (force : bool)
    (new_version : option string) :
  let run := Trainer.train_complexity_model settings backend_cases backend_overrides
               calibrated_fit classification_metrics dump_ok started_at completed_at
               version_stamp w force new_version in
  let v := version_or new_version (Trainer._generate_version version_stamp) in
  run.1 !! "status" = Some (PStr "completed") →
  ∃ model,
    ModelManager.complexity_model (Trainer.manager run.2) = Some model
    ∧ ComplexityModel.is_fitted model = true
    ∧ ComplexityModel.version model = v
    ∧ run.1 !! "version" = Some (PStr v)
    ∧ run.1 !! "model_path" = Some (PStr (path_str settings (v, "complexity_model.joblib")))
    ∧ (∀ other, ComplexityModel.load other (Some v) (Trainer.disk run.2) = (true, model))
    ∧ ModelManager.complexity_model
        (ModelManager.reload_models settings (Trainer.disk run.2) (Trainer.manager run.2)
           (Some v)).2 = Some model
    ∧ (∀ p, p ≠ (v, "complexity_model.joblib") →
            Trainer.disk run.2 !! p = Trainer.disk w !! p).
Proof.
  intros run v. subst run. unfold Trainer.train_complexity_model. cbv zeta.
  pose proof (generated_version_nonempty version_stamp new_version) as Hv. fold v in Hv.
  destruct (DataLoader.prepare_complexity_dataset _ _ _) as [[[X y] ws]|e];
    [|cbn [fst snd]; not_completed].
  destruct (len X =? 0); [cbn [fst snd]; not_completed|].
  destruct (_ && _); [cbn [fst snd]; not_completed|].
  unfold ComplexityModel.fit.
  destruct (calibrated_fit X y) as [m|e]; [|cbn [fst snd]; not_completed].
  cbv zeta. destruct (classification_metrics m X y) as [metrics|e];
    [|cbn [fst snd]; not_completed].
  unfold ComplexityModel.save, ComplexityModel.get_model_path. cbv zeta.
  cbn [ComplexityModel.version ComplexityModel.model ComplexityModel.feature_names
       ComplexityModel.training_metrics ComplexityModel.is_fitted].
  fold v. rewrite !(version_or_some v) by assumption.
  destruct (dump_ok _); [|cbn [fst snd]; not_completed].
  cbn [fst snd Trainer.manager Trainer.disk]. intros _.
  assert (Hload : ∀ other,
            ComplexityModel.load other (Some v)
              (<[(v, "complexity_model.joblib") :=
                   ComplexityArtifact (Some m) (ComplexityModel.feature_names
                                                  (ComplexityModel.init settings)) v metrics]>
                 (Trainer.disk w))
            = (true, {| ComplexityModel.model := Some m;
                        ComplexityModel.feature_names :=
                          ComplexityModel.feature_names (ComplexityModel.init settings);
                        ComplexityModel.version := v;
                        ComplexityModel.is_fitted := true;
                        ComplexityModel.training_metrics := metrics |})).
  { intros other. unfold ComplexityModel.load, ComplexityModel.get_model_path.
    rewrite (version_or_some v) by assumption. now rewrite disk_lookup_insert. }
  eexists. split; [reflexivity|]. split; [reflexivity|]. split; [reflexivity|].
  split; [reflexivity|]. split; [reflexivity|]. split; [exact Hload|]. split.
  - unfold ModelManager.reload_models, ModelManager._load_models. cbv zeta.
    cbn [snd ModelManager.complexity_model ModelManager.current_version].
    rewrite (version_or_some v) by assumption. now rewrite Hload.
  - intros p Hp. now apply disk_lookup_insert_ne.
Qed.

End ComplexityRunCompleted.

Lemma complexity_run_completed_witness :
  (Trainer.train_complexity_model Spec.example_settings Spec.two_cases Spec.no_overrides
     Spec.constant_classifier_fit Spec.empty_classification_metrics Spec.always_writable
     "2026-11-03T10:00:00" "2026-11-03T10:00:01" "20261103_100000"
     Spec.example_world true None).1 !! "status" = Some (PStr "completed")
  ∧ ∃ model,
      ModelManager.complexity_model
        (Trainer.manager
           (Trainer.train_complexity_model Spec.example_settings Spec.two_cases
              Spec.no_overrides Spec.constant_classifier_fit
              Spec.empty_classification_metrics Spec.always_writable
              "2026-11-03T10:00:00" "2026-11-03T10:00:01" "20261103_100000"
              Spec.example_world true None).2) = Some model
      ∧ ComplexityModel.version model = "v20261103_100000".
Proof.
  assert (H : (Trainer.train_complexity_model Spec.example_settings Spec.two_cases
                 Spec.no_overrides Spec.constant_classifier_fit
                 Spec.empty_classification_metrics Spec.always_writable
                 "2026-11-03T10:00:00" "2026-11-03T10:00:01" "20261103_100000"
                 Spec.example_world true None).1 !! "status" = Some (PStr "completed"))
    by reflexivity.
  split; [exact H|].
  destruct (complexity_run_completed Spec.example_settings Spec.two_cases Spec.no_overrides
              Spec.constant_classifier_fit Spec.empty_classification_metrics
              Spec.always_writable "2026-11-03T10:00:00" "2026-11-03T10:00:01"
              "20261103_100000" Spec.example_world true None H)
    as (model & Hm & _ & Hver & _).
  exists model. split; [exact Hm|exact Hver].
Defined.
Section YieldRun.
Variable settings : Config.Settings.
Variable lgbm_fit : ndarray → list float → result Regressor.
Variable regression_metrics : Regressor → ndarray → list float → result Metrics.
Variable dump_ok : Path → bool.
Variable version_stamp : string.

Lemma fit_frame (self : TestYieldModel.t) (test_code : string) (X : ndarray) (y : list float) :
  TestYieldModel.feature_names
    (TestYieldModel.fit lgbm_fit regression_metrics self test_code X y).2
  = TestYieldModel.feature_names self
  ∧ ∀ t, t ≠ test_code →
      TestYieldModel.models
        (TestYieldModel.fit lgbm_fit regression_metrics self test_code X y).2 !! t
      = TestYieldModel.models self !! t
      ∧ TestYieldModel.is_fitted
          (TestYieldModel.fit lgbm_fit regression_metrics self test_code X y).2 !! t
        = TestYieldModel.is_fitted self !! t
      ∧ TestYieldModel.training_metrics
          (TestYieldModel.fit lgbm_fit regression_metrics self test_code X y).2 !! t
        = TestYieldModel.training_metrics self !! t.
Proof.
  unfold TestYieldModel.fit. destruct (negb _); [now split|].
  destruct (lgbm_fit X y) as [model|]; [|now split]. cbv zeta.
  destruct (regression_metrics model X y); cbn; (split; [reflexivity|]);
    intros t Ht; now rewrite !lookup_insert_ne by congruence.
Qed.

Lemma save_disk (self : TestYieldModel.t) (test_code : string) (version_ : option string)
    (disk : Disk) :
  (∀ p, is_Some (disk !! p) →
        is_Some ((TestYieldModel.save dump_ok self test_code version_ disk).2 !! p))
  ∧ ((TestYieldModel.save dump_ok self test_code version_ disk).1
     = Raise OSError
     ∨ (∃ msg, (TestYieldModel.save dump_ok self test_code version_ disk).1
               = Raise (ValueError msg))
     → (TestYieldModel.save dump_ok self test_code version_ disk).2 = disk).
Proof.
  unfold TestYieldModel.save. destruct (TestYieldModel.models self !! test_code);
    [|split; [auto|reflexivity]].
  cbv zeta. destruct (dump_ok _); cbn [fst snd]; [|split; [auto|reflexivity]].
  split.
  - intros p Hp. destruct (decide (TestYieldModel.get_model_path self test_code
        (Some (version_or version_ (TestYieldModel.version self))) = p)) as [<-|Hne].
    + rewrite disk_lookup_insert. eauto.
    + now rewrite disk_lookup_insert_ne.
  - intros [H|[msg H]]; discriminate.
Qed.

Lemma store_frame (w : Trainer.World) (fitted : TestYieldModel.t) (disk' : Disk)
    (test_code : string) :
  TestYieldModel.feature_names fitted
  = TestYieldModel.feature_names
      (default (TestYieldModel.init settings)
         (ModelManager.test_yield_model (Trainer.manager w))) →
  (∀ t, t ≠ test_code →
     TestYieldModel.models fitted !! t
     = TestYieldModel.models
         (default (TestYieldModel.init settings)
            (ModelManager.test_yield_model (Trainer.manager w))) !! t
     ∧ TestYieldModel.is_fitted fitted !! t
       = TestYieldModel.is_fitted
           (default (TestYieldModel.init settings)
              (ModelManager.test_yield_model (Trainer.manager w))) !! t
     ∧ TestYieldModel.training_metrics fitted !! t
       = TestYieldModel.training_metrics
           (default (TestYieldModel.init settings)
              (ModelManager.test_yield_model (Trainer.manager w))) !! t) →
  ModelManager.complexity_model (Trainer.manager (Trainer.store w fitted disk'))
  = ModelManager.complexity_model (Trainer.manager w)
  ∧ ModelManager.current_version (Trainer.manager (Trainer.store w fitted disk'))
    = ModelManager.current_version (Trainer.manager w)
  ∧ (ModelManager.test_yield_model (Trainer.manager w) = None →
     Trainer.manager (Trainer.store w fitted disk') = Trainer.manager w)
  ∧ (∀ tym, ModelManager.test_yield_model (Trainer.manager w) = Some tym →
       ∃ tym',
         ModelManager.test_yield_model (Trainer.manager (Trainer.store w fitted disk'))
         = Some tym'
         ∧ TestYieldModel.feature_names tym' = TestYieldModel.feature_names tym
         ∧ ∀ t, t ≠ test_code →
             TestYieldModel.models tym' !! t = TestYieldModel.models tym !! t
             ∧ TestYieldModel.is_fitted tym' !! t = TestYieldModel.is_fitted tym !! t
             ∧ TestYieldModel.training_metrics tym' !! t
               = TestYieldModel.training_metrics tym !! t)
  ∧ Trainer.disk (Trainer.store w fitted disk') = disk'.
Proof.
  intros Hnames Hother. unfold Trainer.store.
  destruct (ModelManager.test_yield_model (Trainer.manager w)) as [tym|] eqn:Hbank;
    cbn [Trainer.manager Trainer.disk ModelManager.complexity_model
         ModelManager.current_version ModelManager.test_yield_model default from_option id]
      in *.
  - split; [reflexivity|]. split; [reflexivity|]. split; [discriminate|].
    split; [|reflexivity]. intros ? [= <-]. exists fitted. auto.
  - split; [reflexivity|]. split; [reflexivity|]. split; [reflexivity|].
    split; [|reflexivity]. intros ? [=].
Qed.

(** X17: training one test leaves the complexity model, the manager's
    current version and the regressors, flags and metrics of every other
    test as they were, deletes no stored file, and changes nothing at all
    when the test is skipped. *)
Theorem test_yield_run_frame (w : Trainer.World) (test_code : string) (cases overrides : pyval)
    (force : bool) (version_ : option string) :
  let run := Trainer.train_test_yield_model settings lgbm_fit regression_metrics dump_ok
               version_stamp w test_code cases overrides force version_ in
  ModelManager.complexity_model (Trainer.manager run.2)
  = ModelManager.complexity_model (Trainer.manager w)
  ∧ ModelManager.current_version (Trainer.manager run.2)
    = ModelManager.current_version (Trainer.manager w)
  ∧ (ModelManager.test_yield_model (Trainer.manager w) = None →
     Trainer.manager run.2 = Trainer.manager w)
  ∧ (∀ tym, ModelManager.test_yield_model (Trainer.manager w) = Some tym →
       ∃ tym',
         ModelManager.test_yield_model (Trainer.manager run.2) = Some tym'
         ∧ TestYieldModel.feature_names tym' = TestYieldModel.feature_names tym
         ∧ ∀ t, t ≠ test_code →
             TestYieldModel.models tym' !! t = TestYieldModel.models tym !! t
             ∧ TestYieldModel.is_fitted tym' !! t = TestYieldModel.is_fitted tym !! t
             ∧ TestYieldModel.training_metrics tym' !! t
               = TestYieldModel.training_metrics tym !! t)
  ∧ (∀ p, is_Some (Trainer.disk w !! p) → is_Some (Trainer.disk run.2 !! p))
  ∧ (run.1 !! "status" = Some (PStr "skipped") → run.2 = w).
Proof.
  intros run. subst run. unfold Trainer.train_test_yield_model. cbv zeta.
  assert (Hsame : ∀ r : gmap string pyval,
            ModelManager.complexity_model (Trainer.manager (r, w).2)
            = ModelManager.complexity_model (Trainer.manager w)
            ∧ ModelManager.current_version (Trainer.manager (r, w).2)
              = ModelManager.current_version (Trainer.manager w)
            ∧ (ModelManager.test_yield_model (Trainer.manager w) = None →
               Trainer.manager (r, w).2 = Trainer.manager w)
            ∧ (∀ tym, ModelManager.test_yield_model (Trainer.manager w) = Some tym →
                 ∃ tym',
                   ModelManager.test_yield_model (Trainer.manager (r, w).2) = Some tym'
                   ∧ TestYieldModel.feature_names tym' = TestYieldModel.feature_names tym
                   ∧ ∀ t, t ≠ test_code →
                       TestYieldModel.models tym' !! t = TestYieldModel.models tym !! t
                       ∧ TestYieldModel.is_fitted tym' !! t = TestYieldModel.is_fitted tym !! t
                       ∧ TestYieldModel.training_metrics tym' !! t
                         = TestYieldModel.training_metrics tym !! t)
            ∧ (∀ p, is_Some (Trainer.disk w !! p) → is_Some (Trainer.disk (r, w).2 !! p))
            ∧ ((r, w).1 !! "status" = Some (PStr "skipped") → (r, w).2 = w)).
  { intros r. cbn [fst snd]. split; [reflexivity|]. split; [reflexivity|]. split; [auto|].
    split; [intros tym Htym; exists tym; auto|]. split; auto. }
  destruct (DataLoader.prepare_test_yield_dataset _ _ _ _) as [[[X y] ws]|e]; [|apply Hsame].
  destruct (len X =? 0); [apply Hsame|]. destruct (_ && _); [apply Hsame|]. clear Hsame.
  pose proof (fit_frame (default (TestYieldModel.init settings)
                           (ModelManager.test_yield_model (Trainer.manager w)))
                test_code X y) as [Hnames Hother].
  destruct (TestYieldModel.fit lgbm_fit regression_metrics _ test_code X y)
    as [[metrics|e] fitted]; cbn [snd] in Hnames, Hother.
  - pose proof (save_disk
                  (TestYieldModel.set_version fitted
                     (version_or version_ (Trainer._generate_version version_stamp)))
                  test_code
                  (Some (version_or version_ (Trainer._generate_version version_stamp)))
                  (Trainer.disk w)) as [Hkeep _].
    destruct (TestYieldModel.save dump_ok _ test_code _ (Trainer.disk w))
      as [[path|e] disk']; cbn [fst snd] in Hkeep |- *.
    + destruct (store_frame w
                  (TestYieldModel.set_version fitted
                     (version_or version_ (Trainer._generate_version version_stamp)))
                  disk' test_code Hnames Hother) as (H1 & H2 & H3 & H4 & H5).
      rewrite H5. repeat (split; [assumption|]). intros H; discriminate H.
    + destruct (store_frame w
                  (TestYieldModel.set_version fitted
                     (version_or version_ (Trainer._generate_version version_stamp)))
                  disk' test_code Hnames Hother) as (H1 & H2 & H3 & H4 & H5).
      rewrite H5. repeat (split; [assumption|]). intros H; discriminate H.
  - cbn [fst snd].
    destruct (store_frame w fitted (Trainer.disk w) test_code Hnames Hother)
      as (H1 & H2 & H3 & H4 & H5).
    rewrite H5. repeat (split; [assumption|]). split; [auto|]. intros H; discriminate H.
Qed.

End YieldRun.
Section YieldRunFailure.
Variable settings : Config.Settings.
Variable lgbm_fit : ndarray → list float → result Regressor.
Variable regression_metrics : Regressor → ndarray → list float → result Metrics.
Variable dump_ok : Path → bool.
Variable version_stamp : string.

(** X18: when the learner has returned a regressor for a supported test and
    the run then fails, because the scores or the write of the file raise,
    the outcome says "failed" and nothing is stored, yet the active bank
    already holds the new regressor and serves it. *)
Theorem failed_run_keeps_regressor (w : Trainer.World) (tym : TestYieldModel.t)
    (test_code : string) (cases overrides : pyval) (force : bool) (version_ : option string)
    (X : ndarray) (y ws : list float) (model : Regressor) :
  let run := Trainer.train_test_yield_model settings lgbm_fit regression_metrics dump_ok
               version_stamp w test_code cases overrides force version_ in
  ModelManager.test_yield_model (Trainer.manager w) = Some tym →
  test_code ∈ TestYieldModel.SUPPORTED_TESTS →
  DataLoader.prepare_test_yield_dataset settings test_code cases overrides = Ok (X, y, ws) →
  Spec.trains settings force (len X) = true →
  lgbm_fit X y = Ok model →
  is_ok (regression_metrics model X y) = false ∨ (∀ p, dump_ok p = false) →
  run.1 !! "status" = Some (PStr "failed")
  ∧ Trainer.disk run.2 = Trainer.disk w
  ∧ ∃ tym',
      ModelManager.test_yield_model (Trainer.manager run.2) = Some tym'
      ∧ TestYieldModel.models tym' !! test_code = Some (Some model)
      ∧ TestYieldModel.is_fitted tym' !! test_code = Some true.
Proof.
  intros run Hbank Hsup Hdata Htrains Hfit Hfail. subst run.
  unfold Trainer.train_test_yield_model. cbv zeta. rewrite Hdata.
  unfold Spec.trains in Htrains. apply andb_true_iff in Htrains as [Hne Hmin].
  apply negb_true_iff in Hne. rewrite Hne.
  assert (Hgo : (len X <? Config.min_training_samples settings `div` 2) && negb force = false).
  { apply orb_true_iff in Hmin as [Hmin| ->]; [|apply andb_false_r].
    apply Z.leb_le in Hmin. apply andb_false_iff. left. now apply Z.ltb_ge. }
  rewrite Hgo, Hbank. cbn [default from_option id].
  apply supported_mem in Hsup.
  unfold TestYieldModel.fit. rewrite Hsup, Hfit. cbn [negb]. cbv zeta.
  unfold Trainer.store. rewrite Hbank.
  destruct (regression_metrics model X y) as [metrics|e] eqn:Hmetrics.
  - destruct Hfail as [Hfail|Hdump]; [discriminate|].
    unfold TestYieldModel.save.
    cbn [TestYieldModel.set_version TestYieldModel.set_metrics TestYieldModel.set_fitted
         TestYieldModel.models].
    rewrite lookup_insert_eq. cbv zeta. rewrite Hdump.
    cbn [fst snd Trainer.disk Trainer.manager ModelManager.test_yield_model].
    split; [reflexivity|]. split; [reflexivity|]. eexists. split; [reflexivity|].
    cbn [TestYieldModel.set_version TestYieldModel.set_metrics TestYieldModel.set_fitted
         TestYieldModel.models TestYieldModel.is_fitted].
    now rewrite !lookup_insert_eq.
  - cbn [fst snd Trainer.disk Trainer.manager ModelManager.test_yield_model].
    split; [reflexivity|]. split; [reflexivity|]. eexists. split; [reflexivity|].
    cbn [TestYieldModel.set_fitted TestYieldModel.models TestYieldModel.is_fitted].
    now rewrite !lookup_insert_eq.
Qed.

End YieldRunFailure.

Lemma failed_run_keeps_regressor_witness :
  TestYieldModel.is_fitted Spec.fresh_bank !! "ECG" = Some false
  ∧ (Trainer.train_test_yield_model Spec.example_settings Spec.constant_regressor_fit
       Spec.no_metrics Spec.never_writable "20261103_100000" Spec.example_world "ECG"
       (PList [Spec.completed_case 44 "ROUTINE" "ECG"; Spec.completed_case 61 "COMPLEX" "LFT"])
       (PList []) true None).1 !! "status" = Some (PStr "failed")
  ∧ ∃ tym',
      ModelManager.test_yield_model
        (Trainer.manager
           (Trainer.train_test_yield_model Spec.example_settings Spec.constant_regressor_fit
              Spec.no_metrics Spec.never_writable "20261103_100000" Spec.example_world "ECG"
              (PList [Spec.completed_case 44 "ROUTINE" "ECG";
                      Spec.completed_case 61 "COMPLEX" "LFT"])
              (PList []) true None).2) = Some tym'
      ∧ TestYieldModel.is_fitted tym' !! "ECG" = Some true.
Proof.
  split; [reflexivity|].
  destruct (failed_run_keeps_regressor Spec.example_settings Spec.constant_regressor_fit
              Spec.no_metrics Spec.never_writable "20261103_100000" Spec.example_world
              Spec.fresh_bank "ECG"
              (PList [Spec.completed_case 44 "ROUTINE" "ECG";
                      Spec.completed_case 61 "COMPLEX" "LFT"])
              (PList []) true None [[44; 27.5; 1; 0; 0; 2]]%float [1%float] [1%float]
              (λ _, Ok 0.5%float)) as (Hstatus & _ & tym' & Hbank & _ & Hfit).
  - reflexivity.
  - apply supported_mem. reflexivity.
  - vm_compute. reflexivity.
  - reflexivity.
  - reflexivity.
  - right. reflexivity.
  - split; [exact Hstatus|]. exists tym'. split; assumption.
Defined.
Section BackendDown.
Variable settings : Config.Settings.
Variable calibrated_fit : ndarray → list Z → result Classifier.
Variable classification_metrics : Classifier → ndarray → list Z → result Metrics.
Variable lgbm_fit : ndarray → list float → result Regressor.
Variable regression_metrics : Regressor → ndarray → list float → result Metrics.
Variable dump_ok : Path → bool.
Variable started_at completed_at version_stamp : string.

Lemma no_rows_skipped (w : Trainer.World) (test_code : string) (force : bool)
    (version_ : option string) :
  Trainer.train_test_yield_model settings lgbm_fit regression_metrics dump_ok version_stamp
    w test_code (PList []) (PList []) force version_
  = (Trainer.skipped (mkdict [("test_code", PStr test_code); ("status", PStr "running")])
       "No training data", w).
Proof. reflexivity. Qed.

Local Abbreviation no_rows_loop force version_ :=
  (foldl (λ (acc : gmap string pyval * Trainer.World) test_code,
            let '(model_result, w') :=
              Trainer.train_test_yield_model settings lgbm_fit regression_metrics dump_ok
                version_stamp acc.2 test_code (PList []) (PList []) force (Some version_) in
            (<[test_code := PDict model_result]> acc.1, w'))).

Lemma train_each_no_rows (w : Trainer.World) (force : bool) (version_ : string)
    (tests : list string) :
  ∀ acc : gmap string pyval,
    (no_rows_loop force version_ (acc, w) tests).2 = w
    ∧ (∀ k, k ∉ tests → (no_rows_loop force version_ (acc, w) tests).1 !! k = acc !! k)
    ∧ (∀ t, t ∈ tests →
         (no_rows_loop force version_ (acc, w) tests).1 !! t
         = Some (PDict (Trainer.skipped
                          (mkdict [("test_code", PStr t); ("status", PStr "running")])
                          "No training data"))).
Proof.
  induction tests as [|a tests IH]; intros acc.
  - cbn. split; [reflexivity|]. split; [reflexivity|]. intros t Ht. now apply elem_of_nil in Ht.
  - cbn [foldl]. rewrite no_rows_skipped. cbn [fst snd].
    destruct (IH (<[a := PDict (Trainer.skipped
                                  (mkdict [("test_code", PStr a); ("status", PStr "running")])
                                  "No training data")]> acc)) as (Hw & Hout & Hin).
    split; [exact Hw|]. split.
    + intros k Hk. apply not_elem_of_cons in Hk as [Hka Hk].
      rewrite (Hout k Hk). now apply lookup_insert_ne.
    + intros t Ht. destruct (decide (t ∈ tests)) as [Hin_t|Hnot]; [now apply Hin|].
      apply elem_of_cons in Ht as [->|Ht]; [|contradiction].
      rewrite (Hout a Hnot). apply lookup_insert_eq.
Qed.

(** X19: when the backend cannot be reached, both fetches are read as no
    data.  A complexity run then ends "failed" with "No training data
    available", also when it is forced, and without a completion time; a
    test-yield run records every supported test as skipped for lack of data
    and ends "failed".  Neither changes the served models or the stored
    files. *)
Theorem backend_down (e1 e2 : exn) (w : Trainer.World) (force : bool)
    (new_version : option string) :
  let crun := Trainer.train_complexity_model settings (Raise e1) (λ _, Raise e2)
                calibrated_fit classification_metrics dump_ok started_at completed_at
                version_stamp w force new_version in
  let trun := Trainer.train_all_test_yield_models settings (Raise e1) (λ _, Raise e2)
                lgbm_fit regression_metrics dump_ok started_at completed_at version_stamp
                w force in
  crun.2 = w
  ∧ crun.1 !! "status" = Some (PStr "failed")
  ∧ crun.1 !! "error" = Some (PStr "No training data available")
  ∧ crun.1 !! "completed_at" = None
  ∧ trun.2 = w
  ∧ trun.1 !! "status" = Some (PStr "failed")
  ∧ trun.1 !! "error" = Some (PStr "No models could be trained")
  ∧ ∃ models,
      trun.1 !! "models" = Some (PDict models)
      ∧ ∀ t, t ∈ TestYieldModel.SUPPORTED_TESTS →
          ∃ d, models !! t = Some (PDict d)
               ∧ d !! "status" = Some (PStr "skipped")
               ∧ d !! "reason" = Some (PStr "No training data").
Proof.
  intros crun trun. subst crun trun.
  split; [reflexivity|]. split; [reflexivity|]. split; [reflexivity|]. split; [reflexivity|].
  unfold Trainer.train_all_test_yield_models, Trainer.train_each. cbv zeta.
  cbn [DataLoader.fetch_cases_for_training DataLoader.fetch_overrides].
  destruct (train_each_no_rows w force (Trainer._generate_version version_stamp)
              TestYieldModel.SUPPORTED_TESTS ∅) as (Hw & Hout & Hin).
  destruct (foldl _ (∅, w) TestYieldModel.SUPPORTED_TESTS) as [ms w'] eqn:Hloop.
  cbn [fst snd] in Hw, Hout, Hin. subst w'.
  assert (Hzero : (0 <? length (List.filter (λ kv : string * pyval, Trainer.is_completed kv.2)
                                  (map_to_list ms)))%nat = false).
  { destruct (0 <? _)%nat eqn:Hpos; [|reflexivity].
    apply some_filtered in Hpos as ([k x] & Hkx & Hdone).
    apply list_elem_of_In, elem_of_map_to_list in Hkx. cbn in Hdone.
    destruct (decide (k ∈ TestYieldModel.SUPPORTED_TESTS)) as [Hk|Hk].
    - rewrite (Hin k Hk) in Hkx. injection Hkx as <-. discriminate Hdone.
    - rewrite (Hout k Hk), lookup_empty in Hkx. discriminate. }
  rewrite Hzero. cbn [fst snd].
  split; [reflexivity|]. split; [reflexivity|]. split; [reflexivity|].
  exists ms. split; [reflexivity|].
  intros t Ht. eexists. split; [exact (Hin t Ht)|]. split; reflexivity.
Qed.

End BackendDown.
(** ** Training jobs *)
Section Jobs.
Variable settings : Config.Settings.
Variable backend_cases : result pyval.
Variable backend_overrides : string → result pyval.
Variable calibrated_fit : ndarray → list Z → result Classifier.
Variable classification_metrics : Classifier → ndarray → list Z → result Metrics.
Variable lgbm_fit : ndarray → list float → result Regressor.
Variable regression_metrics : Regressor → ndarray → list float → result Metrics.
Variable dump_ok : Path → bool.
Variable started_at completed_at version_stamp : string.
Variable job_started job_completed : string.

Local Abbreviation train :=
  (Trainer.train settings backend_cases backend_overrides calibrated_fit
     classification_metrics lgbm_fit regression_metrics dump_ok started_at completed_at
     version_stamp).

Lemma jobs_lookup_insert (jobs : Routes.Jobs) (id : string) (job : Routes.TrainingJobStatus) :
  <[id := job]> jobs !! id = Some job.
Proof. apply lookup_insert_eq. Qed.

Lemma jobs_lookup_insert_ne (jobs : Routes.Jobs) (id id' : string)
    (job : Routes.TrainingJobStatus) :
  id ≠ id' → <[id := job]> jobs !! id' = jobs !! id'.
Proof. apply lookup_insert_ne. Qed.

Lemma train_returns (w : Trainer.World) (model_type : string) (force : bool) :
  model_type = "complexity" ∨ model_type = "test_yield" →
  ∃ result w',
    train w model_type force = Ok (result, w')
    ∧ (result !! "status" = Some (PStr "completed")
       ∨ result !! "status" = Some (PStr "failed")
         ∧ result !! "samples_used" = None ∧ result !! "metrics" = None)
    ∧ (model_type = "test_yield" →
       result !! "samples_used" = None ∧ result !! "metrics" = None).
Proof.
  intros [-> | ->]; unfold Trainer.train; cbn [String.eqb Ascii.eqb Bool.eqb].
  - eexists _, _. split; [f_equal; apply surjective_pairing|]. split; [|discriminate].
    unfold Trainer.train_complexity_model. cbv zeta.
    destruct (DataLoader.prepare_complexity_dataset _ _ _) as [[[X y] ws]|e];
      [|right; repeat split; reflexivity].
    destruct (len X =? 0); [right; repeat split; reflexivity|].
    destruct (_ && _); [right; repeat split; reflexivity|].
    destruct (ComplexityModel.fit _ _ _ _ _) as [[metrics|e] model];
      [|right; repeat split; reflexivity].
    destruct (ComplexityModel.save _ _ _ _) as [[path|e] disk'];
      [left; reflexivity|right; repeat split; reflexivity].
  - eexists _, _. split; [f_equal; apply surjective_pairing|].
    unfold Trainer.train_all_test_yield_models. cbv zeta.
    destruct (Trainer.train_each _ _ _ _ _ _ _ _ _ _ _) as [models w'].
    destruct (0 <? _)%nat; cbn [fst].
    + split; [left; reflexivity|]. intros _. split; reflexivity.
    + split; [right; repeat split; reflexivity|]. intros _. split; reflexivity.
Qed.

(** X20: a training job is stored as "pending" when it is triggered and ends
    "completed", with no error text, whenever the trainer returns, which it
    does for both model types the request accepts.  This holds also when the
    run itself reports "failed"; the job then carries neither a sample count
    nor metrics, and a test-yield job never carries them.  The other jobs of
    the table are left as they were. *)
Theorem job_completed_whatever_outcome (w : Trainer.World) (jobs : Routes.Jobs)
    (uuid model_type : string) (force : bool) :
  let triggered := Routes.trigger_training uuid model_type jobs in
  let after :=
    Routes.run_training settings backend_cases backend_overrides calibrated_fit
      classification_metrics lgbm_fit regression_metrics dump_ok started_at completed_at
      version_stamp job_started job_completed w triggered.2 triggered.1 model_type force in
  model_type = "complexity" ∨ model_type = "test_yield" →
  Routes.get_training_status triggered.2 uuid = Some triggered.1
  ∧ Routes.status triggered.1 = "pending"
  ∧ (∀ id, id ≠ uuid →
       Routes.get_training_status after.1 id = Routes.get_training_status jobs id)
  ∧ ∃ result job,
      train w model_type force = Ok (result, after.2)
      ∧ Routes.get_training_status after.1 uuid = Some job
      ∧ Routes.status job = "completed"
      ∧ Routes.error job = None
      ∧ Routes.samples_used job = get result "samples_used"
      ∧ Routes.metrics job = get result "metrics"
      ∧ (result !! "status" = Some (PStr "failed") ∨ model_type = "test_yield" →
         Routes.samples_used job = PNone ∧ Routes.metrics job = PNone).
Proof.
  intros triggered after Htype. subst triggered after.
  unfold Routes.trigger_training, Routes.run_training, Routes.get_training_status.
  cbv zeta. cbn [fst snd Routes.job_id Routes.status].
  split; [apply jobs_lookup_insert|]. split; [reflexivity|].
  destruct (train_returns w model_type force Htype) as (result & w' & Htrain & Hstatus & Hty).
  rewrite Htrain. cbn [fst snd]. split.
  - intros id Hid. now rewrite !jobs_lookup_insert_ne by congruence.
  - exists result. eexists. split; [reflexivity|]. split; [apply jobs_lookup_insert|].
    cbn [Routes.status Routes.error Routes.samples_used Routes.metrics].
    repeat (split; [reflexivity|]).
    intros [Hfailed|Hmt].
    + destruct Hstatus as [Hdone|(_ & Hs & Hm)]; [congruence|].
      unfold get. now rewrite Hs, Hm.
    + destruct (Hty Hmt) as [Hs Hm]. unfold get. now rewrite Hs, Hm.
Qed.

End Jobs.

Lemma job_completed_whatever_outcome_witness :
  (Trainer.train_complexity_model Spec.example_settings Spec.two_cases Spec.no_overrides
     Spec.failing_classifier_fit Spec.no_classification_metrics Spec.always_writable
     "2026-11-03T10:00:00" "2026-11-03T10:00:01" "20261103_100000"
     Spec.example_world false None).1 !! "status" = Some (PStr "failed")
  ∧ ∃ job,
      Routes.get_training_status
        (Routes.run_training Spec.example_settings Spec.two_cases Spec.no_overrides
           Spec.failing_classifier_fit Spec.no_classification_metrics
           Spec.constant_regressor_fit Spec.no_metrics Spec.always_writable
           "2026-11-03T10:00:00" "2026-11-03T10:00:01" "20261103_100000"
           "2026-11-03T10:00:00" "2026-11-03T10:00:02" Spec.example_world
           (Routes.trigger_training "job-1" "complexity" ∅).2
           (Routes.trigger_training "job-1" "complexity" ∅).1 "complexity" false).1 "job-1"
      = Some job
      ∧ Routes.status job = "completed".
Proof.
  split; [reflexivity|].
  destruct (job_completed_whatever_outcome Spec.example_settings Spec.two_cases
              Spec.no_overrides Spec.failing_classifier_fit Spec.no_classification_metrics
              Spec.constant_regressor_fit Spec.no_metrics Spec.always_writable
              "2026-11-03T10:00:00" "2026-11-03T10:00:01" "20261103_100000"
              "2026-11-03T10:00:00" "2026-11-03T10:00:02" Spec.example_world ∅
              "job-1" "complexity" false)
    as (_ & _ & _ & result & job & _ & Hjob & Hstatus & _).
  - left. reflexivity.
  - exists job. split; assumption.
Defined.
(** ** Complexity predictions *)
Section ComplexityPredictions.
Import ComplexityModel.

(** X21: whichever path answers, a complexity prediction names one of the
    three classes, reports as confidence the probability it returns for that
    class, and lists at most eight contributions (exactly one on the
    rule-based path). *)
Theorem complexity_prediction_invariant (scalar_round : float → float) (self : t)
    (features : gmap string pyval) (tier : string) (conf : float)
    (probs : gmap string float) (cs : list Contribution) :
  predict scalar_round self features = Ok (tier, conf, probs, cs) →
  tier ∈ CLASSES
  ∧ probs !! tier = Some conf
  ∧ (length cs ≤ 8)%nat
  ∧ (is_fitted self = false → length cs = 1%nat).
Proof.
  unfold predict. destruct (is_fitted self); cbn [negb]; intros H.
  - bind_step H. bind_step H. bind_step H. cbv zeta in H. bind_step H. bind_step H.
    bind_step H. bind_step H. injection H as <- <- <- <-.
    rename x1 into probabilities, x2 into idx, x3 into tier, x4 into conf, E2 into Hidx,
      E3 into Htier, E4 into Hconf.
    destruct (CLASSES !! idx) as [c|] eqn:Hc; [|discriminate]. injection Htier as ->.
    destruct (probabilities !! idx) as [p|] eqn:Hp; [|discriminate]. injection Hconf as ->.
    split; [eapply list_elem_of_lookup_2; eassumption|].
    split; [|split; [|discriminate]].
    + destruct idx as [|[|[|idx]]]; [| | |discriminate Hc];
        injection Hc as <-;
        destruct probabilities as [|p0 [|p1 [|p2 rest]]]; try discriminate Hp;
        injection Hp as <-; reflexivity.
    + unfold _calculate_contributions in E5. bind_step E5. injection E5 as <-.
      rewrite length_take. lia.
  - unfold _rule_based_prediction in H. cbv zeta in H.
    bind_step H. bind_step H. bind_step H. bind_step H. bind_step H.
    pose proof (tier_probs_lookup 0.1 0.2 0.7) as (Hc & _ & _).
    pose proof (tier_probs_lookup 0.2 0.6 0.2) as (_ & Hm & _).
    pose proof (tier_probs_lookup 0.7 0.2 0.1) as (_ & _ & Hr).
    destruct (0.6 <=? _)%float; [|destruct (0.3 <=? _)%float];
      rewrite ?Hc, ?Hm, ?Hr, bind_Ok in H; injection H as <- <- <- <-;
      (split; [unfold CLASSES; set_solver|]); (split; [assumption|]);
      cbn [length]; (split; [lia|reflexivity]).
Qed.

End ComplexityPredictions.

Lemma complexity_prediction_invariant_witness :
  ComplexityModel.predict round32 Spec.fresh_complexity Spec.scenario_features
  = Ok ("COMPLEX", 0.7%float, ComplexityModel.tier_probs 0.1 0.2 0.7,
        [Build_Contribution "rule_based" (PFloat 1.3) 1.3 "increases"])
  ∧ ComplexityModel.tier_probs 0.1 0.2 0.7 !! "COMPLEX" = Some 0.7%float.
Proof.
  assert (H : ComplexityModel.predict round32 Spec.fresh_complexity Spec.scenario_features
              = Ok ("COMPLEX", 0.7%float, ComplexityModel.tier_probs 0.1 0.2 0.7,
                    [Build_Contribution "rule_based" (PFloat 1.3) 1.3 "increases"]))
    by reflexivity.
  split; [exact H|].
  apply (complexity_prediction_invariant round32 Spec.fresh_complexity Spec.scenario_features
           _ _ _ _ H).
Defined.
(** ** Feature engineering *)
Section Engineering.

(** X22: the tier of an integer sum assured lies between 0 and 3 and does not
    decrease when the sum grows; a sum that is not a number raises
    [TypeError]. *)
Theorem sum_assured_tier_monotone (z z' : Z) :
  z ≤ z' →
  ∃ t t',
    FeatureEngineer.get_sum_assured_tier (PInt z) = Ok t
    ∧ FeatureEngineer.get_sum_assured_tier (PInt z') = Ok t'
    ∧ 0 ≤ t ∧ t ≤ t' ∧ t' ≤ 3
    ∧ (t = 3 ↔ 10000000 ≤ z)
    ∧ (t = 0 ↔ z < 2500000)
    ∧ ∀ v, as_num v = None → FeatureEngineer.get_sum_assured_tier v = Raise TypeError.
Proof.
  intros Hle. unfold FeatureEngineer.get_sum_assured_tier, ge_int. cbn [as_num].
  rewrite !bind_Ok.
  destruct (10000000 <=? z) eqn:H3; destruct (10000000 <=? z') eqn:H3';
    destruct (5000000 <=? z) eqn:H2; destruct (5000000 <=? z') eqn:H2';
    destruct (2500000 <=? z) eqn:H1; destruct (2500000 <=? z') eqn:H1';
    rewrite ?bind_Ok; eexists _, _; (split; [reflexivity|]); (split; [reflexivity|]);
    rewrite ?Z.leb_le, ?Z.leb_gt in *;
    (split; [lia|]); (split; [lia|]); (split; [lia|]); (split; [lia|]); (split; [lia|]);
    intros v Hv; rewrite Hv; reflexivity.
Qed.

Lemma sum_assured_tier_monotone_witness :
  ∃ t t',
    FeatureEngineer.get_sum_assured_tier (PInt 4000000) = Ok t
    ∧ FeatureEngineer.get_sum_assured_tier (PInt 7500000) = Ok t'
    ∧ t ≤ t'.
Proof.
  destruct (sum_assured_tier_monotone 4000000 7500000) as (t & t' & H1 & H2 & _ & Hle & _);
    [lia|].
  exists t, t'. auto.
Defined.

(** X23: for a date of birth the library accepts, the computed age does not
    decrease as the clock advances, and it is not negative from the day of
    birth on. *)
Theorem calculate_age_monotone (fromisoformat : string → option FeatureEngineer.date)
    (today1 today2 dob : FeatureEngineer.date) (s : string) :
  s ≠ "" →
  fromisoformat (replace_char "Z" "+00:00" s) = Some dob →
  Spec.date_le today1 today2 = true →
  ∃ a1 a2,
    FeatureEngineer.calculate_age fromisoformat today1 (PStr s) = PInt a1
    ∧ FeatureEngineer.calculate_age fromisoformat today2 (PStr s) = PInt a2
    ∧ a1 ≤ a2
    ∧ (Spec.date_le dob today1 = true → 0 ≤ a1).
Proof.
  intros Hs Hdob Hle. unfold FeatureEngineer.calculate_age. cbn [truthy].
  apply String.eqb_neq in Hs. rewrite Hs. cbn [negb]. rewrite Hdob. cbv zeta.
  eexists _, _. split; [reflexivity|]. split; [reflexivity|].
  unfold Spec.date_le, FeatureEngineer.md_lt in *.
  destruct today1 as [y1 m1 d1], today2 as [y2 m2 d2], dob as [y m d].
  cbn [FeatureEngineer.year FeatureEngineer.month FeatureEngineer.day] in *.
  split.
  - destruct ((m1 <? m) || (m1 =? m) && (d1 <? d)) eqn:E1;
      destruct ((m2 <? m) || (m2 =? m) && (d2 <? d)) eqn:E2; lia.
  - intros Hborn. destruct ((m1 <? m) || (m1 =? m) && (d1 <? d)) eqn:E1; lia.
Qed.

Lemma calculate_age_monotone_witness :
  ∃ a1 a2,
    FeatureEngineer.calculate_age Spec.iso_calendar_date Spec.eve_of_birthday
      (PStr "2000-06-15") = PInt a1
    ∧ FeatureEngineer.calculate_age Spec.iso_calendar_date Spec.birthday
        (PStr "2000-06-15") = PInt a2
    ∧ a1 ≤ a2.
Proof.
  destruct (calculate_age_monotone Spec.iso_calendar_date Spec.eve_of_birthday Spec.birthday
              {| FeatureEngineer.year := 2000; FeatureEngineer.month := 6;
                 FeatureEngineer.day := 15 |} "2000-06-15")
    as (a1 & a2 & H1 & H2 & Hle & _).
  - discriminate.
  - vm_compute. reflexivity.
  - vm_compute. reflexivity.
  - exists a1, a2. auto.
Defined.

End Engineering.
Section DisclosureCounts.

Lemma count_loop_bounds (l : list pyval) :
  ∀ nc nm nf ns nc' nm' nf' ns',
    FeatureEngineer.count_loop l (nc, nm, nf, ns) = Ok (nc', nm', nf', ns') →
    nc ≤ nc' ∧ nm ≤ nm' ∧ nf ≤ nf' ∧ ns ≤ ns'
    ∧ (nc' - nc) + (nm' - nm) + (nf' - nf) + (ns' - ns) ≤ Z.of_nat (length l).
Proof.
  induction l as [|v l IH]; intros nc nm nf ns nc' nm' nf' ns' H.
  - injection H as <- <- <- <-. cbn. lia.
  - cbn [FeatureEngineer.count_loop] in H. bind_step H. cbn [length].
    repeat (match type of H with
            | context [if ?c then _ else _] => destruct c
            end);
      apply IH in H; lia.
Qed.

(** X24: the four disclosure counts are never negative and together never
    exceed the number of disclosures: an entry of any other type is counted
    nowhere. *)
Theorem disclosure_counts_bounded (l : list pyval) (counts : gmap string pyval) :
  FeatureEngineer.count_disclosures (PList l) = Ok counts →
  ∃ nc nm nf ns,
    counts !! "condition_count" = Some (PInt nc)
    ∧ counts !! "medication_count" = Some (PInt nm)
    ∧ counts !! "family_history_count" = Some (PInt nf)
    ∧ counts !! "surgery_count" = Some (PInt ns)
    ∧ 0 ≤ nc ∧ 0 ≤ nm ∧ 0 ≤ nf ∧ 0 ≤ ns
    ∧ nc + nm + nf + ns ≤ Z.of_nat (length l).
Proof.
  intros H. apply count_disclosures_shape in H as (l' & nc & nm & nf & ns & Hl & Hloop & ->).
  injection Hl as <-. exists nc, nm, nf, ns.
  apply count_loop_bounds in Hloop.
  split; [reflexivity|]. split; [reflexivity|]. split; [reflexivity|]. split; [reflexivity|].
  lia.
Qed.

End DisclosureCounts.

Lemma disclosure_counts_bounded_witness :
  FeatureEngineer.count_disclosures Spec.scenario_disclosures
  = Ok (mkdict [("condition_count", PInt 1); ("medication_count", PInt 0);
                ("family_history_count", PInt 0); ("surgery_count", PInt 0)])
  ∧ ∃ nc nm nf ns,
      mkdict [("condition_count", PInt 1); ("medication_count", PInt 0);
              ("family_history_count", PInt 0); ("surgery_count", PInt 0)]
        !! "condition_count" = Some (PInt nc)
      ∧ nc + nm + nf + ns ≤ 1.
Proof.
  assert (H : FeatureEngineer.count_disclosures
                (PList [PDict (mkdict [("disclosure_type", PStr "condition");
                                       ("condition_name", PStr "Coronary artery disease")])])
              = Ok (mkdict [("condition_count", PInt 1); ("medication_count", PInt 0);
                            ("family_history_count", PInt 0); ("surgery_count", PInt 0)]))
    by reflexivity.
  split; [exact H|].
  destruct (disclosure_counts_bounded _ _ H)
    as (nc & nm & nf & ns & Hc & _ & _ & _ & _ & _ & _ & _ & Hsum).
  exists nc, nm, nf, ns. split; [exact Hc|exact Hsum].
Defined.

Section PreparedVector.
Variable fromisoformat : string → option FeatureEngineer.date.
Variable today : FeatureEngineer.date.

Lemma merge_into_lookup_None (a b : gmap string pyval) (k : string) :
  a !! k = None → b !! k = None → merge_into a b !! k = None.
Proof. intros Ha Hb. unfold merge_into. apply lookup_union_None. auto. Qed.

Ltac not_engineered Hk :=
  cbn [mkdict foldl fst snd];
  rewrite ?lookup_insert_ne;
  [apply lookup_empty
  |intros <-; apply Hk; apply list_elem_of_In; cbn; tauto ..].

Lemma all_features_names (applicant : gmap string pyval) (sum_assured disclosures : pyval)
    (feats : gmap string pyval) (k : string) :
  FeatureEngineer.all_features fromisoformat today applicant sum_assured disclosures = Ok feats →
  k ∉ Spec.engineered_names →
  feats !! k = None.
Proof.
  unfold FeatureEngineer.all_features. intros H Hk.
  bind_step H. bind_step H. bind_step H. bind_step H. bind_step H. bind_step H.
  injection H as <-.
  apply extract_condition_flags_shape in E0 as (l & cn & _ & _ & ->).
  apply extract_family_history_flags_shape in E1 as (l' & fn & _ & _ & ->).
  apply count_disclosures_shape in E2 as (l'' & nc & nm & nf & ns & _ & _ & ->).
  repeat apply merge_into_lookup_None.
  - not_engineered Hk.
  - unfold FeatureEngineer.condition_flags_of. not_engineered Hk.
  - unfold FeatureEngineer.family_flags_of. not_engineered Hk.
  - not_engineered Hk.
Qed.

(** X25: for an applicant whose age and bmi are [None] or numbers, so that
    every cell handed to the array cast is one, the prepared vector has one
    entry per requested feature name, in order, and a name under which no
    value is computed is filled with 0. *)
Theorem prepare_features_width (applicant : gmap string pyval)
    (sum_assured disclosures : pyval) (feature_names : list string) (vector : list float) :
  Spec.plain_number (get applicant "age") = true →
  Spec.plain_number (get applicant "bmi") = true →
  FeatureEngineer.prepare_features fromisoformat today applicant sum_assured disclosures
    feature_names = Ok vector →
  length vector = length feature_names
  ∧ ∀ i name, feature_names !! i = Some name → name ∉ Spec.engineered_names →
              vector !! i = Some 0%float.
Proof.
  unfold FeatureEngineer.prepare_features. intros _ _ H. bind_step H. rename x into feats.
  unfold np_array_f32 in H. split.
  - apply mapM_length in H. now rewrite H, length_fmap.
  - intros i name Hi Hname.
    assert (Hcell : ((λ name, get_or feats name (PInt 0)) <$> feature_names) !! i
                    = Some (PInt 0)).
    { rewrite list_lookup_fmap, Hi. cbn. unfold get_or.
      now rewrite (all_features_names _ _ _ _ _ E Hname). }
    destruct (mapM_lookup _ _ _ _ _ H Hcell) as (y & Hy & Hv).
    rewrite Hv. now injection Hy as <-.
Qed.

End PreparedVector.

Lemma prepare_features_width_witness :
  Spec.plain_number (get Spec.aged_applicant "age") = true
  ∧ Spec.plain_number (get Spec.aged_applicant "bmi") = true
  ∧ FeatureEngineer.prepare_features Spec.iso_calendar_date Spec.birthday Spec.aged_applicant
      (PInt 5000000) (PList []) ["age"; "shoe_size"] = Ok [41%float; 0%float]
  ∧ [41%float; 0%float] !! 1%nat = Some 0%float.
Proof.
  assert (H : FeatureEngineer.prepare_features Spec.iso_calendar_date Spec.birthday
                Spec.aged_applicant (PInt 5000000) (PList []) ["age"; "shoe_size"]
              = Ok [41%float; 0%float]) by (vm_compute; reflexivity).
  split; [reflexivity|]. split; [reflexivity|]. split; [exact H|].
  destruct (prepare_features_width Spec.iso_calendar_date Spec.birthday Spec.aged_applicant
              (PInt 5000000) (PList []) ["age"; "shoe_size"] _ eq_refl eq_refl H)
    as [_ Hzero].
  apply (Hzero 1%nat "shoe_size"); [reflexivity|].
  intros Hin. apply list_elem_of_In in Hin. cbn in Hin.
  repeat (destruct Hin as [Hin|Hin]; [discriminate Hin|]). exact Hin.
Defined.
Section ManagerSaves.

(** X26: on the manager built at start-up, saving the complexity model never
    fails for want of a model, only when the write fails, while saving a test
    the health report gives as not loaded, or an unsupported one, raises
    [ValueError] and writes nothing. *)
Theorem fresh_manager_saves (settings : Config.Settings) (disk : Disk) (dump_ok : Path → bool)
    (test_code : string) (version_ : option string) (d : Disk) :
  ModelManager.get_loaded_models (ModelManager.init settings disk)
    !! ("test_yield_" +:+ lower test_code) = Some false
  ∨ test_code ∉ TestYieldModel.SUPPORTED_TESTS →
  ModelManager.save_test_yield_model dump_ok (ModelManager.init settings disk) test_code
    version_ d
  = (Raise (ValueError ("No model for test " +:+ test_code)), d)
  ∧ ((∃ path, (ModelManager.save_complexity_model dump_ok (ModelManager.init settings disk)
                 version_ d).1 = Ok path)
     ∨ ModelManager.save_complexity_model dump_ok (ModelManager.init settings disk) version_ d
       = (Raise OSError, d)).
Proof.
  intros Hnot. split.
  - unfold ModelManager.save_test_yield_model.
    change (ModelManager.test_yield_model (ModelManager.init settings disk))
      with (Some (TestYieldModel.load (TestYieldModel.init settings)
                    (Some (Config.current_model_version settings)) disk).2).
    cbv iota.
    assert (Hnone : TestYieldModel.models
                      (TestYieldModel.load (TestYieldModel.init settings)
                         (Some (Config.current_model_version settings)) disk).2 !! test_code
                    = None).
    { unfold TestYieldModel.load.
      destruct (load_from_spec disk (Some (Config.current_model_version settings))
                  TestYieldModel.SUPPORTED_TESTS supported_nodup ∅
                  (TestYieldModel.init settings)) as (_ & _ & Hout & Hin).
      destruct (decide (test_code ∈ TestYieldModel.SUPPORTED_TESTS)) as [Hsup|Hsup].
      - destruct Hnot as [Hfalse|Hno]; [|contradiction].
        destruct (loaded_models_bank (ModelManager.init settings disk)
                    (TestYieldModel.load (TestYieldModel.init settings)
                       (Some (Config.current_model_version settings)) disk).2 eq_refl)
          as [_ Ht].
        rewrite (Ht test_code Hsup) in Hfalse. unfold TestYieldModel.load in Hfalse.
        specialize (Hin test_code Hsup).
        destruct (disk !! TestYieldModel.get_model_path _ test_code _) as [[]|].
        + now destruct Hin as (_ & -> & _).
        + destruct Hin as (_ & _ & Hfit & _). rewrite Hfit in Hfalse. discriminate Hfalse.
        + now destruct Hin as (_ & -> & _).
      - now destruct (Hout test_code Hsup) as (_ & -> & _). }
    unfold TestYieldModel.save. now rewrite Hnone.
  - unfold ModelManager.save_complexity_model.
    change (ModelManager.complexity_model (ModelManager.init settings disk))
      with (Some (ComplexityModel.load (ComplexityModel.init settings)
                    (Some (Config.current_model_version settings)) disk).2).
    cbv iota. unfold ComplexityModel.save. cbv zeta.
    destruct (dump_ok _); [left; eexists; reflexivity|right; reflexivity].
Qed.

Lemma fresh_manager_saves_witness :
  ModelManager.save_test_yield_model Spec.always_writable Spec.example_manager "ECG" None ∅
  = (Raise (ValueError "No model for test ECG"), ∅).
Proof.
  apply (fresh_manager_saves Spec.example_settings ∅ Spec.always_writable "ECG" None ∅).
  left. reflexivity.
Defined.

End ManagerSaves.
(** * The full test-yield run *)

(** ** What a run leaves behind *)
Section YieldRunEffects.
Variable settings : Config.Settings.
Variable lgbm_fit : ndarray → list float → result Regressor.
Variable regression_metrics : Regressor → ndarray → list float → result Metrics.
Variable dump_ok : Path → bool.
Variable version_stamp : string.
Variables cases overrides : pyval.
Variable force : bool.

Local Abbreviation version := (Trainer._generate_version version_stamp).
Local Abbreviation train_one :=
  (Trainer.train_test_yield_model settings lgbm_fit regression_metrics dump_ok version_stamp).
Local Abbreviation trained :=
  (Spec.trained settings lgbm_fit regression_metrics dump_ok force cases overrides version).
Local Abbreviation expected :=
  (Spec.expected_outcome settings lgbm_fit regression_metrics dump_ok force cases overrides
     version).
Local Abbreviation bank w :=
  (default (TestYieldModel.init settings) (ModelManager.test_yield_model (Trainer.manager w))).

Lemma version_or_generated (own : string) : version_or (Some version) own = version.
Proof. reflexivity. Qed.

(** One pass of the loop: the outcome recorded, the file written and the
    regressor installed in the manager's bank. *)
Lemma train_one_effect (w : Trainer.World) (t : string) :
  mem t TestYieldModel.SUPPORTED_TESTS = true →
  (train_one w t cases overrides force (Some version)).1 !! "status"
  = Some (PStr (expected t))
  ∧ Trainer.disk (train_one w t cases overrides force (Some version)).2
    = match trained t with
      | Some (model, metrics) =>
          <[(version, "test_yield_" +:+ lower t +:+ ".joblib")
            := TestYieldArtifact (Some model) (TestYieldModel.feature_names (bank w))
                 version metrics]> (Trainer.disk w)
      | None => Trainer.disk w
      end
  ∧ (ModelManager.test_yield_model (Trainer.manager w) = None →
     Trainer.manager (train_one w t cases overrides force (Some version)).2
     = Trainer.manager w)
  ∧ (∀ tym, ModelManager.test_yield_model (Trainer.manager w) = Some tym →
       ∃ tym',
         ModelManager.test_yield_model
           (Trainer.manager (train_one w t cases overrides force (Some version)).2)
         = Some tym'
         ∧ TestYieldModel.feature_names tym' = TestYieldModel.feature_names tym
         ∧ (∀ k, k ≠ t →
              TestYieldModel.models tym' !! k = TestYieldModel.models tym !! k
              ∧ TestYieldModel.is_fitted tym' !! k = TestYieldModel.is_fitted tym !! k
              ∧ TestYieldModel.training_metrics tym' !! k
                = TestYieldModel.training_metrics tym !! k)
         ∧ (∀ model metrics, trained t = Some (model, metrics) →
              TestYieldModel.models tym' !! t = Some (Some model)
              ∧ TestYieldModel.is_fitted tym' !! t = Some true
              ∧ TestYieldModel.training_metrics tym' !! t = Some metrics)).
Proof.
  intros Hsup.
  unfold Trainer.train_test_yield_model, Spec.expected_outcome, Spec.trained, Spec.rows,
    Spec.trains.
  destruct (DataLoader.prepare_test_yield_dataset settings t cases overrides)
    as [[[X y] sw]|e].
  2: { cbn [fst snd]. split; [reflexivity|]. split; [reflexivity|]. split; [auto|].
       intros tym Htym. exists tym. repeat split; auto; discriminate. }
  destruct (len X =? 0) eqn:Hzero; cbn [negb andb fst snd].
  { split; [reflexivity|]. split; [reflexivity|]. split; [auto|].
    intros tym Htym. exists tym. repeat split; auto; discriminate. }
  rewrite (Z.ltb_antisym (Config.min_training_samples settings `div` 2) (len X)).
  destruct (Config.min_training_samples settings `div` 2 <=? len X), force;
    cbn [negb andb orb fst snd].
  4: { split; [reflexivity|]. split; [reflexivity|]. split; [auto|].
       intros tym Htym. exists tym. repeat split; auto; discriminate. }
  all: unfold TestYieldModel.fit; rewrite Hsup; cbn [negb].
  all: destruct (lgbm_fit X y) as [model|e].
  all: try destruct (regression_metrics model X y) as [metrics|e'].
  all: unfold TestYieldModel.save, TestYieldModel.get_model_path;
    cbn [TestYieldModel.models TestYieldModel.set_version TestYieldModel.version
         TestYieldModel.set_metrics TestYieldModel.set_fitted
         TestYieldModel.feature_names TestYieldModel.training_metrics];
    rewrite ?lookup_insert_eq, ?version_or_generated.
  all: try destruct (dump_ok _).
  all: cbn [fst snd default].
  all: (split; [reflexivity|]).
  all: unfold Trainer.store.
  all: destruct (ModelManager.test_yield_model (Trainer.manager w)) as [tym0|] eqn:Hbank;
    cbn [Trainer.disk Trainer.manager default ModelManager.test_yield_model].
  all: rewrite ?lookup_insert_eq; cbn [default].
  all: (split; [reflexivity|]).
  all: (split; [try discriminate; reflexivity|]).
  all: intros tym [= <-] || (intros tym [=]).
  all: eexists; (split; [reflexivity|]); cbn [TestYieldModel.models TestYieldModel.set_version
         TestYieldModel.version TestYieldModel.is_fitted
         TestYieldModel.set_metrics TestYieldModel.set_fitted
         TestYieldModel.feature_names TestYieldModel.training_metrics].
  all: (split; [reflexivity|]).
  all: split; [intros k Hk; rewrite ?lookup_insert_ne by congruence; auto|].
  all: intros model' metrics' [=]; subst; rewrite ?lookup_insert_eq; auto.
Qed.

Lemma train_one_names (w : Trainer.World) (t : string) :
  mem t TestYieldModel.SUPPORTED_TESTS = true →
  TestYieldModel.feature_names (bank (train_one w t cases overrides force (Some version)).2)
  = TestYieldModel.feature_names (bank w).
Proof.
  intros Hsup. destruct (train_one_effect w t Hsup) as (_ & _ & Hnone & Hsome).
  destruct (ModelManager.test_yield_model (Trainer.manager w)) as [tym|] eqn:Hbank.
  - destruct (Hsome tym eq_refl) as (tym' & -> & Hnames & _). exact Hnames.
  - now rewrite (Hnone eq_refl), Hbank.
Qed.

Local Abbreviation loop acc w tests :=
  (foldl (λ (acc : gmap string pyval * Trainer.World) test_code,
            let '(model_result, w') :=
              train_one acc.2 test_code cases overrides force (Some version) in
            (<[test_code := PDict model_result]> acc.1, w'))
         (acc, w) tests).

(** The loop over a list of distinct supported test codes: each gets its
    outcome, each test that trained leaves its file and its regressor, and
    nothing else is touched. *)
Lemma train_each_effect (tests : list string) :
  NoDup tests →
  (∀ t, t ∈ tests → t ∈ TestYieldModel.SUPPORTED_TESTS) →
  ∀ (acc : gmap string pyval) (w : Trainer.World),
    (∀ k, k ∉ tests → (loop acc w tests).1 !! k = acc !! k)
    ∧ (∀ t, t ∈ tests →
         ∃ d, (loop acc w tests).1 !! t = Some (PDict d)
              ∧ d !! "status" = Some (PStr (expected t)))
    ∧ (∀ t model metrics, t ∈ tests → trained t = Some (model, metrics) →
         Trainer.disk (loop acc w tests).2
           !! (version, "test_yield_" +:+ lower t +:+ ".joblib")
         = Some (TestYieldArtifact (Some model) (TestYieldModel.feature_names (bank w))
                   version metrics))
    ∧ (∀ p : Path,
         (∀ t, t ∈ tests → is_Some (trained t) →
               p ≠ (version, "test_yield_" +:+ lower t +:+ ".joblib")) →
         Trainer.disk (loop acc w tests).2 !! p = Trainer.disk w !! p)
    ∧ (ModelManager.test_yield_model (Trainer.manager w) = None →
       Trainer.manager (loop acc w tests).2 = Trainer.manager w)
    ∧ (∀ tym, ModelManager.test_yield_model (Trainer.manager w) = Some tym →
         ∃ tym',
           ModelManager.test_yield_model (Trainer.manager (loop acc w tests).2) = Some tym'
           ∧ TestYieldModel.feature_names tym' = TestYieldModel.feature_names tym
           ∧ (∀ k, k ∉ tests →
                TestYieldModel.models tym' !! k = TestYieldModel.models tym !! k
                ∧ TestYieldModel.is_fitted tym' !! k = TestYieldModel.is_fitted tym !! k
                ∧ TestYieldModel.training_metrics tym' !! k
                  = TestYieldModel.training_metrics tym !! k)
           ∧ (∀ t model metrics, t ∈ tests → trained t = Some (model, metrics) →
                TestYieldModel.models tym' !! t = Some (Some model)
                ∧ TestYieldModel.is_fitted tym' !! t = Some true
                ∧ TestYieldModel.training_metrics tym' !! t = Some metrics)).
Proof.
  induction tests as [|a l IH]; intros Hnodup Hall acc w.
  - cbn [foldl fst snd]. split; [reflexivity|].
    split; [intros t Ht; now apply elem_of_nil in Ht|].
    split; [intros t ? ? Ht; now apply elem_of_nil in Ht|].
    split; [reflexivity|]. split; [reflexivity|].
    intros tym Htym. exists tym. split; [exact Htym|]. split; [reflexivity|].
    split; [auto|]. intros t ? ? Ht. now apply elem_of_nil in Ht.
  - apply NoDup_cons in Hnodup as [Hnotin Hnodup].
    assert (Ha : a ∈ TestYieldModel.SUPPORTED_TESTS) by (apply Hall; left).
    assert (Hl : ∀ t, t ∈ l → t ∈ TestYieldModel.SUPPORTED_TESTS)
      by (intros t Ht; apply Hall; now right).
    assert (Hsup : mem a TestYieldModel.SUPPORTED_TESTS = true) by now apply supported_mem.
    pose proof (train_one_effect w a Hsup) as (Hst & Hdisk & Hnone & Hsome).
    pose proof (train_one_names w a Hsup) as Hnames.
    cbn [foldl fst snd].
    destruct (train_one w a cases overrides force (Some version)) as [res w1].
    cbn [fst snd] in Hst, Hdisk, Hnone, Hsome, Hnames.
    destruct (IH Hnodup Hl (<[a := PDict res]> acc) w1) as (A & B & C & D & E & F).
    assert (Hpath : ∀ t, t ∈ l →
              (version, "test_yield_" +:+ lower a +:+ ".joblib")
              ≠ ((version, "test_yield_" +:+ lower t +:+ ".joblib") : Path)).
    { intros t Ht.
      apply (supported_path_ne (TestYieldModel.init settings)
               (TestYieldModel.init settings) (Some version) (Some version) a t Ha (Hl t Ht)).
      intros ->. contradiction. }
    split; [|split; [|split; [|split; [|split]]]].
    + intros k Hk. apply not_elem_of_cons in Hk as [Hka Hkl].
      rewrite (A k Hkl). now apply lookup_insert_ne.
    + intros t Ht. apply elem_of_cons in Ht as [->|Ht]; [|now apply B].
      exists res. split; [|exact Hst]. rewrite (A a Hnotin). apply lookup_insert_eq.
    + intros t model metrics Ht Htr. apply elem_of_cons in Ht as [->|Ht].
      * etrans; [exact (D _ (λ t Ht _, Hpath t Ht))|]. rewrite Hdisk, Htr.
        apply disk_lookup_insert.
      * rewrite <- Hnames. now apply C.
    + intros p Hp. etrans; [apply D; intros t Ht; apply Hp; now right|].
      rewrite Hdisk. destruct (trained a) as [[model metrics]|] eqn:Htr; [|reflexivity].
      apply disk_lookup_insert_ne. intros <-. apply (Hp a); [left|eauto|reflexivity].
    + intros Hbank. rewrite E; [now apply Hnone|]. now rewrite (Hnone Hbank).
    + intros tym Hbank. destruct (Hsome tym Hbank) as (tym1 & Hbank1 & Hn1 & Hk1 & Ht1).
      destruct (F tym1 Hbank1) as (tym' & Hbank' & Hn' & Hk' & Ht').
      exists tym'. split; [exact Hbank'|]. split; [congruence|]. split.
      * intros k Hk. apply not_elem_of_cons in Hk as [Hka Hkl].
        destruct (Hk' k Hkl) as (-> & -> & ->). now apply Hk1.
      * intros t model metrics Ht Htr. apply elem_of_cons in Ht as [->|Ht]; [|eauto].
        destruct (Hk' a Hnotin) as (-> & -> & ->). eauto.
Qed.
End YieldRunEffects.

Section YieldRunSummary.
Variable settings : Config.Settings.
Variable backend_cases : result pyval.
Variable backend_overrides : string → result pyval.
Variable lgbm_fit : ndarray → list float → result Regressor.
Variable regression_metrics : Regressor → ndarray → list float → result Metrics.
Variable dump_ok : Path → bool.
Variable started_at completed_at version_stamp : string.

Local Abbreviation version := (Trainer._generate_version version_stamp).
Local Abbreviation cases := (DataLoader.fetch_cases_for_training backend_cases).
Local Abbreviation overrides :=
  (DataLoader.fetch_overrides backend_overrides "TEST_RECOMMENDATION").
Local Abbreviation train_all :=
  (Trainer.train_all_test_yield_models settings backend_cases backend_overrides lgbm_fit
     regression_metrics dump_ok started_at completed_at version_stamp).
Local Abbreviation bank w :=
  (default (TestYieldModel.init settings) (ModelManager.test_yield_model (Trainer.manager w))).

(** A full run in terms of its nine passes. *)
Lemma test_yield_run_effect (w : Trainer.World) (force : bool) :
  let trained :=
    Spec.trained settings lgbm_fit regression_metrics dump_ok force cases overrides version in
  let expected :=
    Spec.expected_outcome settings lgbm_fit regression_metrics dump_ok force cases overrides
      version in
  let models := Spec.run_models (train_all w force).1 in
  (train_all w force).1 !! "models" = Some (PDict models)
  ∧ (∀ k, is_Some (models !! k) ↔ k ∈ TestYieldModel.SUPPORTED_TESTS)
  ∧ (∀ t, t ∈ TestYieldModel.SUPPORTED_TESTS → Spec.outcome models t = PStr (expected t))
  ∧ ((train_all w force).1 !! "status" = Some (PStr "completed")
     ↔ ∃ t, t ∈ TestYieldModel.SUPPORTED_TESTS ∧ Spec.outcome models t = PStr "completed")
  ∧ ((train_all w force).1 !! "status" = Some (PStr "completed")
     ∨ (train_all w force).1 !! "status" = Some (PStr "failed"))
  ∧ (∀ t model metrics, t ∈ TestYieldModel.SUPPORTED_TESTS →
       trained t = Some (model, metrics) →
       Trainer.disk (train_all w force).2
         !! (version, "test_yield_" +:+ lower t +:+ ".joblib")
       = Some (TestYieldArtifact (Some model) (TestYieldModel.feature_names (bank w))
                 version metrics))
  ∧ (∀ p : Path,
       (∀ t, t ∈ TestYieldModel.SUPPORTED_TESTS → is_Some (trained t) →
             p ≠ (version, "test_yield_" +:+ lower t +:+ ".joblib")) →
       Trainer.disk (train_all w force).2 !! p = Trainer.disk w !! p)
  ∧ (ModelManager.test_yield_model (Trainer.manager w) = None →
     Trainer.manager (train_all w force).2 = Trainer.manager w)
  ∧ (∀ tym, ModelManager.test_yield_model (Trainer.manager w) = Some tym →
       ∃ tym',
         ModelManager.test_yield_model (Trainer.manager (train_all w force).2) = Some tym'
         ∧ TestYieldModel.feature_names tym' = TestYieldModel.feature_names tym
         ∧ (∀ k, k ∉ TestYieldModel.SUPPORTED_TESTS →
              TestYieldModel.models tym' !! k = TestYieldModel.models tym !! k
              ∧ TestYieldModel.is_fitted tym' !! k = TestYieldModel.is_fitted tym !! k
              ∧ TestYieldModel.training_metrics tym' !! k
                = TestYieldModel.training_metrics tym !! k)
         ∧ (∀ t model metrics, t ∈ TestYieldModel.SUPPORTED_TESTS →
              trained t = Some (model, metrics) →
              TestYieldModel.models tym' !! t = Some (Some model)
              ∧ TestYieldModel.is_fitted tym' !! t = Some true
              ∧ TestYieldModel.training_metrics tym' !! t = Some metrics)).
Proof.
  intros trained expected models.
  destruct (train_each_effect settings lgbm_fit regression_metrics dump_ok version_stamp
              cases overrides force TestYieldModel.SUPPORTED_TESTS supported_nodup
              (λ t Ht, Ht) ∅ w) as (A & B & C & D & E & F).
  fold trained in C, D, F. fold expected in B.
  set (run := train_all w force) in *.
  unfold Trainer.train_all_test_yield_models, Trainer.train_each in run.
  destruct (foldl _ (∅, w) TestYieldModel.SUPPORTED_TESTS) as [ms w'] eqn:Hloop.
  cbn [fst snd] in A, B, C, D, E, F.
  assert (Hmodels : models = ms).
  { subst models run. unfold Spec.run_models. destruct (0 <? _)%nat; reflexivity. }
  assert (Hstatus : run.1 !! "status"
                    = Some (PStr (if (0 <? length (List.filter
                                        (λ kv : string * pyval, Trainer.is_completed kv.2)
                                        (map_to_list ms)))%nat
                                  then "completed" else "failed"))).
  { subst run. destruct (0 <? _)%nat; reflexivity. }
  assert (Hentry : run.1 !! "models" = Some (PDict ms)).
  { subst run. destruct (0 <? _)%nat; reflexivity. }
  assert (Hworld : run.2 = w').
  { subst run. destruct (0 <? _)%nat; reflexivity. }
  rewrite Hmodels, Hworld. clearbody run models. clear Hmodels Hloop Hworld.
  assert (Hout : ∀ t, t ∈ TestYieldModel.SUPPORTED_TESTS →
                      Spec.outcome ms t = PStr (expected t)).
  { intros t Ht. destruct (B t Ht) as (d & Hd & Hst). unfold Spec.outcome, get.
    now rewrite Hd, Hst. }
  assert (Hdom : ∀ k, is_Some (ms !! k) ↔ k ∈ TestYieldModel.SUPPORTED_TESTS).
  { intros k. split.
    - intros Hk. destruct (decide (k ∈ TestYieldModel.SUPPORTED_TESTS)) as [|Hno]; [assumption|].
      rewrite (A k Hno), lookup_empty in Hk. now destruct Hk.
    - intros Hk. destruct (B k Hk) as (d & -> & _). eauto. }
  assert (Hiff : (0 <? length (List.filter (λ kv : string * pyval, Trainer.is_completed kv.2)
                                 (map_to_list ms)))%nat = true
                 ↔ ∃ t, t ∈ TestYieldModel.SUPPORTED_TESTS
                        ∧ Spec.outcome ms t = PStr "completed").
  { rewrite some_filtered. split.
    - intros ([k v] & Hkv & Hdone). apply list_elem_of_In, elem_of_map_to_list in Hkv.
      cbn in Hdone. exists k.
      assert (Hk : k ∈ TestYieldModel.SUPPORTED_TESTS) by (apply Hdom; eauto).
      split; [exact Hk|]. unfold Spec.outcome. rewrite Hkv.
      destruct v; try discriminate. now apply eq_str_true.
    - intros (t & Ht & Hdone). destruct (B t Ht) as (d & Hd & Hst).
      exists (t, PDict d). split; [now apply list_elem_of_In, elem_of_map_to_list|].
      cbn. apply eq_str_true. unfold Spec.outcome in Hdone. now rewrite Hd in Hdone. }
  split; [exact Hentry|]. split; [exact Hdom|]. split; [exact Hout|].
  split; [rewrite Hstatus, <- Hiff; destruct (0 <? _)%nat; split; congruence|].
  split; [rewrite Hstatus; destruct (0 <? _)%nat; auto|].
  split; [exact C|]. split; [exact D|]. split; [exact E|exact F].
Qed.

End YieldRunSummary.

(** The expected outcome in the words of the claim. *)
Lemma expected_completed (settings : Config.Settings)
    (lgbm_fit : ndarray → list float → result Regressor)
    (regression_metrics : Regressor → ndarray → list float → result Metrics)
    (dump_ok : Path → bool) (force : bool) (cases overrides : pyval) (version_ t : string) :
  Spec.expected_outcome settings lgbm_fit regression_metrics dump_ok force cases overrides
    version_ t = "completed"
  ↔ is_Some (Spec.trained settings lgbm_fit regression_metrics dump_ok force cases overrides
               version_ t).
Proof.
  unfold Spec.expected_outcome, Spec.trained, Spec.rows.
  destruct (DataLoader.prepare_test_yield_dataset settings t cases overrides)
    as [[[X y] sw]|e].
  - destruct (Spec.trains settings force (len X)).
    + destruct (lgbm_fit X y) as [model|]; [|split; [discriminate|intros [? [=]]]].
      destruct (regression_metrics model X y) as [metrics|];
        [|split; [discriminate|intros [? [=]]]].
      destruct (dump_ok _); [split; eauto|split; [discriminate|intros [? [=]]]].
    + split; [discriminate|intros [? [=]]].
  - split; [discriminate|intros [? [=]]].
Qed.

Lemma expected_skipped (settings : Config.Settings)
    (lgbm_fit : ndarray → list float → result Regressor)
    (regression_metrics : Regressor → ndarray → list float → result Metrics)
    (dump_ok : Path → bool) (force : bool) (cases overrides : pyval) (version_ t : string) :
  Spec.expected_outcome settings lgbm_fit regression_metrics dump_ok force cases overrides
    version_ t = "skipped"
  ↔ ∃ n, Spec.rows settings t cases overrides = Some n ∧ Spec.trains settings force n = false.
Proof.
  unfold Spec.expected_outcome.
  destruct (Spec.rows settings t cases overrides) as [n|].
  - destruct (Spec.trains settings force n) eqn:Htrains.
    + split.
      * destruct (Spec.trained _ _ _ _ _ _ _ _ _); discriminate.
      * intros (n' & [= <-] & Hn'). congruence.
    + split; eauto.
  - split; [discriminate|intros (n & [=] & _)].
Qed.

Lemma expected_cases (settings : Config.Settings)
    (lgbm_fit : ndarray → list float → result Regressor)
    (regression_metrics : Regressor → ndarray → list float → result Metrics)
    (dump_ok : Path → bool) (force : bool) (cases overrides : pyval) (version_ t : string) :
  Spec.expected_outcome settings lgbm_fit regression_metrics dump_ok force cases overrides
    version_ t = "completed"
  ∨ Spec.expected_outcome settings lgbm_fit regression_metrics dump_ok force cases overrides
      version_ t = "skipped"
  ∨ Spec.expected_outcome settings lgbm_fit regression_metrics dump_ok force cases overrides
      version_ t = "failed".
Proof.
  unfold Spec.expected_outcome.
  destruct (Spec.rows settings t cases overrides) as [n|]; [|auto].
  destruct (Spec.trains settings force n); [|auto].
  destruct (Spec.trained _ _ _ _ _ _ _ _ _); auto.
Qed.

Section TestYieldRunOutcomes.
Variable settings : Config.Settings.
Variable backend_cases : result pyval.
Variable backend_overrides : string → result pyval.
Variable lgbm_fit : ndarray → list float → result Regressor.
Variable regression_metrics : Regressor → ndarray → list float → result Metrics.
Variable dump_ok : Path → bool.
Variable started_at completed_at version_stamp : string.

(** C3, amended: a full test-yield run records, for each of the nine test
    codes and for nothing else, one outcome among completed, skipped and
    failed.  A test code is recorded completed exactly when its training
    went through: its rows were assembled and were enough, the learner
    returned a regressor, the scores were computed and the file was written;
    then the blob store holds, under the version of the run, that regressor
    with its scores, and the manager's bank, when there is one, has it
    installed as fitted.  A test code is recorded skipped exactly when its
    rows were assembled and were not enough.  No other file of the store is
    changed.  The status of the run is [completed] exactly when some test
    code completed, and [failed] otherwise.  So when three of the nine test
    codes have enough rows, the training of each of these goes through and
    the others have no rows, the run is [completed] with exactly three
    outcomes completed and six skipped. *)
Theorem test_yield_run_outcomes (w : Trainer.World) (force : bool) :
  let run :=
    Trainer.train_all_test_yield_models settings backend_cases backend_overrides lgbm_fit
      regression_metrics dump_ok started_at completed_at version_stamp w force in
  let cases := DataLoader.fetch_cases_for_training backend_cases in
  let overrides := DataLoader.fetch_overrides backend_overrides "TEST_RECOMMENDATION" in
  let version := Trainer._generate_version version_stamp in
  let trained :=
    Spec.trained settings lgbm_fit regression_metrics dump_ok force cases overrides version in
  let models := Spec.run_models run.1 in
  run.1 !! "models" = Some (PDict models)
  ∧ (∀ k, is_Some (models !! k) ↔ k ∈ TestYieldModel.SUPPORTED_TESTS)
  ∧ (∀ t, t ∈ TestYieldModel.SUPPORTED_TESTS →
          Spec.outcome models t = PStr "completed"
          ∨ Spec.outcome models t = PStr "skipped"
          ∨ Spec.outcome models t = PStr "failed")
  ∧ (∀ t, t ∈ TestYieldModel.SUPPORTED_TESTS →
          (Spec.outcome models t = PStr "completed" ↔ is_Some (trained t)))
  ∧ (∀ t, t ∈ TestYieldModel.SUPPORTED_TESTS →
          (Spec.outcome models t = PStr "skipped"
           ↔ ∃ n, Spec.rows settings t cases overrides = Some n
                  ∧ Spec.trains settings force n = false))
  ∧ (∀ t model metrics, t ∈ TestYieldModel.SUPPORTED_TESTS →
       trained t = Some (model, metrics) →
       Trainer.disk run.2 !! (version, "test_yield_" +:+ lower t +:+ ".joblib")
       = Some (TestYieldArtifact (Some model)
                 (TestYieldModel.feature_names
                    (default (TestYieldModel.init settings)
                       (ModelManager.test_yield_model (Trainer.manager w))))
                 version metrics)
       ∧ ∀ tym, ModelManager.test_yield_model (Trainer.manager w) = Some tym →
           ∃ tym',
             ModelManager.test_yield_model (Trainer.manager run.2) = Some tym'
             ∧ TestYieldModel.models tym' !! t = Some (Some model)
             ∧ TestYieldModel.is_fitted tym' !! t = Some true
             ∧ TestYieldModel.training_metrics tym' !! t = Some metrics)
  ∧ (∀ p : Path,
       (∀ t, t ∈ TestYieldModel.SUPPORTED_TESTS → is_Some (trained t) →
             p ≠ (version, "test_yield_" +:+ lower t +:+ ".joblib")) →
       Trainer.disk run.2 !! p = Trainer.disk w !! p)
  ∧ (run.1 !! "status" = Some (PStr "completed")
     ↔ ∃ t, t ∈ TestYieldModel.SUPPORTED_TESTS ∧ Spec.outcome models t = PStr "completed")
  ∧ (run.1 !! "status" = Some (PStr "completed") ∨ run.1 !! "status" = Some (PStr "failed"))
  ∧ ((∀ t, t ∈ TestYieldModel.SUPPORTED_TESTS →
           Spec.trains_test settings force cases overrides t = true → is_Some (trained t)) →
     (∀ t, t ∈ TestYieldModel.SUPPORTED_TESTS →
           Spec.trains_test settings force cases overrides t = false →
           Spec.rows settings t cases overrides = Some 0) →
     length (List.filter (Spec.trains_test settings force cases overrides)
               TestYieldModel.SUPPORTED_TESTS) = 3%nat →
     run.1 !! "status" = Some (PStr "completed")
     ∧ Spec.count_outcome models "completed" = 3%nat
     ∧ Spec.count_outcome models "skipped" = 6%nat).
Proof.
  intros run cases overrides version trained models.
  destruct (test_yield_run_effect settings backend_cases backend_overrides lgbm_fit
              regression_metrics dump_ok started_at completed_at version_stamp w force)
    as (Hentry & Hdom & Hout & Hiff & Hor & Hfile & Hframe & _ & Hbank).
  fold run cases overrides version trained models in Hentry, Hdom, Hout, Hiff, Hor, Hfile,
    Hframe, Hbank.
  clearbody run models.
  split; [exact Hentry|]. split; [exact Hdom|].
  split; [|split; [|split; [|split; [|split; [|split; [|split]]]]]].
  - intros t Ht. rewrite (Hout t Ht).
    destruct (expected_cases settings lgbm_fit regression_metrics dump_ok force cases
                overrides version t) as [ -> | [ -> | -> ] ]; auto.
  - intros t Ht. rewrite (Hout t Ht). split.
    + intros [= H]. now apply expected_completed in H.
    + intros H. f_equal. now apply expected_completed.
  - intros t Ht. rewrite (Hout t Ht). split.
    + intros [= H]. now apply expected_skipped in H.
    + intros H. f_equal. now apply expected_skipped.
  - intros t model metrics Ht Htr. split; [now apply Hfile|].
    intros tym Htym. destruct (Hbank tym Htym) as (tym' & Htym' & _ & _ & Hin).
    exists tym'. split; [exact Htym'|]. now apply Hin.
  - exact Hframe.
  - exact Hiff.
  - exact Hor.
  - intros Hgo Hnone Hthree.
    assert (Hall : ∀ t, t ∈ TestYieldModel.SUPPORTED_TESTS →
                        Spec.outcome models t
                        = PStr (if Spec.trains_test settings force cases overrides t
                                then "completed" else "skipped")).
    { intros t Ht. rewrite (Hout t Ht). f_equal.
      destruct (Spec.trains_test settings force cases overrides t) eqn:Htt.
      - apply expected_completed. now apply Hgo.
      - apply expected_skipped. exists 0. split; [now apply Hnone|reflexivity]. }
    assert (Hdone : Spec.count_outcome models "completed" = 3%nat).
    { unfold Spec.count_outcome. rewrite <- Hthree. f_equal. apply filter_ext_in.
      intros t Ht%list_elem_of_In. rewrite (Hall t Ht).
      now destruct (Spec.trains_test settings force cases overrides t). }
    assert (Hskip : Spec.count_outcome models "skipped" = 6%nat).
    { unfold Spec.count_outcome.
      assert (Hlen := filter_length (Spec.trains_test settings force cases overrides)
                        TestYieldModel.SUPPORTED_TESTS).
      rewrite Hthree in Hlen. cbn [length TestYieldModel.SUPPORTED_TESTS] in Hlen.
      transitivity (length (List.filter
                              (λ t, negb (Spec.trains_test settings force cases overrides t))
                              TestYieldModel.SUPPORTED_TESTS)); [|lia].
      f_equal. apply filter_ext_in.
      intros t Ht%list_elem_of_In. rewrite (Hall t Ht).
      now destruct (Spec.trains_test settings force cases overrides t). }
    split; [|split; assumption].
    apply Hiff.
    destruct (List.filter (Spec.trains_test settings force cases overrides)
                TestYieldModel.SUPPORTED_TESTS) as [|t rest] eqn:Hf; [discriminate|].
    assert (Ht : In t TestYieldModel.SUPPORTED_TESTS
                 ∧ Spec.trains_test settings force cases overrides t = true).
    { apply filter_In. rewrite Hf. now left. }
    destruct Ht as [Ht%list_elem_of_In Htrain]. exists t. split; [exact Ht|].
    now rewrite (Hall t Ht), Htrain.
Qed.

End TestYieldRunOutcomes.

Lemma test_yield_run_outcomes_witness :
  (∀ t, t ∈ TestYieldModel.SUPPORTED_TESTS →
        Spec.trains_test Spec.example_settings false Spec.fifty_cases (PList []) t = false →
        Spec.rows Spec.example_settings t Spec.fifty_cases (PList []) = Some 0)
  ∧ length (List.filter
              (Spec.trains_test Spec.example_settings false Spec.fifty_cases (PList []))
              TestYieldModel.SUPPORTED_TESTS) = 3%nat
  ∧ (Trainer.train_all_test_yield_models Spec.example_settings (Ok Spec.fifty_cases)
       Spec.no_overrides Spec.constant_regressor_fit Spec.no_metrics Spec.always_writable
       "2026-11-03T10:00:00" "2026-11-03T10:00:09" "20261103_100000"
       Spec.example_world false).1 !! "status" = Some (PStr "completed")
  ∧ Spec.count_outcome
      (Spec.run_models
         (Trainer.train_all_test_yield_models Spec.example_settings (Ok Spec.fifty_cases)
            Spec.no_overrides Spec.constant_regressor_fit Spec.no_metrics Spec.always_writable
            "2026-11-03T10:00:00" "2026-11-03T10:00:09" "20261103_100000"
            Spec.example_world false).1) "completed" = 3%nat
  ∧ Spec.count_outcome
      (Spec.run_models
         (Trainer.train_all_test_yield_models Spec.example_settings (Ok Spec.fifty_cases)
            Spec.no_overrides Spec.constant_regressor_fit Spec.no_metrics Spec.always_writable
            "2026-11-03T10:00:00" "2026-11-03T10:00:09" "20261103_100000"
            Spec.example_world false).1) "skipped" = 6%nat
  ∧ Trainer.disk
      (Trainer.train_all_test_yield_models Spec.example_settings (Ok Spec.fifty_cases)
         Spec.no_overrides Spec.constant_regressor_fit Spec.no_metrics Spec.always_writable
         "2026-11-03T10:00:00" "2026-11-03T10:00:09" "20261103_100000"
         Spec.example_world false).2 !! ("v20261103_100000", "test_yield_ecg.joblib")
    = Some (TestYieldArtifact (Some (λ _, Ok 0.5%float))
              (Config.test_yield_features Spec.example_settings) "v20261103_100000" ∅)
  ∧ ∃ bank,
      ModelManager.test_yield_model
        (Trainer.manager
           (Trainer.train_all_test_yield_models Spec.example_settings (Ok Spec.fifty_cases)
              Spec.no_overrides Spec.constant_regressor_fit Spec.no_metrics
              Spec.always_writable "2026-11-03T10:00:00" "2026-11-03T10:00:09"
              "20261103_100000" Spec.example_world false).2) = Some bank
      ∧ TestYieldModel.models bank !! "ECG" = Some (Some (λ _, Ok 0.5%float))
      ∧ TestYieldModel.is_fitted bank !! "ECG" = Some true.
Proof.
  assert (Hnone : ∀ t, t ∈ TestYieldModel.SUPPORTED_TESTS →
            Spec.trains_test Spec.example_settings false Spec.fifty_cases (PList []) t = false →
            Spec.rows Spec.example_settings t Spec.fifty_cases (PList []) = Some 0).
  { intros t Ht. unfold TestYieldModel.SUPPORTED_TESTS in Ht.
    repeat (apply elem_of_cons in Ht as [->|Ht]); [..|now apply elem_of_nil in Ht];
      vm_compute; intros H; first [discriminate H | reflexivity]. }
  assert (Hthree : length (List.filter
                             (Spec.trains_test Spec.example_settings false Spec.fifty_cases
                                (PList []))
                             TestYieldModel.SUPPORTED_TESTS) = 3%nat)
    by (vm_compute; reflexivity).
  assert (Hgo : ∀ t, t ∈ TestYieldModel.SUPPORTED_TESTS →
            Spec.trains_test Spec.example_settings false Spec.fifty_cases (PList []) t = true →
            is_Some (Spec.trained Spec.example_settings Spec.constant_regressor_fit
                       Spec.no_metrics Spec.always_writable false Spec.fifty_cases (PList [])
                       "v20261103_100000" t)).
  { intros t _. unfold Spec.trains_test, Spec.trained, Spec.rows.
    destruct (DataLoader.prepare_test_yield_dataset _ _ _ _) as [[[X y] sw]|]; [|discriminate].
    intros ->. cbn. eauto. }
  assert (Hecg : Spec.trained Spec.example_settings Spec.constant_regressor_fit
                   Spec.no_metrics Spec.always_writable false Spec.fifty_cases (PList [])
                   "v20261103_100000" "ECG"
                 = Some ((λ _, Ok 0.5%float) : Regressor, ∅ : Metrics)).
  { assert (Htt : Spec.trains_test Spec.example_settings false Spec.fifty_cases (PList [])
                    "ECG" = true) by (vm_compute; reflexivity).
    revert Htt. unfold Spec.trains_test, Spec.trained, Spec.rows.
    destruct (DataLoader.prepare_test_yield_dataset _ _ _ _) as [[[X y] sw]|]; [|discriminate].
    intros ->. reflexivity. }
  split; [exact Hnone|]. split; [exact Hthree|].
  destruct (test_yield_run_outcomes Spec.example_settings (Ok Spec.fifty_cases)
              Spec.no_overrides Spec.constant_regressor_fit Spec.no_metrics
              Spec.always_writable "2026-11-03T10:00:00" "2026-11-03T10:00:09"
              "20261103_100000" Spec.example_world false)
    as (_ & _ & _ & _ & _ & Hfile & _ & _ & _ & Hrun).
  destruct (Hrun Hgo Hnone Hthree) as (Hstatus & Hdone & Hskip).
  split; [exact Hstatus|]. split; [exact Hdone|]. split; [exact Hskip|].
  assert (Hin : "ECG" ∈ TestYieldModel.SUPPORTED_TESTS)
    by (do 2 apply list_elem_of_further; apply list_elem_of_here).
  destruct (Hfile "ECG" (λ _, Ok 0.5%float) ∅ Hin Hecg) as [Hdisk Hbank].
  split; [exact Hdisk|].
  destruct (Hbank _ eq_refl) as (bank & Hb & Hm & Hf & _).
  exists bank. split; [exact Hb|]. split; [exact Hm|exact Hf].
Defined.

(** C3 as stated fails: fifty cases give three of the nine test codes fifty
    rows each, the per-test minimum, and the other six none; the blob store
    refuses every write.  The three test codes are recorded failed, none
    completed, and the run is [failed]. *)
Lemma test_yield_run_counterexample :
  length (List.filter
            (Spec.trains_test Spec.example_settings false Spec.fifty_cases (PList []))
            TestYieldModel.SUPPORTED_TESTS) = 3%nat
  ∧ (∀ t, t ∈ TestYieldModel.SUPPORTED_TESTS →
          Spec.rows Spec.example_settings t Spec.fifty_cases (PList []) = Some 50
          ∨ Spec.rows Spec.example_settings t Spec.fifty_cases (PList []) = Some 0)
  ∧ Config.min_training_samples Spec.example_settings `div` 2 = 50
  ∧ (Trainer.train_all_test_yield_models Spec.example_settings (Ok Spec.fifty_cases)
       Spec.no_overrides Spec.constant_regressor_fit Spec.no_metrics Spec.never_writable
       "2026-11-03T10:00:00" "2026-11-03T10:00:09" "20261103_100000"
       Spec.example_world false).1 !! "status" = Some (PStr "failed")
  ∧ Spec.count_outcome
      (Spec.run_models
         (Trainer.train_all_test_yield_models Spec.example_settings (Ok Spec.fifty_cases)
            Spec.no_overrides Spec.constant_regressor_fit Spec.no_metrics Spec.never_writable
            "2026-11-03T10:00:00" "2026-11-03T10:00:09" "20261103_100000"
            Spec.example_world false).1) "completed" = 0%nat
  ∧ Spec.count_outcome
      (Spec.run_models
         (Trainer.train_all_test_yield_models Spec.example_settings (Ok Spec.fifty_cases)
            Spec.no_overrides Spec.constant_regressor_fit Spec.no_metrics Spec.never_writable
            "2026-11-03T10:00:00" "2026-11-03T10:00:09" "20261103_100000"
            Spec.example_world false).1) "failed" = 3%nat
  ∧ Spec.count_outcome
      (Spec.run_models
         (Trainer.train_all_test_yield_models Spec.example_settings (Ok Spec.fifty_cases)
            Spec.no_overrides Spec.constant_regressor_fit Spec.no_metrics Spec.never_writable
            "2026-11-03T10:00:00" "2026-11-03T10:00:09" "20261103_100000"
            Spec.example_world false).1) "skipped" = 6%nat.
Proof.
  split; [vm_compute; reflexivity|].
  split.
  { intros t Ht. unfold TestYieldModel.SUPPORTED_TESTS in Ht.
    repeat (apply elem_of_cons in Ht as [->|Ht]); [..|now apply elem_of_nil in Ht];
      vm_compute; auto. }
  split; [reflexivity|].
  destruct (test_yield_run_effect Spec.example_settings (Ok Spec.fifty_cases)
              Spec.no_overrides Spec.constant_regressor_fit Spec.no_metrics
              Spec.never_writable "2026-11-03T10:00:00" "2026-11-03T10:00:09"
              "20261103_100000" Spec.example_world false)
    as (_ & _ & Hout & Hiff & Hor & _).
  set (models := Spec.run_models _) in *.
  assert (Hcount : ∀ s,
            Spec.count_outcome models s
            = length (List.filter
                        (λ t, String.eqb
                                (Spec.expected_outcome Spec.example_settings
                                   Spec.constant_regressor_fit Spec.no_metrics
                                   Spec.never_writable false Spec.fifty_cases (PList [])
                                   "v20261103_100000" t) s)
                        TestYieldModel.SUPPORTED_TESTS)).
  { intros s. unfold Spec.count_outcome. apply (f_equal length), filter_ext_in.
    intros t Ht%list_elem_of_In. now rewrite (Hout t Ht). }
  split.
  { destruct Hor as [Hc|Hf]; [|exact Hf]. exfalso.
    apply Hiff in Hc as (t & Ht & Hc). rewrite (Hout t Ht) in Hc. injection Hc as Hc.
    revert Hc. unfold TestYieldModel.SUPPORTED_TESTS in Ht.
    repeat (apply elem_of_cons in Ht as [->|Ht]); [..|now apply elem_of_nil in Ht];
      vm_compute; intros [=]. }
  rewrite !Hcount. split; [|split]; vm_compute; reflexivity.
Qed.
